(** * planner-calendar: the calendar projection and rendering engine

    A shallow embedding of [src/main.py] (functions [generate_calendar_html]
    and the colour loop of [main]) together with the parts of the Python
    standard library the code calls ([datetime], [calendar], [colorsys]),
    followed by the properties of the engine.

    Conventions
    - Python [int] is [Z]; [//] and [%] are [Z.div] and [Z.modulo] (both
      floor towards minus infinity, as in Python, for a positive divisor).
    - Python [str] is [string], read as the UTF-8 bytes of the text.  The
      operations the engine uses (concatenation, single-character
      [replace], comparison, hashing of [.encode()]) act the same way on
      the bytes as on the code points.
    - Python [float] is [Q]: the colour arithmetic is carried out exactly.
    - an exception is a value of [exn]; code that may raise returns
      [result A]. *)

From Stdlib Require Import ZArith QArith Qround Lia Lqa String Ascii List Bool.
From Stdlib Require Import DecimalString Sorted DecimalPos.
From stdpp Require Import base decidable countable gmap strings list.

Local Open Scope string_scope.
Local Open Scope Z_scope.

(** ** Exceptions *)

Inductive exn : Type :=
| ValueError
| OverflowError
| IndexError
| IllegalMonthError
| OutOfFuel.  (* not a Python exception: a [while] unrolled too few times *)

Inductive result (A : Type) : Type :=
| Ok (a : A)
| Raise (e : exn).
Arguments Ok {A} a.
Arguments Raise {A} e.

Definition rbind {A B} (r : result A) (k : A -> result B) : result B :=
  match r with
  | Ok a => k a
  | Raise e => Raise e
  end.

Notation "'let!' x ':=' r 'in' k" := (rbind r (fun x => k))
  (at level 10, x pattern, r at level 100, k at level 200).

Fixpoint mapM {A B} (f : A -> result B) (l : list A) : result (list B) :=
  match l with
  | [] => Ok []
  | x :: xs =>
      let! y := f x in
      let! ys := mapM f xs in
      Ok (y :: ys)
  end.

Definition succeeds {A} (r : result A) : Prop := exists a, r = Ok a.

(** ** [datetime]: proleptic Gregorian dates (pure-Python reference code) *)

Module datetime.

Definition MINYEAR : Z := 1.
Definition MAXYEAR : Z := 9999.
Definition _MAXORDINAL : Z := 3652059.

(** Python list indexing by a non-negative index known to be in range. *)
Definition tbl (l : list Z) (i : Z) : Z := nth (Z.to_nat i) l 0.

Definition _DAYS_IN_MONTH : list Z :=
  [-1; 31; 28; 31; 30; 31; 30; 31; 31; 30; 31; 30; 31].

Definition _DAYS_BEFORE_MONTH : list Z :=
  [-1; 0; 31; 59; 90; 120; 151; 181; 212; 243; 273; 304; 334].

Definition _is_leap (year : Z) : bool :=
  (year mod 4 =? 0) && (negb (year mod 100 =? 0) || (year mod 400 =? 0)).

Definition _days_before_year (year : Z) : Z :=
  let y := year - 1 in
  y * 365 + y / 4 - y / 100 + y / 400.

Definition _days_in_month (year month : Z) : Z :=
  if (month =? 2) && _is_leap year then 29 else tbl _DAYS_IN_MONTH month.

Definition _days_before_month (year month : Z) : Z :=
  tbl _DAYS_BEFORE_MONTH month
  + (if (2 <? month) && _is_leap year then 1 else 0).

Definition _ymd2ord (year month day : Z) : Z :=
  _days_before_year year + _days_before_month year month + day.

Definition _DI400Y : Z := _days_before_year 401.
Definition _DI100Y : Z := _days_before_year 101.
Definition _DI4Y : Z := _days_before_year 5.

Definition _ord2ymd (n : Z) : Z * Z * Z :=
  let n := n - 1 in
  let n400 := n / _DI400Y in
  let n := n mod _DI400Y in
  let year := n400 * 400 + 1 in
  let n100 := n / _DI100Y in
  let n := n mod _DI100Y in
  let n4 := n / _DI4Y in
  let n := n mod _DI4Y in
  let n1 := n / 365 in
  let n := n mod 365 in
  let year := year + (n100 * 100 + n4 * 4 + n1) in
  if (n1 =? 4) || (n100 =? 4) then (year - 1, 12, 31)
  else
    let leapyear := (n1 =? 3) && (negb (n4 =? 24) || (n100 =? 3)) in
    let month := Z.shiftr (n + 50) 5 in
    let preceding :=
      tbl _DAYS_BEFORE_MONTH month
      + (if (2 <? month) && leapyear then 1 else 0) in
    let '(month, preceding) :=
      if n <? preceding
      then (month - 1,
            preceding - (tbl _DAYS_IN_MONTH (month - 1)
                         + (if (month - 1 =? 2) && leapyear then 1 else 0)))
      else (month, preceding) in
    let n := n - preceding in
    (year, month, n + 1).

(** A [datetime.date] object: its three fields. *)
Record date : Type := mkdate { year : Z; month : Z; day : Z }.

(** [_check_date_fields], run by the constructor [date(year, month, day)]. *)
Definition date_new (y m d : Z) : result date :=
  if negb ((MINYEAR <=? y) && (y <=? MAXYEAR)) then Raise ValueError
  else if negb ((1 <=? m) && (m <=? 12)) then Raise ValueError
  else
    let dim := _days_in_month y m in
    if negb ((1 <=? d) && (d <=? dim)) then Raise ValueError
    else Ok (mkdate y m d).

Definition toordinal (d : date) : Z := _ymd2ord (year d) (month d) (day d).

Definition fromordinal (n : Z) : result date :=
  let '(y, m, d) := _ord2ymd n in date_new y m d.

(** [date._cmp]: comparison of the tuples [(y, m, d)]. *)
Definition _cmp (a b : date) : comparison :=
  match year a ?= year b with
  | Eq => match month a ?= month b with
          | Eq => day a ?= day b
          | c => c
          end
  | c => c
  end.

Definition date_le (a b : date) : bool :=
  match _cmp a b with Gt => false | _ => true end.

Definition date_lt (a b : date) : bool :=
  match _cmp a b with Lt => true | _ => false end.

Definition date_max (a b : date) : date := if date_lt a b then b else a.
Definition date_min (a b : date) : date := if date_lt b a then b else a.

(** [date.__add__] with a [timedelta] of [days] days. *)
Definition date_add (d : date) (days : Z) : result date :=
  let o := toordinal d + days in
  if (0 <? o) && (o <=? _MAXORDINAL) then fromordinal o
  else Raise OverflowError.

(** [date.weekday()]: Monday is 0, Sunday is 6. *)
Definition weekday (d : date) : Z := (toordinal d + 6) mod 7.

(** The dates a [date] object can hold. *)
Definition valid (d : date) : Prop :=
  MINYEAR <= year d <= MAXYEAR /\ 1 <= month d <= 12 /\
  1 <= day d <= _days_in_month (year d) (month d).

End datetime.

#[global] Instance date_eq_dec : EqDecision datetime.date.
Proof. solve_decision. Defined.

#[global] Instance date_countable : Countable datetime.date.
Proof.
  refine (inj_countable'
            (fun d => (datetime.year d, datetime.month d, datetime.day d))
            (fun t => let '(y, m, d) := t in datetime.mkdate y m d) _).
  intros [y m d]; reflexivity.
Defined.

(** ** Python built-ins used by the engine *)

(** [range(a, b)] and [range(a, b, step)] for a positive [step]. *)
Definition py_range (a b : Z) : list Z :=
  map (fun k => a + Z.of_nat k) (seq 0 (Z.to_nat (b - a))).

Definition py_range_step (a b step : Z) : list Z :=
  map (fun k => a + step * Z.of_nat k)
      (seq 0 (Z.to_nat ((b - a + step - 1) / step))).

(** [l[i]] on a list: negative indices count from the end, anything
    outside raises [IndexError]. *)
Definition py_getitem {A} (l : list A) (i : Z) : result A :=
  let n := Z.of_nat (length l) in
  let j := if i <? 0 then i + n else i in
  if (0 <=? j) && (j <? n)
  then match nth_error l (Z.to_nat j) with
       | Some x => Ok x
       | None => Raise IndexError
       end
  else Raise IndexError.

(** [str(n)] and [f"{n}"] for an [int]. *)
Definition py_str (n : Z) : string :=
  DecimalString.NilZero.string_of_int (Z.to_int n).

(** The double-quote character, and the one-character string holding it. *)
Definition dqc : ascii := "034"%char.
Definition dq : string := String dqc EmptyString.

(** [s.replace(old, new)] where [old] is a single character. *)
Fixpoint str_replace (old : ascii) (new : string) (s : string) : string :=
  match s with
  | EmptyString => EmptyString
  | String c s' =>
      if Ascii.eqb c old then new ++ str_replace old new s'
      else String c (str_replace old new s')
  end.

(** [s.lower()] on ASCII letters (the month names are ASCII). *)
Definition lower_char (c : ascii) : ascii :=
  let n := nat_of_ascii c in
  if ((65 <=? n) && (n <=? 90))%nat then ascii_of_nat (n + 32) else c.

Fixpoint lower (s : string) : string :=
  match s with
  | EmptyString => EmptyString
  | String c s' => String (lower_char c) (lower s')
  end.

(** [int(s)] for a [str] in base 10, on ASCII text: surrounding white
    space is dropped, one sign is allowed, digits may be separated by
    single underscores.  [None] stands for [ValueError]. *)
Definition is_space (c : ascii) : bool :=
  let n := nat_of_ascii c in
  (((9 <=? n) && (n <=? 13)) || ((28 <=? n) && (n <=? 32)))%nat.

Definition is_digit (c : ascii) : bool :=
  let n := nat_of_ascii c in ((48 <=? n) && (n <=? 57))%nat.

Definition digit_value (c : ascii) : Z := Z.of_nat (nat_of_ascii c) - 48.

Fixpoint lstrip (s : string) : string :=
  match s with
  | String c s' => if is_space c then lstrip s' else s
  | EmptyString => EmptyString
  end.

Fixpoint str_rev_onto (s acc : string) : string :=
  match s with
  | EmptyString => acc
  | String c s' => str_rev_onto s' (String c acc)
  end.

Definition strip (s : string) : string :=
  let r := lstrip (str_rev_onto (lstrip s) EmptyString) in
  str_rev_onto r EmptyString.

Fixpoint parse_digits (acc : Z) (after_digit : bool) (s : string) : option Z :=
  match s with
  | EmptyString => if after_digit then Some acc else None
  | String c s' =>
      if is_digit c then parse_digits (10 * acc + digit_value c) true s'
      else if Ascii.eqb c "_" && after_digit then parse_digits acc false s'
      else None
  end.

Definition py_int_of_str (s : string) : option Z :=
  match strip s with
  | String "-" s' => option_map Z.opp (parse_digits 0 false s')
  | String "+" s' => parse_digits 0 false s'
  | s' => parse_digits 0 false s'
  end.

(** [int(x)] for a [float]: truncation towards zero. *)
Definition py_int_of_float (x : Q) : Z :=
  if Qle_bool 0 x then Qfloor x else Qceiling x.

(** [f"{n:02x}"]: lower-case hexadecimal, zero-padded to two characters. *)
Definition hex_digit (n : Z) : ascii :=
  if n <? 10 then ascii_of_nat (Z.to_nat (48 + n))
  else ascii_of_nat (Z.to_nat (87 + n)).

Fixpoint hex_digits (fuel : nat) (n : Z) (acc : string) : string :=
  match fuel with
  | O => acc
  | S fuel' =>
      let acc := String (hex_digit (n mod 16)) acc in
      if n / 16 =? 0 then acc else hex_digits fuel' (n / 16) acc
  end.

Definition py_hex (n : Z) : string :=
  hex_digits (S (Z.to_nat (Z.log2 n))) n EmptyString.

Definition format_02x (n : Z) : string :=
  if n <? 0 then "-" ++ py_hex (- n)
  else let h := py_hex n in
       if (String.length h <? 2)%nat then "0" ++ h else h.

(** ** [calendar]: month grids *)

Module calendar.

Definition SUNDAY : Z := 6.
Definition February : Z := 2.

Definition mdays : list Z := [0; 31; 28; 31; 30; 31; 30; 31; 31; 30; 31; 30; 31].

(** [calendar.month_name] in the default (English) locale. *)
Definition month_name : list string :=
  [""; "January"; "February"; "March"; "April"; "May"; "June"; "July";
   "August"; "September"; "October"; "November"; "December"].

Definition isleap (year : Z) : bool :=
  (year mod 4 =? 0) && (negb (year mod 100 =? 0) || (year mod 400 =? 0)).

Definition weekday (year month day : Z) : result Z :=
  let year :=
    if negb ((datetime.MINYEAR <=? year) && (year <=? datetime.MAXYEAR))
    then 2000 + year mod 400 else year in
  let! d := datetime.date_new year month day in
  Ok (datetime.weekday d).

Definition monthrange (year month : Z) : result (Z * Z) :=
  if negb ((1 <=? month) && (month <=? 12)) then Raise IllegalMonthError
  else
    let! day1 := weekday year month 1 in
    let ndays :=
      datetime.tbl mdays month
      + (if (month =? February) && isleap year then 1 else 0) in
    Ok (day1, ndays).

Definition _monthlen (year month : Z) : Z :=
  datetime.tbl mdays month
  + (if (month =? February) && isleap year then 1 else 0).

Definition _prevmonth (year month : Z) : Z * Z :=
  if month =? 1 then (year - 1, 12) else (year, month - 1).

Definition _nextmonth (year month : Z) : Z * Z :=
  if month =? 12 then (year + 1, 1) else (year, month + 1).

(** [Calendar(firstweekday).itermonthdays3(year, month)], as a list. *)
Definition itermonthdays3 (firstweekday year month : Z)
  : result (list (Z * Z * Z)) :=
  let! range := monthrange year month in
  let '(day1, ndays) := range in
  let days_before := (day1 - firstweekday) mod 7 in
  let days_after := (firstweekday - day1 - ndays) mod 7 in
  let '(y, m) := _prevmonth year month in
  let end_ := _monthlen y m + 1 in
  let before := map (fun d => (y, m, d)) (py_range (end_ - days_before) end_) in
  let inside := map (fun d => (year, month, d)) (py_range 1 (ndays + 1)) in
  let '(y, m) := _nextmonth year month in
  let after := map (fun d => (y, m, d)) (py_range 1 (days_after + 1)) in
  Ok (before ++ inside ++ after)%list.

Definition itermonthdates (firstweekday year month : Z)
  : result (list datetime.date) :=
  let! triples := itermonthdays3 firstweekday year month in
  mapM (fun '(y, m, d) => datetime.date_new y m d) triples.

(** [dates[i:i+7] for i in range(0, len(dates), 7)] *)
Definition monthdatescalendar (firstweekday year month : Z)
  : result (list (list datetime.date)) :=
  let! dates := itermonthdates firstweekday year month in
  Ok (map (fun i => take 7 (drop (Z.to_nat i) dates))
          (py_range_step 0 (Z.of_nat (length dates)) 7)).

End calendar.

(** ** [colorsys]: HLS to RGB, over the rationals *)

Module colorsys.

Definition ONE_THIRD : Q := 1 # 3.
Definition ONE_SIXTH : Q := 1 # 6.
Definition TWO_THIRD : Q := 2 # 3.

Definition Qltb (a b : Q) : bool := negb (Qle_bool b a).

(** [x % 1.0] *)
Definition fmod1 (x : Q) : Q := (x - inject_Z (Qfloor x))%Q.

Definition _v (m1 m2 hue : Q) : Q :=
  let hue := fmod1 hue in
  if Qltb hue ONE_SIXTH then (m1 + (m2 - m1) * hue * 6)%Q
  else if Qltb hue (1 # 2) then m2
  else if Qltb hue TWO_THIRD then (m1 + (m2 - m1) * (TWO_THIRD - hue) * 6)%Q
  else m1.

Definition hls_to_rgb (h l s : Q) : Q * Q * Q :=
  if Qeq_bool s 0 then (l, l, l)
  else
    let m2 := if Qle_bool l (1 # 2) then (l * (1 + s))%Q
              else (l + s - l * s)%Q in
    let m1 := (2 * l - m2)%Q in
    (_v m1 m2 (h + ONE_THIRD)%Q, _v m1 m2 h, _v m1 m2 (h - ONE_THIRD)%Q).

End colorsys.

(** ** [hashlib]: the MD5 digest (RFC 1321) *)

Module hashlib.

Definition mask32 (x : Z) : Z := Z.land x 0xffffffff.
Definition not32 (x : Z) : Z := Z.lxor x 0xffffffff.
Definition rotl32 (x c : Z) : Z :=
  mask32 (Z.lor (Z.shiftl x c) (Z.shiftr x (32 - c))).

Definition SHIFT : list Z :=
  [7; 12; 17; 22; 7; 12; 17; 22; 7; 12; 17; 22; 7; 12; 17; 22;
   5; 9; 14; 20; 5; 9; 14; 20; 5; 9; 14; 20; 5; 9; 14; 20;
   4; 11; 16; 23; 4; 11; 16; 23; 4; 11; 16; 23; 4; 11; 16; 23;
   6; 10; 15; 21; 6; 10; 15; 21; 6; 10; 15; 21; 6; 10; 15; 21].

Definition K : list Z :=
  [
   0xd76aa478; 0xe8c7b756; 0x242070db; 0xc1bdceee;
   0xf57c0faf; 0x4787c62a; 0xa8304613; 0xfd469501;
   0x698098d8; 0x8b44f7af; 0xffff5bb1; 0x895cd7be;
   0x6b901122; 0xfd987193; 0xa679438e; 0x49b40821;
   0xf61e2562; 0xc040b340; 0x265e5a51; 0xe9b6c7aa;
   0xd62f105d; 0x02441453; 0xd8a1e681; 0xe7d3fbc8;
   0x21e1cde6; 0xc33707d6; 0xf4d50d87; 0x455a14ed;
   0xa9e3e905; 0xfcefa3f8; 0x676f02d9; 0x8d2a4c8a;
   0xfffa3942; 0x8771f681; 0x6d9d6122; 0xfde5380c;
   0xa4beea44; 0x4bdecfa9; 0xf6bb4b60; 0xbebfbc70;
   0x289b7ec6; 0xeaa127fa; 0xd4ef3085; 0x04881d05;
   0xd9d4d039; 0xe6db99e5; 0x1fa27cf8; 0xc4ac5665;
   0xf4292244; 0x432aff97; 0xab9423a7; 0xfc93a039;
   0x655b59c3; 0x8f0ccc92; 0xffeff47d; 0x85845dd1;
   0x6fa87e4f; 0xfe2ce6e0; 0xa3014314; 0x4e0811a1;
   0xf7537e82; 0xbd3af235; 0x2ad7d2bb; 0xeb86d391].

(** [s.encode()]: the bytes of the text. *)
Fixpoint encode (s : string) : list Z :=
  match s with
  | EmptyString => []
  | String c s' => Z.of_nat (nat_of_ascii c) :: encode s'
  end.

(** [n] bytes of [x], least significant first. *)
Fixpoint le_bytes (n : nat) (x : Z) : list Z :=
  match n with
  | O => []
  | S n' => Z.land x 0xff :: le_bytes n' (Z.shiftr x 8)
  end.

Definition pad (msg : list Z) : list Z :=
  let len := Z.of_nat (length msg) in
  (msg ++ [0x80] ++ repeat 0 (Z.to_nat ((55 - len) mod 64))
       ++ le_bytes 8 (8 * len))%list.

(** The [g]-th little-endian 32-bit word of a 64-byte block. *)
Definition word (block : list Z) (g : Z) : Z :=
  let b k := nth (Z.to_nat (4 * g + k)) block 0 in
  Z.lor (b 0) (Z.lor (Z.shiftl (b 1) 8)
                     (Z.lor (Z.shiftl (b 2) 16) (Z.shiftl (b 3) 24))).

Definition step (block : list Z) (st : Z * Z * Z * Z) (i : Z)
  : Z * Z * Z * Z :=
  let '(A, B, C, D) := st in
  let '(F, g) :=
    if i <? 16 then (Z.lor (Z.land B C) (Z.land (not32 B) D), i)
    else if i <? 32
    then (Z.lor (Z.land D B) (Z.land (not32 D) C), (5 * i + 1) mod 16)
    else if i <? 48 then (Z.lxor (Z.lxor B C) D, (3 * i + 5) mod 16)
    else (Z.lxor C (Z.lor B (not32 D)), (7 * i) mod 16) in
  let F := mask32 (F + A + datetime.tbl K i + word block g) in
  (D, mask32 (B + rotl32 F (datetime.tbl SHIFT i)), B, C).

Definition compress (st : Z * Z * Z * Z) (block : list Z) : Z * Z * Z * Z :=
  let '(a0, b0, c0, d0) := st in
  let '(A, B, C, D) := fold_left (step block) (py_range 0 64) st in
  (mask32 (a0 + A), mask32 (b0 + B), mask32 (c0 + C), mask32 (d0 + D)).

Definition digest (msg : list Z) : list Z :=
  let padded := pad msg in
  let blocks :=
    map (fun i => take 64 (drop (Z.to_nat i) padded))
        (py_range_step 0 (Z.of_nat (length padded)) 64) in
  let '(a, b, c, d) :=
    fold_left compress blocks (0x67452301, 0xefcdab89, 0x98badcfe, 0x10325476)
  in (le_bytes 4 a ++ le_bytes 4 b ++ le_bytes 4 c ++ le_bytes 4 d)%list.

(** [hashlib.md5(data).hexdigest()] *)
Definition md5_hexdigest (data : list Z) : string :=
  String.concat "" (map format_02x (digest data)).

(** [int(s, 16)] on a string of hexadecimal digits. *)
Definition hex_value (c : ascii) : Z :=
  let n := Z.of_nat (nat_of_ascii c) in
  if n <? 58 then n - 48 else n - 87.

Fixpoint int_base16_from (acc : Z) (s : string) : Z :=
  match s with
  | EmptyString => acc
  | String c s' => int_base16_from (16 * acc + hex_value c) s'
  end.

Definition int_base16 (s : string) : Z := int_base16_from 0 s.

End hashlib.

(** ** The task table ([tasks_df])

    One [row] per task of the 'Tasks' sheet.  A date cell is either a
    value [pd.to_datetime] accepts, written as the [Timestamp] it yields,
    or [NaT] (an empty cell), or [Raw text], a value [pd.to_datetime]
    cannot read and coerces to [NaT].  A label or bucket cell is a string
    or NaN ([None]). *)

Inductive cell : Type :=
| Timestamp (d : datetime.date)
| NaT
| Raw (text : string).

Record row : Type := mkrow {
  Task_Name : string;
  Start_date : cell;
  Due_date : cell;
  Completed_Date : cell;
  Labels : option string;
  Bucket_Name : option string
}.

Definition frame : Type := list row.

Definition set_Start_date (c : cell) (r : row) : row :=
  mkrow (Task_Name r) c (Due_date r) (Completed_Date r)
        (Labels r) (Bucket_Name r).

Definition set_Due_date (c : cell) (r : row) : row :=
  mkrow (Task_Name r) (Start_date r) c (Completed_Date r)
        (Labels r) (Bucket_Name r).

Definition set_Completed_Date (c : cell) (r : row) : row :=
  mkrow (Task_Name r) (Start_date r) (Due_date r) c
        (Labels r) (Bucket_Name r).

(** [pd.to_datetime(column, errors="coerce")], cell by cell. *)
Definition to_datetime (c : cell) : cell :=
  match c with
  | Timestamp d => Timestamp d
  | NaT => NaT
  | Raw _ => NaT
  end.

Definition notna (c : cell) : bool :=
  match c with Timestamp _ => true | _ => false end.

Definition isna (c : cell) : bool := negb (notna c).

(** [Timestamp.date()]; [NaT] has no date. *)
Definition cell_date (c : cell) : result datetime.date :=
  match c with
  | Timestamp d => Ok d
  | _ => Raise ValueError
  end.

(** Lines 38-46 of [generate_calendar_html]: the five assignments to the
    columns of the caller's [tasks_df]. *)
Definition coerce_dates (tasks_df : frame) : frame :=
  let tasks_df :=
    map (fun r => set_Start_date (to_datetime (Start_date r)) r) tasks_df in
  let tasks_df :=
    map (fun r => set_Due_date (to_datetime (Due_date r)) r) tasks_df in
  map (fun r => set_Completed_Date (to_datetime (Completed_Date r)) r) tasks_df.

Definition completed_overrides_due (tasks_df : frame) : frame :=
  map (fun r => if notna (Completed_Date r)
                then set_Due_date (Completed_Date r) r else r) tasks_df.

Definition start_falls_back_to_due (tasks_df : frame) : frame :=
  map (fun r => if isna (Start_date r)
                then set_Start_date (Due_date r) r else r) tasks_df.

Definition resolve_dates (tasks_df : frame) : frame :=
  start_falls_back_to_due (completed_overrides_due (coerce_dates tasks_df)).

(** [tasks_df.dropna(subset=["Start date", "Due date"])]: a new table. *)
Definition dropna (tasks_df : frame) : frame :=
  List.filter (fun r => notna (Start_date r) && notna (Due_date r)) tasks_df.

(** ** The day index ([tasks_by_day]) *)

Abbreviation DayIndex := (gmap datetime.date (list string)).

(** The [while current_date <= end_date] loop of lines 65-72; [fuel]
    bounds the number of iterations. *)
Fixpoint while_current_date (fuel : nat) (task_name : string)
    (current_date end_date : datetime.date) (tasks_by_day : DayIndex)
  : result DayIndex :=
  if datetime.date_le current_date end_date then
    match fuel with
    | O => Raise OutOfFuel
    | S fuel' =>
        let tasks_by_day :=
          match tasks_by_day !! current_date with
          | None => <[current_date := []]> tasks_by_day
          | Some _ => tasks_by_day
          end in
        let today := default [] (tasks_by_day !! current_date) in
        let tasks_by_day :=
          if bool_decide (task_name ∈ today) then tasks_by_day
          else <[current_date := (today ++ [task_name])%list]> tasks_by_day in
        let! current_date := datetime.date_add current_date 1 in
        while_current_date fuel' task_name current_date end_date tasks_by_day
    end
  else Ok tasks_by_day.

(** The body of [for _, task in tasks_df.iterrows()], lines 52-72. *)
Definition index_task (fuel : nat) (year : Z) (tasks_by_day : DayIndex)
    (task : row) : result DayIndex :=
  let! start_date := cell_date (Start_date task) in
  let! due_date := cell_date (Due_date task) in
  let task_name := Task_Name task in
  if (year <? datetime.year start_date) || (datetime.year due_date <? year)
  then Ok tasks_by_day
  else
    let! jan1 := datetime.date_new year 1 1 in
    let current_date := datetime.date_max start_date jan1 in
    let! dec31 := datetime.date_new year 12 31 in
    let end_date := datetime.date_min due_date dec31 in
    while_current_date fuel task_name current_date end_date tasks_by_day.

Fixpoint index_tasks (fuel : nat) (year : Z) (tasks_by_day : DayIndex)
    (tasks_df : frame) : result DayIndex :=
  match tasks_df with
  | [] => Ok tasks_by_day
  | task :: rest =>
      let! tasks_by_day := index_task fuel year tasks_by_day task in
      index_tasks fuel year tasks_by_day rest
  end.

(** Lines 35-72: the index of the (already resolved and filtered) table. *)
Definition buildDayIndex (fuel : nat) (tasks_df : frame) (year : Z)
  : result DayIndex :=
  index_tasks fuel year ∅ (dropna (resolve_dates tasks_df)).

(** ** The renderer *)

(** The [month] argument: an [int] or a [str]. *)
Inductive month_arg : Type :=
| MonthInt (n : Z)
| MonthStr (s : string).

(** [{name.lower(): num for num, name in enumerate(calendar.month_name)
      if num > 0}.get(key)] *)
Definition month_names_get (key : string) : option Z :=
  let entries :=
    List.filter (fun e => 0 <? fst e)
      (imap (fun num name => (Z.of_nat num, lower name)) calendar.month_name) in
  option_map fst
    (List.find (fun e => String.eqb (snd e) key) (rev entries)).

(** Lines 78-93: [month_num]. *)
Definition resolve_month_num (month : option month_arg) : option Z :=
  match month with
  | None => None
  | Some (MonthStr month) =>
      match month_names_get (lower month) with
      | Some month_num => Some month_num
      | None => py_int_of_str month  (* ValueError: month_num = None *)
      end
  | Some (MonthInt month) => Some month
  end.

(** Lines 105-152: the head of the document. *)
Definition html_head (year : Z) (grid_columns wrapping title_text : string)
    (month_num : option Z) : string :=
  let single_month :=
    match month_num with Some _ => " single-month" | None => "" end in
  "<!DOCTYPE html>
<html lang=" ++
  dq ++
  "en" ++
  dq ++
  ">
<head>
    <meta charset=" ++
  dq ++
  "UTF-8" ++
  dq ++
  ">
    <meta name=" ++
  dq ++
  "viewport" ++
  dq ++
  " content=" ++
  dq ++
  "width=device-width, initial-scale=1.0" ++
  dq ++
  ">
    <title>Planner Calendar - " ++
  py_str year ++
  "</title>
    <style>
        body { font-family: sans-serif; font-size: 8px; }
        .year-grid { display: grid; grid-template-columns: " ++
  grid_columns ++
  "; gap: 20px; }
        .month { border: 1px solid #ccc; padding: 5px; }
        .month-title { text-align: center; font-weight: bold; font-size: 12px; margin-bottom: 5px; }
        .calendar-grid { display: grid; grid-template-columns: repeat(7, 1fr); border-collapse: collapse; 
        table-layout: fixed; width: 100%; }
        .day-header { text-align: center; font-weight: bold; background-color: #f0f0f0; font-size: 9px; 
        padding: 2px; border: 1px solid #ddd; }
        .day { border: 1px solid #ddd; vertical-align: top; height: 70px; /* Adjust as needed */ 
        padding: 2px; overflow: hidden; position: relative; }
        .day.other-month { background-color: #f9f9f9; color: #aaa; }
        .day-number { position: absolute; top: 1px; left: 1px; font-weight: bold; font-size: 9px; 
        color: #333; }
        .tasks { margin-top: 12px; /* Space below day number */ line-height: 1.1; }
        .task { display: block; white-space: " ++
  wrapping ++
  "; overflow: hidden; text-overflow: ellipsis; 
        margin-bottom: 1px; padding: 0 1px; border-radius: 2px; border: 1px solid #ccc; color: #000; 
        /* Ensure text is black */}
        /* Single month view */
        .single-month .day { height: 100px; }
        .single-month .day-number { font-size: 12px; }
        .single-month .day-header { font-size: 12px; }
        .single-month .task { font-size: 9px; }
        /* Print specific styles */
        @media print {
            @page { size: 17in 11in landscape; margin: 0.5in; } /* 11x17 Landscape */
            body { font-size: 7pt; -webkit-print-color-adjust: exact; print-color-adjust: exact; }
            .year-grid { gap: 15px; }
            .month { page-break-inside: avoid; border: 1px solid #aaa; }
            .day { height: 65px; border: 1px solid #ccc; }
            .day-header { font-size: 8pt; padding: 1px; }
            .day-number { font-size: 8pt; }
            .task { border: 1px solid #b0dde4; font-size: 5pt;}
            /* Hide non-essential elements for print */
            /* Add any elements here you want to hide during printing */
        }
    </style>
</head>
<body>
    <h1 style=" ++
  dq ++
  "text-align: center;" ++
  dq ++
  ">" ++
  title_text ++
  "</h1>
    <div class=" ++
  dq ++
  "year-grid" ++
  single_month ++
  dq ++
  ">
".

(** Lines 196-203. *)
Definition escape_task_name (labeled_task_name : string) : string :=
  str_replace "'" "&#39;"
    (str_replace dqc "&quot;"
      (str_replace ">" "&gt;"
        (str_replace "<" "&lt;"
          (str_replace "&" "&amp;"
            (str_replace ";" "" labeled_task_name))))).

(** Lines 189-194: the text shown for a task.  [tasks_df] is the table
    left by [dropna]; [labels] is a [str] or NaN, and NaN formats as
    "nan". *)
Definition labeled_task_name (tasks_df : frame) (prefix_label : bool)
    (task_name : string) : string :=
  if prefix_label then
    let labels :=
      map Labels
          (List.filter (fun r => String.eqb (Task_Name r) task_name) tasks_df) in
    let labels : option string :=
      match labels with
      | [] => Some ""
      | first :: _ =>
          if forallb (fun l => negb (bool_decide (is_Some l))) labels
          then Some "" else first
      end in
    match labels with
    | Some "" => task_name
    | Some labels => labels ++ task_name
    | None => "nan" ++ task_name
    end
  else task_name.

(** Lines 185-207: the span of one task of a day. *)
Definition render_task (tasks_df : frame) (task_colors : gmap string string)
    (prefix_label : bool) (task_name : string) : string :=
  let bg_color := default "#f0f0f0" (task_colors !! task_name) in
  let escaped_task_name :=
    escape_task_name (labeled_task_name tasks_df prefix_label task_name) in
  "        <span class=" ++ dq ++ "task" ++ dq ++ " title=" ++ dq
    ++ escaped_task_name ++ dq ++ " style=" ++ dq ++ "background-color: "
    ++ bg_color ++ ";" ++ dq ++ ">" ++ escaped_task_name ++ "</span>".

(** Lines 175-177. *)
Definition day_class (month_num : option Z) (day_date : datetime.date)
  : string :=
  let day_class := "day" in
  if negb (bool_decide (Some (datetime.month day_date) = month_num))
  then day_class ++ " other-month" else day_class.

(** Lines 174-210: the parts appended for one day cell. *)
Definition render_day (tasks_df : frame) (tasks_by_day : DayIndex)
    (task_colors : gmap string string) (prefix_label : bool)
    (month_num : option Z) (day_date : datetime.date) : list string :=
  let tasks_today := default [] (tasks_by_day !! day_date) in
  let open_day :=
    ["    <div class=" ++ dq ++ day_class month_num day_date ++ dq ++ ">";
     "      <div class=" ++ dq ++ "day-number" ++ dq ++ ">"
       ++ py_str (datetime.day day_date) ++ "</div>";
     "      <div class=" ++ dq ++ "tasks" ++ dq ++ ">"] in
  let tasks := map (render_task tasks_df task_colors prefix_label) tasks_today in
  let close_day := ["      </div>"; "    </div>"] in
  (open_day ++ tasks ++ close_day)%list.

(** Lines 160-213: the parts appended for one month block. *)
Definition render_month (tasks_df : frame) (tasks_by_day : DayIndex)
    (task_colors : gmap string string) (prefix_label : bool) (year : Z)
    (month_num : option Z) (current_month : Z) : result (list string) :=
  let! month_name := py_getitem calendar.month_name current_month in
  let! month_weeks :=
    calendar.monthdatescalendar calendar.SUNDAY year current_month in
  let open_month :=
    ["<div class=" ++ dq ++ "month" ++ dq ++ ">";
     "  <div class=" ++ dq ++ "month-title" ++ dq ++ ">" ++ month_name
       ++ " " ++ py_str year ++ "</div>";
     "  <div class=" ++ dq ++ "calendar-grid" ++ dq ++ ">"] in
  let day_headers :=
    map (fun day_abbr =>
           "    <div class=" ++ dq ++ "day-header" ++ dq ++ ">"
             ++ day_abbr ++ "</div>")
        ["Sun"; "Mon"; "Tue"; "Wed"; "Thu"; "Fri"; "Sat"] in
  let days :=
    concat
      (map (fun week =>
              concat
                (map (render_day tasks_df tasks_by_day task_colors
                        prefix_label month_num) week))
           month_weeks) in
  let close_month := ["  </div>"; "</div>"] in
  Ok (open_month ++ day_headers ++ days ++ close_month)%list.

(** [generate_calendar_html]: the frame returned first is the caller's
    [tasks_df] as the call leaves it (lines 38-46 assign to its columns). *)
Definition generate_calendar_html (fuel : nat) (tasks_df : frame)
    (no_wrap_text : bool) (year : Z) (task_colors : gmap string string)
    (prefix_label : bool) (month : option month_arg)
  : frame * result string :=
  let wrapping := if no_wrap_text then "nowrap" else "wrap" in
  let callers_df := resolve_dates tasks_df in
  let tasks_df := dropna callers_df in
  (callers_df,
   let! tasks_by_day := index_tasks fuel year ∅ tasks_df in
   let month_num := resolve_month_num month in
   let! title :=
     match month_num with
     | Some n =>
         let! month_name := py_getitem calendar.month_name n in
         Ok (month_name ++ " " ++ py_str year ++ " Calendar", "1fr")
     | None =>
         Ok ("Yearly Planner Calendar - " ++ py_str year, "repeat(3, 1fr)")
     end in
   let '(title_text, grid_columns) := title in
   let html_parts :=
     [html_head year grid_columns wrapping title_text month_num] in
   let month_range :=
     match month_num with
     | Some n => [n]
     | None => py_range 1 13
     end in
   let! months :=
     mapM (render_month tasks_df tasks_by_day task_colors prefix_label
             year month_num) month_range in
   let html_parts := (html_parts ++ concat months)%list in
   let html_parts :=
     (html_parts ++ ["
    </div> <!-- close year-grid -->
</body>
</html>
"])%list in
   Ok (String.concat "" html_parts)).

(** ** The colour engine (the 'Generate Task Colors' block of [main],
       repeated verbatim in [PlannerCalendarGUI.generate_calendar]) *)

Definition HUE_STEP : Z := 29.

(** [Series.unique()]: first occurrences, in order of appearance. *)
Fixpoint unique_from (seen l : list string) : list string :=
  match l with
  | [] => []
  | x :: l' =>
      if bool_decide (x ∈ seen) then unique_from seen l'
      else x :: unique_from (x :: seen) l'
  end.

Definition unique (l : list string) : list string := unique_from [] l.

(** [sorted(names)]: strings compare by code point. *)
Fixpoint insert_sorted (x : string) (l : list string) : list string :=
  match l with
  | [] => [x]
  | y :: l' => if String.leb x y then x :: y :: l' else y :: insert_sorted x l'
  end.

Fixpoint sorted (l : list string) : list string :=
  match l with
  | [] => []
  | x :: l' => insert_sorted x (sorted l')
  end.

(** [enumerate(l)] *)
Definition enumerate {A} (l : list A) : list (Z * A) :=
  imap (fun i x => (Z.of_nat i, x)) l.

(** [(int(hashlib.md5(str(text).encode()).hexdigest(), 16) % 360) / 360.0] *)
Definition hash_hue (text : string) : Q :=
  let hash_digest := hashlib.md5_hexdigest (hashlib.encode text) in
  (hashlib.int_base16 hash_digest mod 360) # 360.

(** [(int(HUE_STEP * task_index) % 360) / 360.0] *)
Definition alternate_hue (task_index : Z) : Q :=
  ((HUE_STEP * task_index) mod 360) # 360.

(** Lines 336-376: the hue of one task. *)
Definition task_hue (tasks_df : frame)
    (color_by_label color_by_bucket alternate_colors : bool)
    (task_index : Z) (task_name : string) : Q :=
  let hue : option Q := None in
  let matching_rows :=
    List.filter (fun r => String.eqb (Task_Name r) task_name) tasks_df in
  let hue :=
    if color_by_label then
      match matching_rows with
      | [] => hue
      | first :: _ =>
          match Labels first with
          | Some label =>
              if alternate_colors then Some (alternate_hue task_index)
              else Some (hash_hue label)
          | None => hue
          end
      end
    else hue in
  let hue :=
    if color_by_bucket then
      match matching_rows with
      | [] => hue
      | first :: _ =>
          match Bucket_Name first with
          | Some bucket =>
              if alternate_colors then Some (alternate_hue task_index)
              else Some (hash_hue bucket)
          | None => hue
          end
      end
    else hue in
  match hue with
  | None => hash_hue task_name
  | Some hue => hue
  end.

(** Lines 379-380: the colour code of a hue. *)
Definition hex_color (hue lightness saturation : Q) : string :=
  let '(r, g, b) := colorsys.hls_to_rgb hue lightness saturation in
  "#" ++ format_02x (py_int_of_float (r * 255))
      ++ format_02x (py_int_of_float (g * 255))
      ++ format_02x (py_int_of_float (b * 255)).

(** Lines 328-381, given the clamped [saturation] and [lightness]. *)
Definition assign_task_colors (tasks_df : frame)
    (color_by_label color_by_bucket alternate_colors : bool)
    (saturation lightness : Q) : gmap string string :=
  let unique_tasks := sorted (unique (map Task_Name tasks_df)) in
  fold_left
    (fun task_colors '(task_index, task_name) =>
       let hue := task_hue tasks_df color_by_label color_by_bucket
                    alternate_colors task_index task_name in
       <[task_name := hex_color hue lightness saturation]> task_colors)
    (enumerate unique_tasks) ∅.

(** [max(a, b)] and [min(a, b)] on floats: the first argument wins ties. *)
Definition py_max (a b : Q) : Q := if colorsys.Qltb a b then b else a.
Definition py_min (a b : Q) : Q := if colorsys.Qltb b a then b else a.

(** ** [main], from the parsed arguments and the table read from the
       workbook *)

Record Args : Type := {
  args_year : option Z;
  args_month : option string;
  args_no_wrap_text : bool;
  args_color_saturation : Q;
  args_color_lightness : Q;
  args_color_by_label : bool;
  args_color_by_bucket : bool;
  args_prefix_labels : bool;
  args_alternate_colors : bool
}.

Inductive outcome : Type :=
| SysExit (code : Z)
| Generated (html_content : result string).

(** Lines 384-397; [now_year] is [datetime.now().year]. *)
Definition target_year_of (args : Args) (tasks_df : frame) (now_year : Z) : Z :=
  let target_year :=
    match args_year args with
    | Some y => if y =? 0 then None else Some y  (* [if not target_year] *)
    | None => None
    end in
  match target_year with
  | Some y => y
  | None =>
      let valid_start_dates :=
        omap (fun r => match to_datetime (Start_date r) with
                       | Timestamp d => Some d
                       | _ => None
                       end) tasks_df in
      match valid_start_dates with
      | [] => now_year
      | d :: ds => datetime.year (fold_left datetime.date_min ds d)
      end
  end.

(** Lines 402-418: [None] is [sys.exit(1)]. *)
Definition target_month_of (args : Args) : option (option Z) :=
  match args_month args with
  | None | Some "" => Some None
  | Some month =>
      match py_int_of_str month with
      | Some target_month =>
          if (target_month <? 1) || (12 <? target_month) then None
          else Some (Some target_month)
      | None =>
          match month_names_get (lower month) with
          | Some target_month => Some (Some target_month)
          | None => None
          end
      end
  end.

Definition main (fuel : nat) (args : Args) (tasks_df : frame) (now_year : Z)
  : frame * outcome :=
  if args_color_by_label args && args_color_by_bucket args
  then (tasks_df, SysExit 1)
  else
    let saturation := py_max 0 (py_min 1 (args_color_saturation args)) in
    let lightness := py_max 0 (py_min 1 (args_color_lightness args)) in
    let task_colors :=
      assign_task_colors tasks_df (args_color_by_label args)
        (args_color_by_bucket args) (args_alternate_colors args)
        saturation lightness in
    let target_year := target_year_of args tasks_df now_year in
    match target_month_of args with
    | None => (tasks_df, SysExit 1)
    | Some target_month =>
        let '(tasks_df, html_content) :=
          generate_calendar_html fuel tasks_df (args_no_wrap_text args)
            target_year task_colors (args_prefix_labels args)
            (option_map MonthInt target_month) in
        (tasks_df, Generated html_content)
    end.

(** ** Vocabulary of the properties *)

(** The dates a pandas (nanosecond) [Timestamp] can hold lie between
    1677-09-21 and 2262-04-11. *)
Definition Timestamp_min : datetime.date := datetime.mkdate 1677 9 21.
Definition Timestamp_max : datetime.date := datetime.mkdate 2262 4 11.

Definition timestamp_ok (d : datetime.date) : Prop :=
  datetime.valid d /\
  datetime.date_le Timestamp_min d = true /\
  datetime.date_le d Timestamp_max = true.

Definition cell_ok (c : cell) : Prop :=
  match c with
  | Timestamp d => timestamp_ok d
  | _ => True
  end.

Definition row_ok (r : row) : Prop :=
  cell_ok (Start_date r) /\ cell_ok (Due_date r) /\ cell_ok (Completed_Date r).

Definition frame_ok (tasks_df : frame) : Prop := Forall row_ok tasks_df.

(** The effective range of a record, following the resolution rules of the
    specification: the completed date overrides the due date, a missing
    start date becomes the (overridden) due date, and a record still
    missing a date has no range. *)
Definition valid_date (c : cell) : option datetime.date :=
  match c with
  | Timestamp d => Some d
  | _ => None
  end.

Definition effective_range (r : row)
  : option (datetime.date * datetime.date) :=
  let effective_due :=
    match valid_date (Completed_Date r) with
    | Some completed => Some completed
    | None => valid_date (Due_date r)
    end in
  let effective_start :=
    match valid_date (Start_date r) with
    | Some start => Some start
    | None => effective_due
    end in
  match effective_start, effective_due with
  | Some s, Some e => Some (s, e)
  | _, _ => None
  end.

(** [d] lies in [max(s, Jan 1 of y), min(e, Dec 31 of y)]. *)
Definition in_clipped_range (y : Z) (s e d : datetime.date) : bool :=
  datetime.date_le (datetime.date_max s (datetime.mkdate y 1 1)) d
  && datetime.date_le d (datetime.date_min e (datetime.mkdate y 12 31)).

(** The names the index holds for a day, and the number of days that
    carry a name. *)
Definition tasks_on (tasks_by_day : DayIndex) (d : datetime.date)
  : list string := default [] (tasks_by_day !! d).

Definition days_carrying (tasks_by_day : DayIndex) (name : string)
  : gset datetime.date :=
  dom (filter (fun kv => name ∈ kv.2) tasks_by_day).

(** [(e - s).days] *)
Definition days_between (s e : datetime.date) : Z :=
  datetime.toordinal e - datetime.toordinal s.

(** What lines 38-46 do to one row. *)
Definition resolved_row (r : row) : row :=
  let r := set_Start_date (to_datetime (Start_date r)) r in
  let r := set_Due_date (to_datetime (Due_date r)) r in
  let r := set_Completed_Date (to_datetime (Completed_Date r)) r in
  let r := if notna (Completed_Date r)
           then set_Due_date (Completed_Date r) r else r in
  if isna (Start_date r) then set_Start_date (Due_date r) r else r.

(** A row as [dropna] leaves it: both dates are timestamps. *)
Definition resolved_ok (r : row) : Prop :=
  exists s e, Start_date r = Timestamp s /\ Due_date r = Timestamp e /\
              timestamp_ok s /\ timestamp_ok e.

(** The date with a given ordinal ([date.fromordinal] without its range
    check). *)
Definition date_of_ordinal (n : Z) : datetime.date :=
  let '(y, m, d) := datetime._ord2ymd n in datetime.mkdate y m d.

(** ** Sample inputs

    The three tasks of the end-to-end scenarios of the specification
    (year 2024). *)
Definition on_day (y m d : Z) : cell := Timestamp (datetime.mkdate y m d).

Definition scenario_tasks : frame :=
  [mkrow "Design" (on_day 2024 1 1) (on_day 2024 1 3) NaT (Some "Eng") None;
   mkrow "Review" (on_day 2024 1 3) (on_day 2024 1 3) NaT (Some "Eng") None;
   mkrow "Ship" (on_day 2024 1 10) (on_day 2024 1 10) NaT None None].

(** ** Escaping, as the specification words it

    Modelled from the spec: literal semicolons are removed, then each of
    the five reserved characters is replaced by its entity. *)
Fixpoint strip_semicolons (s : string) : string :=
  match s with
  | EmptyString => EmptyString
  | String c s' =>
      if Ascii.eqb c ";" then strip_semicolons s'
      else String c (strip_semicolons s')
  end.

Definition entity (c : ascii) : string :=
  if Ascii.eqb c "&" then "&amp;"
  else if Ascii.eqb c "<" then "&lt;"
  else if Ascii.eqb c ">" then "&gt;"
  else if Ascii.eqb c dqc then "&quot;"
  else if Ascii.eqb c "'" then "&#39;"
  else String c EmptyString.

Fixpoint entity_escape (s : string) : string :=
  match s with
  | EmptyString => EmptyString
  | String c s' => entity c ++ entity_escape s'
  end.

(** A text holds no raw markup when it has no [<] and no [>] and each of
    its [&] starts one of the five entities. *)
Fixpoint no_raw_markup (s : string) : bool :=
  match s with
  | EmptyString => true
  | String c s' =>
      if Ascii.eqb c "<" || Ascii.eqb c ">" then false
      else if Ascii.eqb c "&"
      then (String.prefix "amp;" s' || String.prefix "lt;" s'
            || String.prefix "gt;" s' || String.prefix "quot;" s'
            || String.prefix "#39;" s')
           && no_raw_markup s'
      else no_raw_markup s'
  end.

(** The span of a task, given its escaped text and its colour. *)
Definition task_span (escaped_task_name bg_color : string) : string :=
  "        <span class=" ++ dq ++ "task" ++ dq ++ " title=" ++ dq
    ++ escaped_task_name ++ dq ++ " style=" ++ dq ++ "background-color: "
    ++ bg_color ++ ";" ++ dq ++ ">" ++ escaped_task_name ++ "</span>".

(** ** The colour of a task, as the specification words it *)

(** The first record of a task name (what [matching_rows.iloc[0]] is). *)
Definition first_row_of (tasks_df : frame) (task_name : string) : option row :=
  head (List.filter (fun r => String.eqb (Task_Name r) task_name) tasks_df).

(** The integer a text hashes to. *)
Definition hash_int (text : string) : Z :=
  hashlib.int_base16 (hashlib.md5_hexdigest (hashlib.encode text)).

(** Modelled from the spec: [round(component * 255)] clamped to
    [[0, 255]], with Python's [round] (halves go to the even integer). *)
Definition py_round (x : Q) : Z :=
  let f := Qfloor x in
  let frac := (x - inject_Z f)%Q in
  if colorsys.Qltb frac (1 # 2) then f
  else if colorsys.Qltb (1 # 2) frac then f + 1
  else if Z.even f then f else f + 1.

Definition spec_channel (component : Q) : Z :=
  Z.max 0 (Z.min 255 (py_round (component * 255))).

Definition spec_hex_color (hue lightness saturation : Q) : string :=
  let '(r, g, b) := colorsys.hls_to_rgb hue lightness saturation in
  "#" ++ format_02x (spec_channel r) ++ format_02x (spec_channel g)
      ++ format_02x (spec_channel b).

(** More sample inputs. *)

(** A completed task whose due date differs from its completion date. *)
Definition completed_task : frame :=
  [mkrow "Report" NaT (on_day 2024 3 8) (on_day 2024 3 5) None None].

(** Two records of one task; only the second carries a label. *)
Definition relabelled_task : frame :=
  [mkrow "Deploy" (on_day 2024 5 6) (on_day 2024 5 6) NaT None None;
   mkrow "Deploy" (on_day 2024 5 7) (on_day 2024 5 7) NaT (Some "Ops") None].

(** The index of [scenario_tasks] for 2024: Design on 1-3 January, Review
    on 3 January, Ship on 10 January. *)
Definition scenario_index : DayIndex :=
  <[datetime.mkdate 2024 1 1 := ["Design"]]>
    (<[datetime.mkdate 2024 1 2 := ["Design"]]>
       (<[datetime.mkdate 2024 1 3 := ["Design"; "Review"]]>
          (<[datetime.mkdate 2024 1 10 := ["Ship"]]> ∅))).

(** ** Further vocabulary: the month grid *)

(** The months [calendar.Calendar.monthdatescalendar] can lay out: every
    cell of the grid, the days borrowed from the adjacent months included,
    must be a date of the years [datetime] knows. *)
Definition has_grid (year month : Z) : bool :=
  (1 <=? month) && (month <=? 12)
  && (datetime.MINYEAR <=? year) && (year <=? datetime.MAXYEAR)
  && negb ((year =? datetime.MINYEAR) && (month =? 1))
  && negb ((year =? datetime.MAXYEAR) && (month =? 12)).

(** ** Further vocabulary: the lists of the day index *)

(** Lines 66-71 on the list of one day: the name is appended unless the
    list holds it. *)
Definition append_once (names : list string) (task_name : string)
  : list string :=
  if bool_decide (task_name ∈ names) then names
  else (names ++ [task_name])%list.

(** The names of the records whose clipped range holds the day [d], in
    the order of the table, a name once for each such record. *)
Definition covering_names (y : Z) (tasks_df : frame) (d : datetime.date)
  : list string :=
  omap (fun r => match effective_range r with
                 | Some (s, e) =>
                     if in_clipped_range y s e d then Some (Task_Name r)
                     else None
                 | None => None
                 end) tasks_df.

(** The first and the last day of a record's range clipped to the year
    [y] (lines 60-63). *)
Definition clipped_first (y : Z) (s : datetime.date) : datetime.date :=
  datetime.date_max s (datetime.mkdate y 1 1).

Definition clipped_last (y : Z) (e : datetime.date) : datetime.date :=
  datetime.date_min e (datetime.mkdate y 12 31).

(** The day after [d] in the Gregorian calendar. *)
Definition next_day (d : datetime.date) : datetime.date :=
  if datetime.day d
     <? datetime._days_in_month (datetime.year d) (datetime.month d)
  then datetime.mkdate (datetime.year d) (datetime.month d)
         (datetime.day d + 1)
  else if datetime.month d <? 12
  then datetime.mkdate (datetime.year d) (datetime.month d + 1) 1
  else datetime.mkdate (datetime.year d + 1) 1 1.

(** ** Further vocabulary: colour codes *)

(** A lower-case hexadecimal digit, and a colour code [#rrggbb]. *)
Definition is_hex_digit (c : ascii) : bool :=
  let n := nat_of_ascii c in
  (((48 <=? n) && (n <=? 57)) || ((97 <=? n) && (n <=? 102)))%nat.

Fixpoint all_hex_digits (s : string) : bool :=
  match s with
  | EmptyString => true
  | String c s' => is_hex_digit c && all_hex_digits s'
  end.

Definition is_color_code (s : string) : bool :=
  match s with
  | String c t =>
      Ascii.eqb c "#" && (String.length t =? 6)%nat && all_hex_digits t
  | EmptyString => false
  end.

(** The grouping attribute of a task: the label or the bucket of its
    first record, as the flags say. *)
Definition grouping_attribute (tasks_df : frame)
    (color_by_label color_by_bucket : bool) (task_name : string)
  : option string :=
  if color_by_label then first_row_of tasks_df task_name ≫= Labels
  else if color_by_bucket then first_row_of tasks_df task_name ≫= Bucket_Name
  else None.

(** ** The window ([PlannerCalendarGUI] of [src/gui.py])

    The state of the window is the values of its Tk variables, each of
    the type its widget gives it, and the index of the selected tab of
    the notebook (0 for the basic options, 1 for the advanced ones). *)

Record Gui : Type := {
  gui_excel_file_path : string;
  gui_year : string;
  gui_month : string;
  gui_no_wrap_text : bool;
  gui_color_saturation : Q;
  gui_color_lightness : Q;
  gui_color_by_label : bool;
  gui_color_by_bucket : bool;
  gui_prefix_labels : bool;
  gui_alternate_colors : bool;
  gui_selected_tab : Z
}.

Definition set_color_by_label (b : bool) (g : Gui) : Gui :=
  {| gui_excel_file_path := gui_excel_file_path g;
     gui_year := gui_year g;
     gui_month := gui_month g;
     gui_no_wrap_text := gui_no_wrap_text g;
     gui_color_saturation := gui_color_saturation g;
     gui_color_lightness := gui_color_lightness g;
     gui_color_by_label := b;
     gui_color_by_bucket := gui_color_by_bucket g;
     gui_prefix_labels := gui_prefix_labels g;
     gui_alternate_colors := gui_alternate_colors g;
     gui_selected_tab := gui_selected_tab g |}.

Definition set_color_by_bucket (b : bool) (g : Gui) : Gui :=
  {| gui_excel_file_path := gui_excel_file_path g;
     gui_year := gui_year g;
     gui_month := gui_month g;
     gui_no_wrap_text := gui_no_wrap_text g;
     gui_color_saturation := gui_color_saturation g;
     gui_color_lightness := gui_color_lightness g;
     gui_color_by_label := gui_color_by_label g;
     gui_color_by_bucket := b;
     gui_prefix_labels := gui_prefix_labels g;
     gui_alternate_colors := gui_alternate_colors g;
     gui_selected_tab := gui_selected_tab g |}.

(** [handle_color_by_change], the command of the two grouping check
    boxes (gui.py, lines 256-262). *)
Definition handle_color_by_change (g : Gui) : Gui :=
  if gui_color_by_label g && gui_color_by_bucket g then
    if gui_selected_tab g =? 1 then set_color_by_bucket false g
    else set_color_by_label false g
  else g.

(** A click on a check box: Tk flips the variable, then runs the
    command. *)
Definition click_color_by_label (g : Gui) : Gui :=
  handle_color_by_change (set_color_by_label (negb (gui_color_by_label g)) g).

Definition click_color_by_bucket (g : Gui) : Gui :=
  handle_color_by_change (set_color_by_bucket (negb (gui_color_by_bucket g)) g).

(** [validate_inputs] (lines 287-338): [Invalid message] stands for the
    error box with that message followed by [return False]; [isfile] is
    [os.path.isfile]. *)
Inductive validation : Type :=
| Valid
| Invalid (message : string).

Definition validate_inputs (isfile : string -> bool) (g : Gui) : validation :=
  let excel_file := gui_excel_file_path g in
  if String.eqb excel_file "" then Invalid "Please select an Excel file."
  else if negb (isfile excel_file)
  then Invalid ("Excel file not found: " ++ excel_file)
  else
    let year_str := strip (gui_year g) in
    let year_error :=
      if String.eqb year_str "" then None
      else match py_int_of_str year_str with
           | Some year =>
               if (year <? 1900) || (2100 <? year)
               then Some "Year must be between 1900 and 2100."
               else None
           | None => Some "Year must be a valid integer."
           end in
    match year_error with
    | Some message => Invalid message
    | None =>
        let saturation := gui_color_saturation g in
        let lightness := gui_color_lightness g in
        if colorsys.Qltb saturation 0 || colorsys.Qltb 1 saturation
        then Invalid "Color saturation must be between 0.0 and 1.0."
        else if colorsys.Qltb lightness 0 || colorsys.Qltb 1 lightness
        then Invalid "Color lightness must be between 0.0 and 1.0."
        else if gui_color_by_label g && gui_color_by_bucket g
        then Invalid
               "You cannot use both 'Color by Label' and 'Color by Bucket' at the same time."
        else Valid
    end.

(** [generate_calendar] (lines 340-478), from the table read from the
    workbook: the message of the error box when the inputs are rejected,
    the document written, or the exception the final [except] reports. *)
Inductive gui_outcome : Type :=
| Rejected (message : string)
| Written (html_content : string)
| Failed (e : exn).

(** Lines 432-442. *)
Definition gui_target_year (g : Gui) (tasks_df : frame) (now_year : Z)
  : result Z :=
  let year_str := strip (gui_year g) in
  if negb (String.eqb year_str "") then
    match py_int_of_str year_str with
    | Some target_year => Ok target_year
    | None => Raise ValueError
    end
  else
    let valid_start_dates :=
      omap (fun r => match to_datetime (Start_date r) with
                     | Timestamp d => Some d
                     | _ => None
                     end) tasks_df in
    match valid_start_dates with
    | [] => Ok now_year
    | d :: ds => Ok (datetime.year (fold_left datetime.date_min ds d))
    end.

(** Lines 445-448. *)
Definition gui_target_month (g : Gui) : option month_arg :=
  let month_str := strip (gui_month g) in
  if negb (String.eqb month_str "") then Some (MonthStr month_str) else None.

Definition generate_calendar (fuel : nat) (isfile : string -> bool) (g : Gui)
    (tasks_df : frame) (now_year : Z) : frame * gui_outcome :=
  match validate_inputs isfile g with
  | Invalid message => (tasks_df, Rejected message)
  | Valid =>
      let task_colors :=
        assign_task_colors tasks_df (gui_color_by_label g)
          (gui_color_by_bucket g) (gui_alternate_colors g)
          (gui_color_saturation g) (gui_color_lightness g) in
      match gui_target_year g tasks_df now_year with
      | Raise e => (tasks_df, Failed e)
      | Ok target_year =>
          let target_month := gui_target_month g in
          let '(tasks_df, html_content) :=
            generate_calendar_html fuel tasks_df (gui_no_wrap_text g)
              target_year task_colors (gui_prefix_labels g) target_month in
          match html_content with
          | Ok html_content => (tasks_df, Written html_content)
          | Raise e => (tasks_df, Failed e)
          end
      end
  end.

(** The command line that asks for what the window asks for. *)
Definition args_of_gui (g : Gui) : Args :=
  {| args_year :=
       if String.eqb (strip (gui_year g)) "" then None
       else py_int_of_str (strip (gui_year g));
     args_month :=
       if String.eqb (strip (gui_month g)) "" then None
       else Some (strip (gui_month g));
     args_no_wrap_text := gui_no_wrap_text g;
     args_color_saturation := gui_color_saturation g;
     args_color_lightness := gui_color_lightness g;
     args_color_by_label := gui_color_by_label g;
     args_color_by_bucket := gui_color_by_bucket g;
     args_prefix_labels := gui_prefix_labels g;
     args_alternate_colors := gui_alternate_colors g |}.

(** ** Sample settings *)

(** The arguments [argparse] yields when only the workbook is named. *)
Definition default_args : Args :=
  {| args_year := None;
     args_month := None;
     args_no_wrap_text := false;
     args_color_saturation := 7 # 10;
     args_color_lightness := 85 # 100;
     args_color_by_label := false;
     args_color_by_bucket := false;
     args_prefix_labels := false;
     args_alternate_colors := false |}.

(** The same with [--month " 7 "]. *)
Definition july_args : Args :=
  {| args_year := None;
     args_month := Some " 7 ";
     args_no_wrap_text := false;
     args_color_saturation := 7 # 10;
     args_color_lightness := 85 # 100;
     args_color_by_label := false;
     args_color_by_bucket := false;
     args_prefix_labels := false;
     args_alternate_colors := false |}.

(** A window with a workbook chosen, the year 2024, the month March and
    the label box set, the advanced tab selected. *)
Definition sample_gui : Gui :=
  {| gui_excel_file_path := "tasks.xlsx";
     gui_year := "2024";
     gui_month := "march";
     gui_no_wrap_text := false;
     gui_color_saturation := 7 # 10;
     gui_color_lightness := 85 # 100;
     gui_color_by_label := true;
     gui_color_by_bucket := false;
     gui_prefix_labels := false;
     gui_alternate_colors := false;
     gui_selected_tab := 1 |}.

(** The first record of [scenario_tasks]. *)
Definition design_record : row :=
  mkrow "Design" (on_day 2024 1 1) (on_day 2024 1 3) NaT (Some "Eng") None.

(** * Properties *)

(** ** The calendar arithmetic of [datetime] *)

Module datetime_facts.
Import datetime.

Lemma is_leap_cases y :
  let Y := y - 1 in
  _is_leap y = true /\ Y mod 4 = 3 /\ (Y mod 100 <> 99 \/ Y mod 400 = 399) \/
  _is_leap y = false /\ (Y mod 4 <> 3 \/ Y mod 100 = 99 /\ Y mod 400 <> 399).
Proof.
  cbv zeta. unfold _is_leap.
  destruct (Z.eqb_spec (y mod 4) 0), (Z.eqb_spec (y mod 100) 0), (Z.eqb_spec (y mod 400) 0);
    simpl; Z.div_mod_to_equations; lia.
Qed.


Ltac decompose_year y Y a b c e :=
  remember (y - 1) as Y eqn:HeqY;
  let r := fresh "r" in let s := fresh "s" in
  pose proof (Z.div_mod Y 400 ltac:(lia));
  pose proof (Z.mod_pos_bound Y 400 ltac:(lia));
  remember (Y / 400) as a; remember (Y mod 400) as r;
  pose proof (Z.div_mod r 100 ltac:(lia));
  pose proof (Z.mod_pos_bound r 100 ltac:(lia));
  remember (r / 100) as b; remember (r mod 100) as s;
  pose proof (Z.div_mod s 4 ltac:(lia));
  pose proof (Z.mod_pos_bound s 4 ltac:(lia));
  remember (s / 4) as c; remember (s mod 4) as e;
  assert (Y / 4 = 100 * a + 25 * b + c)
    by (symmetry; apply Z.div_unique with e; lia);
  assert (Y / 100 = 4 * a + b)
    by (symmetry; apply Z.div_unique with s; lia);
  assert (Y mod 4 = e)
    by (symmetry; apply Z.mod_unique with (100 * a + 25 * b + c); lia);
  assert (Y mod 100 = s)
    by (symmetry; apply Z.mod_unique with (4 * a + b); lia);
  assert (0 <= b < 4) by lia;
  assert (0 <= c < 25) by lia;
  repeat match goal with
         | H : _ = _ / _ |- _ => clear H
         | H : _ = _ mod _ |- _ => clear H
         end.

Ltac divmod_by d q rr :=
  let Q := fresh "Q" in let P := fresh "P" in
  assert (Q : (d * q + rr) / d = q)
    by (symmetry; apply Z.div_unique with rr; lia);
  assert (P : (d * q + rr) mod d = rr)
    by (symmetry; apply Z.mod_unique with q; lia);
  rewrite ?Q, ?P; clear Q P.

Lemma year_phase y k :
  0 <= k < 365 ->
  let n0 := _days_before_year y + k in
  let n400 := n0 / 146097 in let r1 := n0 mod 146097 in
  let n100 := r1 / 36524 in let r2 := r1 mod 36524 in
  let n4 := r2 / 1461 in let r3 := r2 mod 1461 in
  let n1 := r3 / 365 in let r4 := r3 mod 365 in
  n1 <> 4 /\ n100 <> 4 /\ n400 * 400 + 1 + (n100 * 100 + n4 * 4 + n1) = y /\
  r4 = k /\ ((n1 =? 3) && (negb (n4 =? 24) || (n100 =? 3))) = _is_leap y.
Proof.
  intros Hk. cbv zeta.
  pose proof (is_leap_cases y) as HL. cbv zeta in HL.
  unfold _days_before_year in *.
  decompose_year y Y a b c e.
  replace (Y * 365 + Y / 4 - Y / 100 + a + k)
    with (146097 * a + (36524 * b + (1461 * c + (365 * e + k)))) by lia.
  divmod_by 146097 a (36524 * b + (1461 * c + (365 * e + k))).
  divmod_by 36524 b (1461 * c + (365 * e + k)).
  divmod_by 1461 c (365 * e + k).
  divmod_by 365 e k.
  repeat split; try lia.
  rewrite H7, H8 in HL.
  destruct HL as [[-> HL]|[-> HL]];
    destruct (Z.eqb_spec e 3), (Z.eqb_spec c 24), (Z.eqb_spec b 3); simpl;
    first [reflexivity | exfalso; lia].
Qed.

Lemma year_phase_last y :
  _is_leap y = true ->
  let n0 := _days_before_year y + 365 in
  let n400 := n0 / 146097 in let r1 := n0 mod 146097 in
  let n100 := r1 / 36524 in let r2 := r1 mod 36524 in
  let n4 := r2 / 1461 in let r3 := r2 mod 1461 in
  let n1 := r3 / 365 in
  (n1 = 4 \/ n100 = 4) /\ n400 * 400 + 1 + (n100 * 100 + n4 * 4 + n1) - 1 = y.
Proof.
  intros Hleap. cbv zeta.
  pose proof (is_leap_cases y) as HL. cbv zeta in HL.
  unfold _days_before_year in *.
  decompose_year y Y a b c e.
  rewrite Hleap in HL.
  match goal with H7 : Y mod 4 = e, H8 : Y mod 100 = _ |- _ =>
    rewrite H7, H8 in HL end.
  assert (He : e = 3) by (destruct HL as [[_ HL]|[HL _]]; [lia|discriminate]).
  assert (Hcb : c <> 24 \/ b = 3)
    by (destruct HL as [[_ HL]|[HL _]]; [lia|discriminate]).
  clear HL.
  replace (Y * 365 + Y / 4 - Y / 100 + a + 365)
    with (146097 * a + (36524 * b + (1461 * c + 1460))) by lia.
  divmod_by 146097 a (36524 * b + (1461 * c + 1460)).
  destruct (Z.eq_dec c 24) as [Hc|Hc].
  - assert (Hb : b = 3) by lia. subst b c.
    change (36524 * 3 + (1461 * 24 + 1460)) with (36524 * 4 + 0).
    divmod_by 36524 4 0.
    change (0 mod 1461) with 0. change (0 / 1461) with 0.
    change (0 / 365) with 0.
    split; [right|]; lia.
  - divmod_by 36524 b (1461 * c + 1460).
    divmod_by 1461 c 1460.
    change (1460 / 365) with 4. split; [left|]; lia.
Qed.

Lemma month_cases m : 1 <= m <= 12 ->
  m = 1 \/ m = 2 \/ m = 3 \/ m = 4 \/ m = 5 \/ m = 6 \/
  m = 7 \/ m = 8 \/ m = 9 \/ m = 10 \/ m = 11 \/ m = 12.
Proof. lia. Qed.

Ltac each_month m H :=
  let H' := fresh in
  pose proof (month_cases m H) as H';
  repeat (destruct H' as [H'|H']; [subst m|]); [..|subst m].

Ltac is_numeral v :=
  lazymatch v with
  | Z0 => idtac | Zpos _ => idtac | Zneg _ => idtac
  | true => idtac | false => idtac
  end.

Ltac reduce_closed :=
  repeat
    (match goal with
     | |- context [tbl ?l ?i] =>
         is_numeral i;
         let v := eval vm_compute in (tbl l i) in change (tbl l i) with v
     | |- context [?a =? ?b] =>
         is_numeral a; is_numeral b;
         let v := eval vm_compute in (a =? b) in change (a =? b) with v
     | |- context [?a <? ?b] =>
         is_numeral a; is_numeral b;
         let v := eval vm_compute in (a <? b) in change (a <? b) with v
     | |- context [?a - ?b] =>
         is_numeral a; is_numeral b;
         let v := eval vm_compute in (a - b) in change (a - b) with v
     | |- context [?a + ?b] =>
         is_numeral a; is_numeral b;
         let v := eval vm_compute in (a + b) in change (a + b) with v
     end);
  cbn [andb orb negb].

Lemma month_phase (yr : Z) (L : bool) m d :
  1 <= m <= 12 ->
  1 <= d <= (if (m =? 2) && L then 29 else tbl _DAYS_IN_MONTH m) ->
  let n := tbl _DAYS_BEFORE_MONTH m + (if (2 <? m) && L then 1 else 0) + d - 1 in
  (let month := Z.shiftr (n + 50) 5 in
   let preceding :=
     tbl _DAYS_BEFORE_MONTH month
     + (if (2 <? month) && L then 1 else 0) in
   let '(month, preceding) :=
     if n <? preceding
     then (month - 1,
           preceding - (tbl _DAYS_IN_MONTH (month - 1)
                        + (if (month - 1 =? 2) && L then 1 else 0)))
     else (month, preceding) in
   let n := n - preceding in
   (yr, month, n + 1)) = (yr, m, d).
Proof.
  intros Hm Hd. cbv zeta.
  rewrite Z.shiftr_div_pow2 by lia. change (2 ^ 5) with 32.
  each_month m Hm; destruct L; revert Hd; reduce_closed; intros Hd.
  all: match goal with
       | |- context [(?x + 50) / 32] =>
           let q := fresh "q" in
           let Hq := fresh "Hq" in
           let Hr := fresh "Hr" in
           let Hc := fresh "Hc" in
           pose proof (Z.div_mod (x + 50) 32 ltac:(lia)) as Hq;
           pose proof (Z.mod_pos_bound (x + 50) 32 ltac:(lia)) as Hr;
           remember ((x + 50) / 32) as q;
           remember ((x + 50) mod 32) as r;
           match goal with
           | |- _ = (_, ?m, _) =>
               assert (Hc : q = m \/ q = m + 1) by lia;
               destruct Hc as [Hc|Hc]; rewrite Hc in *
           end
       end.
  all: reduce_closed.
  all: match goal with
       | |- context [?a <? ?b] => destruct (Z.ltb_spec a b)
       end.
  all: try (exfalso; lia).
  all: cbv beta iota; reduce_closed.
  all: f_equal; try f_equal; lia.
Qed.

Lemma days_before_month_range y m d :
  1 <= m <= 12 -> 1 <= d <= _days_in_month y m ->
  0 <= _days_before_month y m + d - 1 < 365 + (if _is_leap y then 1 else 0).
Proof.
  intros Hm Hd. unfold _days_before_month, _days_in_month in *.
  each_month m Hm; destruct (_is_leap y); revert Hd; reduce_closed; lia.
Qed.

Lemma last_day_of_leap_year y m d :
  1 <= m <= 12 -> 1 <= d <= _days_in_month y m ->
  _days_before_month y m + d - 1 = 365 -> m = 12 /\ d = 31.
Proof.
  intros Hm Hd. unfold _days_before_month, _days_in_month in *.
  each_month m Hm; destruct (_is_leap y); revert Hd; reduce_closed; lia.
Qed.

Lemma ord2ymd_ymd2ord y m d :
  1 <= m <= 12 -> 1 <= d <= _days_in_month y m ->
  _ord2ymd (_ymd2ord y m d) = (y, m, d).
Proof.
  intros Hm Hd.
  pose proof (days_before_month_range y m d Hm Hd) as Hk.
  unfold _ord2ymd, _ymd2ord.
  change _DI400Y with 146097. change _DI100Y with 36524.
  change _DI4Y with 1461.
  replace (_days_before_year y + _days_before_month y m + d - 1)
    with (_days_before_year y + (_days_before_month y m + d - 1)) by lia.
  destruct (Z.eq_dec (_days_before_month y m + d - 1) 365) as [E|NE].
  - destruct (last_day_of_leap_year y m d Hm Hd E) as [-> ->].
    assert (HL : _is_leap y = true) by (destruct (_is_leap y); [easy|lia]).
    rewrite E. destruct (year_phase_last y HL) as [Hn Hy]. cbv zeta in Hn, Hy.
    cbv zeta.
    match goal with
    | |- (if ?c then _ else _) = _ =>
        replace c with true
    end.
    + f_equal. f_equal. exact Hy.
    + symmetry. apply orb_true_iff.
      destruct Hn as [Hn|Hn]; [left|right]; apply Z.eqb_eq; exact Hn.
  - assert (Hk' : 0 <= _days_before_month y m + d - 1 < 365)
      by (destruct (_is_leap y); lia).
    destruct (year_phase y _ Hk') as (H1 & H2 & H3 & H4 & H5).
    cbv zeta in H1, H2, H3, H4, H5. cbv zeta.
    rewrite (proj2 (Z.eqb_neq _ _) H1), (proj2 (Z.eqb_neq _ _) H2).
    cbn [orb]. rewrite H3, H4, H5.
    unfold _days_before_month.
    apply (month_phase y (_is_leap y) m d Hm). exact Hd.
Qed.

Lemma days_before_year_succ y :
  _days_before_year (y + 1)
  = _days_before_year y + 365 + (if _is_leap y then 1 else 0).
Proof.
  unfold _days_before_year, _is_leap.
  destruct (Z.eqb_spec (y mod 4) 0), (Z.eqb_spec (y mod 100) 0),
    (Z.eqb_spec (y mod 400) 0); cbn [andb orb negb];
    Z.div_mod_to_equations; lia.
Qed.

Lemma days_before_year_mono y1 y2 :
  y1 <= y2 -> _days_before_year y1 <= _days_before_year y2.
Proof.
  unfold _days_before_year. intros H.
  Z.div_mod_to_equations; lia.
Qed.

Lemma days_before_month_succ y m :
  1 <= m < 12 ->
  _days_before_month y (m + 1) = _days_before_month y m + _days_in_month y m.
Proof.
  intros Hm. unfold _days_before_month, _days_in_month.
  assert (Hm' : 1 <= m <= 12) by lia.
  each_month m Hm'; try lia; destruct (_is_leap y); reduce_closed; lia.
Qed.

Lemma days_in_month_pos y m : 1 <= m <= 12 -> 28 <= _days_in_month y m <= 31.
Proof.
  intros Hm. unfold _days_in_month.
  each_month m Hm; destruct (_is_leap y); reduce_closed; lia.
Qed.

Lemma days_before_month_mono y m1 m2 :
  1 <= m1 -> m1 < m2 -> m2 <= 12 ->
  _days_before_month y m1 + _days_in_month y m1 <= _days_before_month y m2.
Proof.
  intros H1 H H2.
  assert (Hm1 : 1 <= m1 <= 12) by lia.
  assert (Hm2 : 1 <= m2 <= 12) by lia.
  unfold _days_before_month, _days_in_month.
  each_month m1 Hm1; each_month m2 Hm2; try lia;
    destruct (_is_leap y); reduce_closed; lia.
Qed.

Lemma toordinal_lt a b :
  valid a -> valid b -> _cmp a b = Lt -> toordinal a < toordinal b.
Proof.
  intros (Hya & Hma & Hda) (Hyb & Hmb & Hdb). unfold _cmp, toordinal, _ymd2ord.
  destruct a as [y1 m1 d1], b as [y2 m2 d2]; cbn [year month day] in *.
  pose proof (days_before_month_range y1 m1 d1 Hma Hda).
  pose proof (days_before_month_range y2 m2 d2 Hmb Hdb).
  destruct (Z.compare_spec y1 y2) as [->|Hy|Hy]; try discriminate.
  - destruct (Z.compare_spec m1 m2) as [->|Hm|Hm]; try discriminate.
    + intros Hd. change (d1 < d2) in Hd. lia.
    + intros _. pose proof (days_before_month_mono y2 m1 m2). lia.
  - intros _. pose proof (days_before_year_succ y1).
    pose proof (days_before_year_mono (y1 + 1) y2). lia.
Qed.

Lemma toordinal_range d : valid d -> 1 <= toordinal d <= _MAXORDINAL.
Proof.
  intros (Hy & Hm & Hd). unfold toordinal, _ymd2ord.
  pose proof (days_before_month_range _ _ _ Hm Hd).
  pose proof (days_before_year_mono 1 (year d) (proj1 Hy)) as L.
  pose proof (days_before_year_succ (year d)).
  pose proof (days_before_year_mono (year d + 1) 10000) as U.
  unfold MINYEAR, MAXYEAR in *.
  unfold MINYEAR, MAXYEAR in *.
  change (_days_before_year 1) with 0 in L.
  change (_days_before_year 10000) with 3652059 in U.
  unfold _MAXORDINAL. lia.
Qed.

Lemma fromordinal_toordinal d : valid d -> fromordinal (toordinal d) = Ok d.
Proof.
  intros (Hy & Hm & Hd). unfold fromordinal, toordinal.
  rewrite ord2ymd_ymd2ord by assumption. unfold date_new.
  destruct d as [y m dd]; cbn [year month day] in *.
  unfold MINYEAR, MAXYEAR in *.
  repeat match goal with
         | |- context [?a <=? ?b] =>
             destruct (Z.leb_spec a b); [|exfalso; lia]
         end.
  reflexivity.
Qed.

Lemma cmp_eq a b : _cmp a b = Eq <-> a = b.
Proof.
  destruct a as [y1 m1 d1], b as [y2 m2 d2]. unfold _cmp. cbn [year month day].
  split.
  - destruct (Z.compare_spec y1 y2); try discriminate.
    destruct (Z.compare_spec m1 m2); try discriminate.
    destruct (Z.compare_spec d1 d2); try discriminate. congruence.
  - intros [= -> -> ->]. now rewrite !Z.compare_refl.
Qed.

Lemma cmp_antisym a b : _cmp b a = CompOpp (_cmp a b).
Proof.
  unfold _cmp.
  rewrite (Z.compare_antisym (year a)), (Z.compare_antisym (month a)),
    (Z.compare_antisym (day a)).
  destruct (year a ?= year b), (month a ?= month b), (day a ?= day b);
    reflexivity.
Qed.

Lemma date_le_toordinal a b :
  valid a -> valid b -> date_le a b = true <-> toordinal a <= toordinal b.
Proof.
  intros Ha Hb. unfold date_le.
  destruct (_cmp a b) eqn:E.
  - apply cmp_eq in E. subst. split; [lia|reflexivity].
  - pose proof (toordinal_lt a b Ha Hb E). split; [lia|reflexivity].
  - assert (E' : _cmp b a = Lt) by (rewrite cmp_antisym, E; reflexivity).
    pose proof (toordinal_lt b a Hb Ha E'). split; [discriminate|lia].
Qed.

Lemma toordinal_inj a b : valid a -> valid b -> toordinal a = toordinal b -> a = b.
Proof.
  intros Ha Hb E. pose proof (fromordinal_toordinal a Ha) as Fa.
  rewrite E, (fromordinal_toordinal b Hb) in Fa. congruence.
Qed.

Lemma ordinal_has_date o :
  1 <= o <= _MAXORDINAL -> exists d, valid d /\ toordinal d = o.
Proof.
  intros [Hlo Hhi]. revert Hhi.
  pattern o. apply (Zlt_lower_bound_ind _ 1); [|exact Hlo].
  clear o Hlo. intros o IH Hlo Hhi.
  destruct (Z.eq_dec o 1) as [->|Hne].
  - exists (mkdate 1 1 1). split; [|reflexivity].
    unfold valid; cbn [year month day].
    change (_days_in_month 1 1) with 31. unfold MINYEAR, MAXYEAR. lia.
  - destruct (IH (o - 1)) as ([y m d] & (Hy & Hm & Hd) & Ho); try lia.
    cbn [year month day] in *. unfold toordinal, _ymd2ord in Ho.
    cbn [year month day] in Ho.
    destruct (Z.eq_dec d (_days_in_month y m)) as [Ed|Nd].
    + destruct (Z.eq_dec m 12) as [Em|Nm].
      * subst m. exists (mkdate (y + 1) 1 1).
        assert (E31 : _days_in_month y 12 = 31) by reflexivity.
        pose proof (days_before_year_succ y) as Hs.
        assert (Hdbm : _days_before_month y 12
                       = 334 + (if _is_leap y then 1 else 0))
          by (unfold _days_before_month; reduce_closed; reflexivity).
        assert (Ho' : toordinal (mkdate (y + 1) 1 1) = o).
        { unfold toordinal, _ymd2ord. cbn [year month day].
          change (_days_before_month (y + 1) 1) with 0.
          destruct (_is_leap y); lia. }
        split; [|exact Ho'].
        unfold valid. cbn [year month day].
        split; [|split; [lia|change (_days_in_month (y + 1) 1) with 31; lia]].
        unfold MINYEAR, MAXYEAR in *. split; [lia|].
        destruct (Z.eq_dec y 9999) as [->|]; [|lia].
        exfalso. change (_days_before_year 9999) with 3651694 in *.
        change (_is_leap 9999) with false in *. unfold _MAXORDINAL in *. lia.
      * exists (mkdate y (m + 1) 1). split.
        -- unfold valid. cbn [year month day].
           pose proof (days_in_month_pos y (m + 1)). lia.
        -- unfold toordinal, _ymd2ord. cbn [year month day].
           rewrite days_before_month_succ by lia. lia.
    + exists (mkdate y m (d + 1)). split.
      * unfold valid. cbn [year month day]. lia.
      * unfold toordinal, _ymd2ord. cbn [year month day]. lia.
Qed.

Lemma toordinal_fromordinal o :
  1 <= o <= _MAXORDINAL ->
  exists d, fromordinal o = Ok d /\ valid d /\ toordinal d = o.
Proof.
  intros H. destruct (ordinal_has_date o H) as (d & Hv & Ho).
  exists d. rewrite <- Ho at 1. auto using fromordinal_toordinal.
Qed.

(** The tuple order of [date._cmp], in arithmetic form. *)
Lemma date_le_spec a b :
  date_le a b = true <->
  year a < year b \/
  year a = year b /\ (month a < month b \/ month a = month b /\ day a <= day b).
Proof.
  unfold date_le, _cmp.
  destruct (Z.compare_spec (year a) (year b));
    destruct (Z.compare_spec (month a) (month b));
    destruct (Z.compare_spec (day a) (day b)); split; intros; try lia;
    try reflexivity; try discriminate.
Qed.

Lemma date_lt_spec a b :
  date_lt a b = true <->
  year a < year b \/
  year a = year b /\ (month a < month b \/ month a = month b /\ day a < day b).
Proof.
  unfold date_lt, _cmp.
  destruct (Z.compare_spec (year a) (year b));
    destruct (Z.compare_spec (month a) (month b));
    destruct (Z.compare_spec (day a) (day b)); split; intros; try lia;
    try reflexivity; try discriminate.
Qed.

Lemma date_le_false a b : date_le a b = false <-> date_lt b a = true.
Proof.
  pose proof (date_le_spec a b). pose proof (date_lt_spec b a).
  destruct (date_le a b), (date_lt b a); split; intros; try reflexivity;
    try discriminate; exfalso; intuition lia.
Qed.

Lemma date_le_refl a : date_le a a = true.
Proof. apply date_le_spec. lia. Qed.

Lemma date_le_trans a b c :
  date_le a b = true -> date_le b c = true -> date_le a c = true.
Proof. rewrite !date_le_spec. lia. Qed.

Ltac date_order :=
  repeat match goal with
         | H : date_lt _ _ = true |- _ => apply date_lt_spec in H
         | H : date_lt ?a ?b = false |- _ =>
             assert (~ (date_lt a b = true)) by (rewrite H; discriminate);
             clear H
         | H : date_le _ _ = true |- _ => apply date_le_spec in H
         | H : date_le _ _ = false |- _ => apply date_le_false in H
         | H : ~ (date_lt _ _ = true) |- _ => rewrite date_lt_spec in H
         | |- date_le _ _ = true => apply date_le_spec
         | |- date_lt _ _ = true => apply date_lt_spec
         | |- date_le _ _ = false => apply date_le_false
         end;
  try lia.

Lemma date_max_le s j d :
  date_le (date_max s j) d = true <-> date_le s d = true /\ date_le j d = true.
Proof.
  unfold date_max. destruct (date_lt s j) eqn:E;
    (split; [intros H; split|intros [H1 H2]]); date_order.
Qed.

Lemma date_min_ge e j d :
  date_le d (date_min e j) = true <-> date_le d e = true /\ date_le d j = true.
Proof.
  unfold date_min. destruct (date_lt j e) eqn:E;
    (split; [intros H; split|intros [H1 H2]]); date_order.
Qed.

Lemma valid_first_of_year y :
  MINYEAR <= y <= MAXYEAR -> valid (mkdate y 1 1).
Proof.
  intros H. unfold valid. cbn [year month day].
  change (_days_in_month y 1) with 31. lia.
Qed.

Lemma valid_last_of_year y :
  MINYEAR <= y <= MAXYEAR -> valid (mkdate y 12 31).
Proof.
  intros H. unfold valid. cbn [year month day].
  change (_days_in_month y 12) with 31. lia.
Qed.

Lemma date_new_valid y m d :
  valid (mkdate y m d) -> date_new y m d = Ok (mkdate y m d).
Proof.
  intros (Hy & Hm & Hd). cbn [year month day] in *. unfold date_new.
  repeat match goal with
         | |- context [?a <=? ?b] =>
             destruct (Z.leb_spec a b); [|exfalso; lia]
         end.
  reflexivity.
Qed.

Lemma date_max_valid a b : valid a -> valid b -> valid (date_max a b).
Proof. unfold date_max. destruct (date_lt a b); auto. Qed.

Lemma date_min_valid a b : valid a -> valid b -> valid (date_min a b).
Proof. unfold date_min. destruct (date_lt b a); auto. Qed.

(** Adding one day to a date that is not the last representable one. *)
Lemma date_add_one d :
  valid d -> toordinal d < _MAXORDINAL ->
  exists d', date_add d 1 = Ok d' /\ valid d' /\ toordinal d' = toordinal d + 1.
Proof.
  intros Hv Hlt. pose proof (toordinal_range d Hv) as Hr.
  unfold date_add.
  destruct (Z.ltb_spec 0 (toordinal d + 1)); [|lia].
  destruct (Z.leb_spec (toordinal d + 1) _MAXORDINAL); [|lia].
  cbn [andb]. apply toordinal_fromordinal. lia.
Qed.

Lemma toordinal_first_last_of_year y :
  toordinal (mkdate y 12 31) - toordinal (mkdate y 1 1) <= 365.
Proof.
  unfold toordinal, _ymd2ord, _days_before_month. cbn [year month day].
  reduce_closed. destruct (_is_leap y); lia.
Qed.

End datetime_facts.

(** ** The day index *)

Section day_index.
Import datetime datetime_facts.

Implicit Types (tasks_by_day : DayIndex) (d : date) (name : string).

Lemma tasks_on_empty d : tasks_on ∅ d = [].
Proof. unfold tasks_on. by rewrite lookup_empty. Qed.

(** One pass through the body of the [while] loop. *)
Lemma loop_body_tasks_on tasks_by_day task_name current_date :
  let tbd1 :=
    match tasks_by_day !! current_date with
    | None => <[current_date := []]> tasks_by_day
    | Some _ => tasks_by_day
    end in
  let today := default [] (tbd1 !! current_date) in
  let tbd2 :=
    if bool_decide (task_name ∈ today) then tbd1
    else <[current_date := (today ++ [task_name])%list]> tbd1 in
  forall d name,
    name ∈ tasks_on tbd2 d <->
    name ∈ tasks_on tasks_by_day d \/ (name = task_name /\ d = current_date).
Proof.
  intros tbd1 today tbd2 d name.
  assert (H1 : forall d', tasks_on tbd1 d' = tasks_on tasks_by_day d').
  { intros d'. unfold tasks_on, tbd1.
    destruct (tasks_by_day !! current_date) eqn:E; [done|].
    destruct (decide (current_date = d')) as [->|Hne].
    - by rewrite lookup_insert_eq, E.
    - by rewrite lookup_insert_ne. }
  assert (Ht : today = tasks_on tasks_by_day current_date) by apply H1.
  unfold tbd2. clear tbd2. clearbody today tbd1. subst today.
  case_bool_decide as Hin.
  - rewrite H1. split; [auto|].
    intros [?|[-> ->]]; done.
  - unfold tasks_on at 1.
    destruct (decide (current_date = d)) as [->|Hne].
    + rewrite lookup_insert_eq. cbn. rewrite elem_of_app, list_elem_of_singleton.
      intuition auto.
    + rewrite lookup_insert_ne by done. fold (tasks_on tbd1 d). rewrite H1.
      split; [auto|]. intros [?|[_ ->]]; done.
Qed.

(** The loop adds [task_name] on the days from [current_date] to
    [end_date], and needs one unit of fuel per day. *)
Lemma while_current_date_spec fuel task_name end_date :
  valid end_date -> toordinal end_date < _MAXORDINAL ->
  forall current_date tasks_by_day,
    valid current_date ->
    toordinal end_date - toordinal current_date + 1 <= Z.of_nat fuel ->
    exists tbd',
      while_current_date fuel task_name current_date end_date tasks_by_day
      = Ok tbd' /\
      forall d name,
        name ∈ tasks_on tbd' d <->
        name ∈ tasks_on tasks_by_day d \/
        (name = task_name /\ valid d /\
         date_le current_date d = true /\ date_le d end_date = true).
Proof.
  intros Hve Hmax. induction fuel as [|fuel IH]; intros cur tbd Hvc Hfuel.
  - cbn [while_current_date].
    destruct (date_le cur end_date) eqn:Hle.
    + apply date_le_toordinal in Hle; [lia|done..].
    + exists tbd. split; [done|]. intros d name. split; [auto|].
      intros [?|(_ & Hvd & H1 & H2)]; [done|].
      pose proof (date_le_trans _ _ _ H1 H2). congruence.
  - cbn [while_current_date].
    destruct (date_le cur end_date) eqn:Hle.
    + pose proof (proj1 (date_le_toordinal _ _ Hvc Hve) Hle) as Hord.
      destruct (date_add_one cur Hvc ltac:(lia)) as (next & -> & Hvn & Hon).
      cbn [rbind].
      match goal with
      | |- context [while_current_date fuel task_name next end_date ?t] =>
          destruct (IH next t Hvn ltac:(lia)) as (tbd' & -> & Hspec)
      end.
      exists tbd'. split; [done|]. intros d name.
      rewrite Hspec, loop_body_tasks_on.
      split.
      * intros [[?|[-> ->]]|(-> & Hvd & H1 & H2)]; [by left|right..].
        -- split_and!; auto using date_le_refl.
        -- split_and!; auto.
           apply date_le_toordinal; [done..|].
           apply date_le_toordinal in H1; [lia|done..].
      * intros [?|(-> & Hvd & H1 & H2)]; auto.
        apply date_le_toordinal in H1; [|done..].
        destruct (Z.eq_dec (toordinal cur) (toordinal d)) as [E|NE].
        -- left. right. split; [done|]. symmetry. by apply toordinal_inj.
        -- right. split_and!; auto. apply date_le_toordinal; [done..|lia].
    + exists tbd. split; [done|]. intros d name. split; [auto|].
      intros [?|(_ & Hvd & H1 & H2)]; [done|].
      pose proof (date_le_trans _ _ _ H1 H2). congruence.
Qed.

End day_index.

(** ** Date resolution *)

Section resolution.
Import datetime datetime_facts.

Lemma resolve_dates_rows tasks_df :
  resolve_dates tasks_df = map resolved_row tasks_df.
Proof.
  unfold resolve_dates, start_falls_back_to_due, completed_overrides_due,
    coerce_dates.
  rewrite !map_map. reflexivity.
Qed.

Lemma resolved_row_other_fields r :
  Task_Name (resolved_row r) = Task_Name r /\
  Labels (resolved_row r) = Labels r /\
  Bucket_Name (resolved_row r) = Bucket_Name r.
Proof.
  destruct r as [n [s| |s] [e| |e] [c| |c] l b]; repeat split.
Qed.

Lemma resolved_row_range r :
  match effective_range r with
  | Some (s, e) =>
      Start_date (resolved_row r) = Timestamp s /\
      Due_date (resolved_row r) = Timestamp e
  | None =>
      notna (Start_date (resolved_row r)) && notna (Due_date (resolved_row r))
      = false
  end.
Proof.
  destruct r as [n [s| |s] [e| |e] [c| |c] l b]; cbn; auto.
Qed.

Lemma resolved_row_ok r :
  row_ok r ->
  cell_ok (Start_date (resolved_row r)) /\ cell_ok (Due_date (resolved_row r)).
Proof.
  destruct r as [n [s| |s] [e| |e] [c| |c] l b]; unfold row_ok; cbn; tauto.
Qed.

(** The rows that reach the indexer. *)
Lemma elem_of_dropna_resolve r' tasks_df :
  r' ∈ dropna (resolve_dates tasks_df) <->
  exists r s e,
    r ∈ tasks_df /\ effective_range r = Some (s, e) /\ r' = resolved_row r.
Proof.
  rewrite resolve_dates_rows. unfold dropna.
  rewrite list_elem_of_In, filter_In, in_map_iff. split.
  - intros [(r & <- & Hin%list_elem_of_In) Hna].
    pose proof (resolved_row_range r) as Hr.
    destruct (effective_range r) as [[s e]|] eqn:He; [|congruence].
    by exists r, s, e.
  - intros (r & s & e & Hin & He & ->).
    pose proof (resolved_row_range r) as Hr. rewrite He in Hr.
    destruct Hr as [-> ->]. split; [|done].
    exists r. split; [done|]. by apply list_elem_of_In.
Qed.

End resolution.

Section index_spec.
Import datetime datetime_facts.

Lemma timestamp_ok_not_last d :
  timestamp_ok d -> forall d', valid d' -> date_le d' d = true ->
  toordinal d' < _MAXORDINAL.
Proof.
  intros (Hv & _ & Hmax) d' Hv' Hle.
  pose proof (date_le_trans _ _ _ Hle Hmax) as Hle'.
  assert (Hvm : valid Timestamp_max).
  { unfold valid, Timestamp_max. cbn [year month day].
    change (_days_in_month 2262 4) with 30. unfold MINYEAR, MAXYEAR. lia. }
  apply date_le_toordinal in Hle'; [|done..].
  change (toordinal Timestamp_max) with 825914 in Hle'.
  unfold _MAXORDINAL. lia.
Qed.

Lemma clipped_range_empty_outside y s e d :
  (y <? year s) || (year e <? y) = true ->
  in_clipped_range y s e d = false.
Proof.
  intros H. apply not_true_iff_false. unfold in_clipped_range.
  rewrite andb_true_iff, date_max_le, date_min_ge.
  intros [[H1 H2] [H3 H4]].
  apply orb_true_iff in H. date_order. cbn [year month day] in *.
  destruct H as [H%Z.ltb_lt|H%Z.ltb_lt]; lia.
Qed.

(** One row of the resolved table. *)
Lemma index_task_spec fuel y tasks_by_day task s e :
  (366 <= fuel)%nat ->
  Start_date task = Timestamp s -> Due_date task = Timestamp e ->
  timestamp_ok s -> timestamp_ok e ->
  exists tbd',
    index_task fuel y tasks_by_day task = Ok tbd' /\
    forall d name,
      name ∈ tasks_on tbd' d <->
      name ∈ tasks_on tasks_by_day d \/
      (name = Task_Name task /\ valid d /\ in_clipped_range y s e d = true).
Proof.
  intros Hfuel Hs He Hoks Hoke. unfold index_task. rewrite Hs, He.
  cbn [cell_date rbind].
  destruct ((y <? year s) || (year e <? y)) eqn:Hskip.
  - exists tasks_by_day. split; [done|]. intros d name.
    rewrite (clipped_range_empty_outside _ _ _ _ Hskip).
    split; [auto|]. intros [?|(_ & _ & ?)]; [done|discriminate].
  - apply orb_false_iff in Hskip as [H1%Z.ltb_ge H2%Z.ltb_ge].
    pose proof Hoks as (Hvs & _). pose proof Hoke as (Hve & _).
    assert (Hy : MINYEAR <= y <= MAXYEAR)
      by (destruct Hvs as [? _], Hve as [? _];
          unfold MINYEAR, MAXYEAR in *; lia).
    rewrite (date_new_valid y 1 1 (valid_first_of_year y Hy)).
    rewrite (date_new_valid y 12 31 (valid_last_of_year y Hy)).
    cbn [rbind].
    set (cur := date_max s (mkdate y 1 1)).
    set (end_date := date_min e (mkdate y 12 31)).
    assert (Hvc : valid cur)
      by (apply date_max_valid; [done|by apply valid_first_of_year]).
    assert (Hvend : valid end_date)
      by (apply date_min_valid; [done|by apply valid_last_of_year]).
    assert (Hend_e : date_le end_date e = true /\
                     date_le end_date (mkdate y 12 31) = true)
      by (apply date_min_ge, date_le_refl).
    assert (Hcur_j : date_le s cur = true /\
                     date_le (mkdate y 1 1) cur = true)
      by (apply date_max_le, date_le_refl).
    destruct (while_current_date_spec fuel (Task_Name task) end_date Hvend
                (timestamp_ok_not_last e Hoke _ Hvend (proj1 Hend_e))
                cur tasks_by_day Hvc) as (tbd' & Hrun & Hspec).
    { destruct Hend_e as [_ Hd], Hcur_j as [_ Hj].
      apply date_le_toordinal in Hd, Hj;
        auto using valid_first_of_year, valid_last_of_year.
      pose proof (toordinal_first_last_of_year y). lia. }
    exists tbd'. split; [done|]. intros d name. rewrite Hspec.
    unfold in_clipped_range. rewrite andb_true_iff. reflexivity.
Qed.

Lemma index_tasks_spec fuel y rows :
  (366 <= fuel)%nat -> Forall resolved_ok rows ->
  forall tasks_by_day,
  exists tbd',
    index_tasks fuel y tasks_by_day rows = Ok tbd' /\
    forall d name,
      name ∈ tasks_on tbd' d <->
      name ∈ tasks_on tasks_by_day d \/
      exists r s e, r ∈ rows /\ name = Task_Name r /\
        Start_date r = Timestamp s /\ Due_date r = Timestamp e /\
        valid d /\ in_clipped_range y s e d = true.
Proof.
  intros Hfuel. induction 1 as [|r rows Hr Hrows IH]; intros tbd.
  - exists tbd. split; [done|]. intros d name. split; [auto|].
    intros [?|(r & ? & ? & Hin%elem_of_nil & _)]; done.
  - destruct Hr as (s & e & Hs & He & Hoks & Hoke).
    cbn [index_tasks].
    destruct (index_task_spec fuel y tbd r s e Hfuel Hs He Hoks Hoke)
      as (tbd1 & -> & H1).
    cbn [rbind]. destruct (IH tbd1) as (tbd' & -> & H2).
    exists tbd'. split; [done|]. intros d name. rewrite H2, H1. split.
    + intros [[?|(-> & Hvd & Hc)]|(r' & s' & e' & Hin & Hrest)]; auto.
      * right. exists r, s, e. rewrite elem_of_cons. auto 10.
      * right. exists r', s', e'. rewrite elem_of_cons. auto.
    + intros [?|(r' & s' & e' & Hin & -> & Hs' & He' & Hvd & Hc)]; auto.
      apply elem_of_cons in Hin as [->|Hin].
      * left. right. rewrite Hs in Hs'. rewrite He in He'.
        injection Hs' as ->. injection He' as ->. auto.
      * right. exists r', s', e'. auto 10.
Qed.

End index_spec.

Section counting.
Import datetime datetime_facts.

Lemma elem_of_days_carrying tasks_by_day name d :
  d ∈ days_carrying tasks_by_day name <-> name ∈ tasks_on tasks_by_day d.
Proof.
  unfold days_carrying, tasks_on. rewrite elem_of_dom. unfold is_Some.
  setoid_rewrite map_lookup_filter_Some. cbn.
  destruct (tasks_by_day !! d) as [l|]; cbn.
  - split; [by intros (x & [= ->] & ?)|eauto].
  - split; [by intros (x & ? & ?)|by intros ?%elem_of_nil].
Qed.

Lemma date_of_ordinal_toordinal d : valid d -> date_of_ordinal (toordinal d) = d.
Proof.
  intros (Hy & Hm & Hd). unfold date_of_ordinal, toordinal.
  rewrite ord2ymd_ymd2ord by done. by destruct d.
Qed.

(** A set of dates that is an interval of ordinals has as many elements
    as the interval is long. *)
Lemma size_date_interval (X : gset date) s e :
  valid s -> valid e ->
  (forall d, d ∈ X <->
             valid d /\ toordinal s <= toordinal d <= toordinal e) ->
  size X = Z.to_nat (toordinal e - toordinal s + 1).
Proof.
  intros Hvs Hve HX.
  pose proof (toordinal_range s Hvs). pose proof (toordinal_range e Hve).
  set (n := Z.to_nat (toordinal e - toordinal s + 1)).
  set (l := date_of_ordinal <$> seqZ (toordinal s) (Z.of_nat n)).
  assert (Hl : forall d, d ∈ l <->
             valid d /\ toordinal s <= toordinal d <= toordinal e).
  { intros d. unfold l. rewrite list_elem_of_fmap. split.
    - intros (o & -> & Ho%elem_of_seqZ).
      destruct (ordinal_has_date o) as (d & Hvd & <-); [lia|].
      rewrite date_of_ordinal_toordinal by done. split; [done|lia].
    - intros [Hvd Ho]. exists (toordinal d).
      rewrite date_of_ordinal_toordinal by done. split; [done|].
      apply elem_of_seqZ. lia. }
  assert (HXl : X = list_to_set l).
  { apply set_eq. intros d. rewrite elem_of_list_to_set, HX, Hl. done. }
  rewrite HXl, size_list_to_set.
  - unfold l. rewrite length_fmap, length_seqZ. lia.
  - unfold l. apply NoDup_fmap_2_strong; [|apply NoDup_seqZ].
    intros o1 o2 Ho1%elem_of_seqZ Ho2%elem_of_seqZ E.
    destruct (ordinal_has_date o1) as (d1 & Hv1 & <-); [lia|].
    destruct (ordinal_has_date o2) as (d2 & Hv2 & <-); [lia|].
    rewrite !date_of_ordinal_toordinal in E by done. by subst.
Qed.

Lemma in_clipped_range_inside y s e d :
  valid s -> valid e -> valid d -> year s = y -> year e = y ->
  in_clipped_range y s e d = true <->
  toordinal s <= toordinal d <= toordinal e.
Proof.
  intros Hvs Hve Hvd Hys Hye. unfold in_clipped_range.
  rewrite andb_true_iff, date_max_le, date_min_ge.
  rewrite <- !date_le_toordinal by done.
  destruct Hvs as (_ & Hms & Hds), Hve as (_ & Hme & Hde).
  pose proof (days_in_month_pos (year e) (month e) Hme).
  split; [tauto|]. intros [Hsd Hdle]. split_and!; try done.
  - date_order. cbn [year month day]. lia.
  - date_order. cbn [year month day] in *. lia.
Qed.

End counting.

(** ** The index built from a table *)

Section build_day_index.
Import datetime datetime_facts.

Lemma dropna_resolve_ok tasks_df :
  frame_ok tasks_df -> Forall resolved_ok (dropna (resolve_dates tasks_df)).
Proof.
  intros Hok. apply Forall_forall. intros r' Hin.
  apply elem_of_dropna_resolve in Hin as (r & s & e & Hin & He & ->).
  pose proof (resolved_row_range r) as Hr. rewrite He in Hr.
  destruct Hr as [Hs Hd].
  unfold frame_ok in Hok. rewrite Forall_forall in Hok.
  destruct (resolved_row_ok r (Hok r Hin)) as [H1 H2].
  rewrite Hs in H1. rewrite Hd in H2. by exists s, e.
Qed.

Lemma buildDayIndex_spec fuel tasks_df y :
  (366 <= fuel)%nat -> frame_ok tasks_df ->
  exists tasks_by_day,
    buildDayIndex fuel tasks_df y = Ok tasks_by_day /\
    forall d name,
      name ∈ tasks_on tasks_by_day d <->
      exists r s e,
        r ∈ tasks_df /\ Task_Name r = name /\
        effective_range r = Some (s, e) /\
        valid d /\ in_clipped_range y s e d = true.
Proof.
  intros Hfuel Hok. unfold buildDayIndex.
  destruct (index_tasks_spec fuel y _ Hfuel (dropna_resolve_ok _ Hok) ∅)
    as (tbd & Hrun & Hspec).
  exists tbd. split; [done|]. intros d name. rewrite Hspec, tasks_on_empty.
  split.
  - intros [?%elem_of_nil|(r' & s & e & Hin & -> & Hs & He & Hvd & Hc)];
      [done|].
    apply elem_of_dropna_resolve in Hin as (r & s' & e' & Hin & Hr & ->).
    pose proof (resolved_row_range r) as Hrr. rewrite Hr in Hrr.
    destruct Hrr as [Hs' He']. rewrite Hs in Hs'. rewrite He in He'.
    injection Hs' as ->. injection He' as ->.
    exists r, s', e'. split_and!; try done.
    first [exact (proj1 (resolved_row_other_fields r))
          |symmetry; exact (proj1 (resolved_row_other_fields r))].
  - intros (r & s & e & Hin & <- & Hr & Hvd & Hc). right.
    pose proof (resolved_row_range r) as Hrr. rewrite Hr in Hrr.
    destruct Hrr as [Hs He].
    exists (resolved_row r), s, e. split_and!; try done.
    + apply elem_of_dropna_resolve. by exists r, s, e.
    + first [exact (proj1 (resolved_row_other_fields r))
          |symmetry; exact (proj1 (resolved_row_other_fields r))].
Qed.

Lemma effective_range_ok r s e :
  row_ok r -> effective_range r = Some (s, e) ->
  timestamp_ok s /\ timestamp_ok e.
Proof.
  destruct r as [n [s'| |s'] [e'| |e'] [c| |c] l b]; unfold row_ok; cbn;
    intros (H1 & H2 & H3) [= <- <-]; auto.
Qed.

(** C1: the index holds a task on exactly the days of its effective range
    clipped to the target year; a range inside the year is carried by
    [(effectiveEnd - effectiveStart).days + 1] days, a one-day task by one. *)
Theorem C1_index_is_clipped_range fuel tasks_df y :
  (366 <= fuel)%nat -> frame_ok tasks_df ->
  exists tasks_by_day,
    buildDayIndex fuel tasks_df y = Ok tasks_by_day /\
    (forall d name,
       name ∈ tasks_on tasks_by_day d <->
       exists r s e,
         r ∈ tasks_df /\ Task_Name r = name /\
         effective_range r = Some (s, e) /\
         valid d /\ in_clipped_range y s e d = true) /\
    (forall r s e,
       r ∈ tasks_df ->
       (forall r', r' ∈ tasks_df -> Task_Name r' = Task_Name r -> r' = r) ->
       effective_range r = Some (s, e) ->
       (forall d, d ∈ days_carrying tasks_by_day (Task_Name r) <->
                  valid d /\ in_clipped_range y s e d = true) /\
       (year s = y -> year e = y -> date_le s e = true ->
        Z.of_nat (size (days_carrying tasks_by_day (Task_Name r)))
        = days_between s e + 1) /\
       (year s = y -> s = e ->
        days_carrying tasks_by_day (Task_Name r) = {[ s ]})).
Proof.
  intros Hfuel Hok.
  destruct (buildDayIndex_spec fuel tasks_df y Hfuel Hok) as (tbd & Hrun & Hspec).
  exists tbd. split; [done|]. split; [done|].
  intros r s e Hin Huniq Hr.
  assert (Hcarry : forall d, d ∈ days_carrying tbd (Task_Name r) <->
                             valid d /\ in_clipped_range y s e d = true).
  { intros d. rewrite elem_of_days_carrying, Hspec. split.
    - intros (r' & s' & e' & Hin' & Hn & Hr' & Hvd & Hc).
      rewrite (Huniq r' Hin' Hn) in Hr'. rewrite Hr in Hr'.
      injection Hr' as <- <-. done.
    - intros [Hvd Hc]. by exists r, s, e. }
  unfold frame_ok in Hok. rewrite Forall_forall in Hok.
  destruct (effective_range_ok r s e (Hok r Hin) Hr) as [(Hvs & _) (Hve & _)].
  split; [done|]. split.
  - intros Hys Hye Hle.
    apply date_le_toordinal in Hle; [|done..].
    rewrite (size_date_interval _ s e Hvs Hve).
    + unfold days_between. lia.
    + intros d. rewrite Hcarry. split.
      * intros [Hvd Hc]. split; [done|].
        by apply (in_clipped_range_inside y s e d).
      * intros [Hvd Hc]. split; [done|].
        by apply (in_clipped_range_inside y s e d).
  - intros Hys <-. apply set_eq. intros d.
    rewrite Hcarry, elem_of_singleton. split.
    + intros [Hvd Hc].
      apply (in_clipped_range_inside y s s d) in Hc; try done.
      apply toordinal_inj; [done..|lia].
    + intros ->. split; [done|].
      apply (in_clipped_range_inside y s s s); try done.
Qed.

End build_day_index.

Section resolution_order.
Import datetime datetime_facts.

Lemma resolve_dates_lookup tasks_df i r :
  tasks_df !! i = Some r ->
  resolve_dates tasks_df !! i = Some (resolved_row r).
Proof.
  rewrite resolve_dates_rows. revert i.
  induction tasks_df as [|r0 rows IH]; intros [|i]; cbn; try done.
  - by intros [= ->].
  - apply IH.
Qed.

Lemma resolved_row_rules r :
  let r' := resolved_row r in
  Completed_Date r' = to_datetime (Completed_Date r) /\
  Due_date r' = (if notna (Completed_Date r) then Completed_Date r
                 else to_datetime (Due_date r)) /\
  Start_date r' = (if notna (Start_date r) then Start_date r
                   else Due_date r').
Proof.
  destruct r as [n [s| |s] [e| |e] [c| |c] l b]; repeat split.
Qed.

Lemma indexed_rows tasks_df :
  map (fun r => (Task_Name r, Start_date r, Due_date r))
      (dropna (resolve_dates tasks_df))
  = omap (fun r => match effective_range r with
                   | Some (s, e) => Some (Task_Name r, Timestamp s, Timestamp e)
                   | None => None
                   end) tasks_df.
Proof.
  rewrite resolve_dates_rows. unfold dropna.
  induction tasks_df as [|r rows IH]; [done|].
  destruct r as [n [s| |s] [e| |e] [c| |c] l b]; cbn;
    first [exact IH | f_equal; exact IH].
Qed.


End resolution_order.

(** ** Escaping *)

Section escaping.

Lemma str_replace_empty_is_strip s : str_replace ";" "" s = strip_semicolons s.
Proof.
  induction s as [|c s IH]; [done|]. cbn [str_replace strip_semicolons].
  destruct (Ascii.eqb c ";"); cbn; by rewrite IH.
Qed.

Lemma str_replace_other old new c s :
  Ascii.eqb c old = false ->
  str_replace old new (String c s) = String c (str_replace old new s).
Proof. intros H. cbn. by rewrite H. Qed.

(** The five replacements, applied in the order of the source, act on a
    text character by character. *)
Lemma replacements_step c s :
  str_replace "'" "&#39;"
    (str_replace dqc "&quot;"
      (str_replace ">" "&gt;"
        (str_replace "<" "&lt;" (str_replace "&" "&amp;" (String c s)))))
  = entity c ++
    str_replace "'" "&#39;"
      (str_replace dqc "&quot;"
        (str_replace ">" "&gt;"
          (str_replace "<" "&lt;" (str_replace "&" "&amp;" s)))).
Proof.
  unfold entity.
  destruct (Ascii.eqb_spec c "&") as [->|H1]; [reflexivity|].
  destruct (Ascii.eqb_spec c "<") as [->|H2]; [reflexivity|].
  destruct (Ascii.eqb_spec c ">") as [->|H3]; [reflexivity|].
  destruct (Ascii.eqb_spec c dqc) as [->|H4]; [reflexivity|].
  destruct (Ascii.eqb_spec c "'") as [->|H5]; [reflexivity|].
  apply Ascii.eqb_neq in H1, H2, H3, H4, H5.
  by rewrite !str_replace_other.
Qed.

Lemma replacements_are_entity_escape s :
  str_replace "'" "&#39;"
    (str_replace dqc "&quot;"
      (str_replace ">" "&gt;"
        (str_replace "<" "&lt;" (str_replace "&" "&amp;" s))))
  = entity_escape s.
Proof.
  induction s as [|c s IH]; [done|].
  rewrite replacements_step, IH. reflexivity.
Qed.

Lemma escape_task_name_spec s :
  escape_task_name s = entity_escape (strip_semicolons s).
Proof.
  unfold escape_task_name.
  by rewrite str_replace_empty_is_strip, replacements_are_entity_escape.
Qed.

Lemma prefix_empty x : String.prefix "" x = true.
Proof. by destruct x. Qed.

Ltac skip_entity :=
  cbv -[no_raw_markup String.prefix]; cbn [no_raw_markup];
  cbv -[no_raw_markup String.prefix]; simpl String.prefix;
  rewrite ?prefix_empty; cbv -[no_raw_markup]; reflexivity.

Lemma no_raw_markup_entity c x :
  no_raw_markup (entity c ++ x) = no_raw_markup x.
Proof.
  unfold entity.
  destruct (Ascii.eqb_spec c "&") as [->|H1]; [skip_entity|].
  destruct (Ascii.eqb_spec c "<") as [->|H2]; [skip_entity|].
  destruct (Ascii.eqb_spec c ">") as [->|H3]; [skip_entity|].
  destruct (Ascii.eqb_spec c dqc) as [->|H4]; [skip_entity|].
  destruct (Ascii.eqb_spec c "'") as [->|H5]; [skip_entity|].
  apply Ascii.eqb_neq in H1, H2, H3.
  change (String c "" ++ x) with (String c x).
  cbn [no_raw_markup]. by rewrite H1, H2, H3.
Qed.

Lemma entity_escape_no_raw_markup s : no_raw_markup (entity_escape s) = true.
Proof.
  induction s as [|c s IH]; [done|]. cbn [entity_escape].
  by rewrite no_raw_markup_entity.
Qed.


End escaping.

(** ** The colour engine *)

Section colour_lists.

Lemma elem_of_unique_from seen l x :
  x ∈ unique_from seen l <-> x ∈ l /\ x ∉ seen.
Proof.
  revert seen. induction l as [|y l IH]; intros seen; cbn [unique_from].
  - rewrite elem_of_nil. tauto.
  - case_bool_decide as Hy.
    + rewrite IH, elem_of_cons. split; [tauto|].
      intros [[->|?] ?]; tauto.
    + rewrite !elem_of_cons, IH, elem_of_cons. split.
      * intros [->|[? ?]]; [tauto|]. split; [tauto|]. tauto.
      * intros [[->|?] ?]; [tauto|].
        destruct (decide (x = y)); [tauto|]. right. tauto.
Qed.

Lemma NoDup_unique_from seen l : NoDup (unique_from seen l).
Proof.
  revert seen. induction l as [|y l IH]; intros seen; cbn [unique_from].
  - constructor.
  - case_bool_decide; [apply IH|].
    constructor; [|apply IH].
    rewrite elem_of_unique_from, elem_of_cons. tauto.
Qed.

Lemma elem_of_unique l x : x ∈ unique l <-> x ∈ l.
Proof.
  unfold unique. rewrite elem_of_unique_from, elem_of_nil. tauto.
Qed.

Lemma insert_sorted_perm x l : insert_sorted x l ≡ₚ x :: l.
Proof.
  induction l as [|y l IH]; cbn [insert_sorted]; [done|].
  destruct (String.leb x y); [done|].
  rewrite IH. apply Permutation_swap.
Qed.

Lemma sorted_perm l : sorted l ≡ₚ l.
Proof.
  induction l as [|x l IH]; cbn [sorted]; [done|].
  by rewrite insert_sorted_perm, IH.
Qed.

Lemma leb_false_flip x y : String.leb x y = false -> String.leb y x = true.
Proof. destruct (String.leb_total x y); congruence. Qed.

Lemma insert_sorted_Sorted x l :
  Sorted (fun a b => String.leb a b = true) l ->
  Sorted (fun a b => String.leb a b = true) (insert_sorted x l).
Proof.
  induction 1 as [|y l Hs IH Hhd]; cbn [insert_sorted].
  - repeat constructor.
  - destruct (String.leb x y) eqn:E.
    + constructor; [by constructor|by constructor].
    + constructor; [exact IH|].
      destruct Hhd as [|z l' Hz]; cbn [insert_sorted].
      * constructor. by apply leb_false_flip.
      * destruct (String.leb x z); constructor;
          [by apply leb_false_flip|done].
Qed.

Lemma sorted_Sorted l : Sorted (fun a b => String.leb a b = true) (sorted l).
Proof.
  induction l as [|x l IH]; cbn [sorted]; [constructor|].
  by apply insert_sorted_Sorted.
Qed.

Lemma snd_imap_pairs {A} (g : nat -> Z) (l : list A) :
  (imap (fun i x => (g i, x)) l).*2 = l.
Proof.
  revert g. induction l as [|x l IH]; intros g; [done|].
  cbn. f_equal. apply (IH (g ∘ S)).
Qed.

Lemma lookup_imap_pairs {A} (g : nat -> Z) (l : list A) i x :
  l !! i = Some x -> (g i, x) ∈ imap (fun i x => (g i, x)) l.
Proof.
  intros H. by apply (elem_of_lookup_imap_2 (fun i x => (g i, x))).
Qed.

Lemma fold_assign_other (f : Z -> string -> string)
    (l : list (Z * string)) (m : gmap string string) k :
  k ∉ l.*2 ->
  fold_left (fun task_colors '(task_index, task_name) =>
               <[task_name := f task_index task_name]> task_colors) l m !! k
  = m !! k.
Proof.
  revert m. induction l as [|[j n] l IH]; intros m Hk; [done|].
  cbn in Hk. apply not_elem_of_cons in Hk as [Hne Hk].
  cbn [fold_left]. rewrite IH by done. by rewrite lookup_insert_ne.
Qed.

(** The dictionary a loop of assignments [task_colors[name] = f i name]
    builds over distinct names. *)
Lemma fold_assign_lookup (f : Z -> string -> string)
    (l : list (Z * string)) (m : gmap string string) i k :
  NoDup l.*2 -> (i, k) ∈ l ->
  fold_left (fun task_colors '(task_index, task_name) =>
               <[task_name := f task_index task_name]> task_colors) l m !! k
  = Some (f i k).
Proof.
  revert m. induction l as [|[j n] l IH]; intros m Hnd Hin.
  - by apply elem_of_nil in Hin.
  - cbn [fold_left]. cbn in Hnd. apply NoDup_cons in Hnd as [Hn Hnd].
    apply elem_of_cons in Hin as [Heq|Hin]; [|by apply IH].
    injection Heq as <- <-.
    rewrite fold_assign_other by done. by rewrite lookup_insert_eq.
Qed.

End colour_lists.

Section colour_policy.

Lemma unique_tasks_facts (tasks_df : frame) :
  let unique_tasks := sorted (unique (map Task_Name tasks_df)) in
  Sorted (fun a b => String.leb a b = true) unique_tasks /\
  NoDup unique_tasks /\
  (forall n, n ∈ unique_tasks <-> n ∈ map Task_Name tasks_df).
Proof.
  cbv zeta. split_and!.
  - apply sorted_Sorted.
  - rewrite sorted_perm. apply NoDup_unique_from.
  - intros n. by rewrite sorted_perm, elem_of_unique.
Qed.

(** The hue of a task when at most one grouping flag is set. *)
Lemma task_hue_policy tasks_df bl bb alt i name :
  bl && bb = false ->
  task_hue tasks_df bl bb alt i name
  = match (if bl then first_row_of tasks_df name ≫= Labels
           else if bb then first_row_of tasks_df name ≫= Bucket_Name
           else None) with
    | Some text => if alt then alternate_hue i else hash_hue text
    | None => hash_hue name
    end.
Proof.
  intros H. unfold task_hue, first_row_of.
  destruct (List.filter _ tasks_df) as [|first rest]; cbn;
    destruct bl, bb; try discriminate; try reflexivity;
    cbn; try destruct (Labels first); try destruct (Bucket_Name first);
    try destruct alt; reflexivity.
Qed.

Lemma assign_task_colors_lookup tasks_df bl bb alt sat light i name :
  sorted (unique (map Task_Name tasks_df)) !! i = Some name ->
  assign_task_colors tasks_df bl bb alt sat light !! name
  = Some (hex_color (task_hue tasks_df bl bb alt (Z.of_nat i) name) light sat).
Proof.
  intros Hi. unfold assign_task_colors.
  destruct (unique_tasks_facts tasks_df) as (_ & Hnd & _). cbv zeta in Hnd.
  apply (fold_assign_lookup
           (fun task_index task_name =>
              hex_color (task_hue tasks_df bl bb alt task_index task_name)
                        light sat)).
  - unfold enumerate. by rewrite snd_imap_pairs.
  - unfold enumerate. by apply (lookup_imap_pairs Z.of_nat).
Qed.

(** C5: with one grouping flag set, a task whose first record carries the
    grouping attribute gets the hue [(29 * i mod 360) / 360] in alternate
    mode, [i] being its index among the sorted distinct names, and
    [(hash(attribute) mod 360) / 360] otherwise; every other task gets
    [(hash(name) mod 360) / 360] whatever the alternate flag. *)
Theorem C5_hue_policy (tasks_df : frame) (bl bb alt : bool) (sat light : Q)
    (name : string) :
  bl && bb = false -> name ∈ map Task_Name tasks_df ->
  let unique_tasks := sorted (unique (map Task_Name tasks_df)) in
  Sorted (fun a b => String.leb a b = true) unique_tasks /\
  NoDup unique_tasks /\
  (forall n, n ∈ unique_tasks <-> n ∈ map Task_Name tasks_df) /\
  exists i,
    unique_tasks !! i = Some name /\
    let attribute :=
      if bl then first_row_of tasks_df name ≫= Labels
      else if bb then first_row_of tasks_df name ≫= Bucket_Name
      else None in
    let hue :=
      match attribute with
      | Some text =>
          if alt then Qmake ((29 * Z.of_nat i) mod 360) 360
          else Qmake (hash_int text mod 360) 360
      | None => Qmake (hash_int name mod 360) 360
      end in
    assign_task_colors tasks_df bl bb alt sat light !! name
    = Some (hex_color hue light sat).
Proof.
  intros Hflags Hname. cbv zeta.
  destruct (unique_tasks_facts tasks_df) as (Hs & Hnd & Hmem). cbv zeta in *.
  split_and!; try done.
  apply Hmem in Hname. apply list_elem_of_lookup in Hname as [i Hi].
  exists i. split; [done|].
  rewrite (assign_task_colors_lookup _ _ _ _ _ _ i) by done.
  by rewrite task_hue_policy.
Qed.

End colour_policy.

(** ** Colours cover the index *)

Section colour_coverage.
Import datetime datetime_facts.

Lemma while_current_date_names fuel task_name end_date :
  forall current_date tasks_by_day tbd',
    while_current_date fuel task_name current_date end_date tasks_by_day
    = Ok tbd' ->
    forall d name,
      name ∈ tasks_on tbd' d ->
      name ∈ tasks_on tasks_by_day d \/ name = task_name.
Proof.
  induction fuel as [|fuel IH]; intros cur tbd tbd'; cbn [while_current_date];
    destruct (date_le cur end_date); try discriminate;
    try (intros [= <-]; auto).
  destruct (date_add cur 1) as [next|]; [|discriminate]. cbn [rbind].
  intros Hrun d name Hin.
  destruct (IH _ _ _ Hrun d name Hin) as [H|H]; [|by right].
  apply loop_body_tasks_on in H. tauto.
Qed.

Lemma index_task_names fuel y tasks_by_day task tbd' :
  index_task fuel y tasks_by_day task = Ok tbd' ->
  forall d name,
    name ∈ tasks_on tbd' d ->
    name ∈ tasks_on tasks_by_day d \/ name = Task_Name task.
Proof.
  unfold index_task.
  destruct (cell_date (Start_date task)) as [s|]; [|discriminate].
  destruct (cell_date (Due_date task)) as [e|]; [|discriminate].
  cbn [rbind]. destruct (_ || _); [intros [= <-]; auto|].
  destruct (date_new y 1 1); [|discriminate].
  destruct (date_new y 12 31); [|discriminate]. cbn [rbind].
  apply while_current_date_names.
Qed.

Lemma index_tasks_names fuel y rows :
  forall tasks_by_day tbd',
    index_tasks fuel y tasks_by_day rows = Ok tbd' ->
    forall d name,
      name ∈ tasks_on tbd' d ->
      name ∈ tasks_on tasks_by_day d \/ name ∈ map Task_Name rows.
Proof.
  induction rows as [|r rows IH]; intros tbd tbd'; cbn [index_tasks].
  - intros [= <-]. auto.
  - destruct (index_task fuel y tbd r) as [tbd1|] eqn:E; [|discriminate].
    cbn [rbind]. intros Hrun d name Hin.
    destruct (IH _ _ Hrun d name Hin) as [H|H].
    + destruct (index_task_names _ _ _ _ _ E d name H) as [? | ->]; auto.
      right. cbn. apply elem_of_cons. auto.
    + right. cbn. apply elem_of_cons. auto.
Qed.

Lemma indexed_names_are_task_names fuel tasks_df y tasks_by_day d name :
  buildDayIndex fuel tasks_df y = Ok tasks_by_day ->
  name ∈ tasks_on tasks_by_day d -> name ∈ map Task_Name tasks_df.
Proof.
  unfold buildDayIndex. intros Hrun Hin.
  destruct (index_tasks_names _ _ _ _ _ Hrun d name Hin) as [H|H].
  - rewrite tasks_on_empty in H. by apply elem_of_nil in H.
  - apply list_elem_of_In, in_map_iff in H as (r' & <- & Hr').
    apply list_elem_of_In, elem_of_dropna_resolve in Hr'
      as (r & s & e & Hr & _ & ->).
    rewrite (proj1 (resolved_row_other_fields r)).
    apply list_elem_of_In, in_map. by apply list_elem_of_In.
Qed.

(** C8: every name the index holds has a colour in the assignment built
    from the same table. *)
Theorem C8_colors_cover_index fuel tasks_df y bl bb alt sat light
    tasks_by_day d name :
  buildDayIndex fuel tasks_df y = Ok tasks_by_day ->
  name ∈ tasks_on tasks_by_day d ->
  exists color,
    assign_task_colors tasks_df bl bb alt sat light !! name = Some color /\
    render_task (dropna (resolve_dates tasks_df))
      (assign_task_colors tasks_df bl bb alt sat light) false name
    = task_span (escape_task_name name) color.
Proof.
  intros Hrun Hin.
  pose proof (indexed_names_are_task_names _ _ _ _ _ _ Hrun Hin) as Hname.
  destruct (unique_tasks_facts tasks_df) as (_ & _ & Hmem). cbv zeta in Hmem.
  apply Hmem, list_elem_of_lookup in Hname as [i Hi].
  eexists. split; [by apply (assign_task_colors_lookup _ _ _ _ _ _ i)|].
  unfold render_task.
  by rewrite (assign_task_colors_lookup _ _ _ _ _ _ i).
Qed.

End colour_coverage.

(** ** Rendering *)

Section rendering.

Lemma render_month_succeeds tasks_df tasks_by_day tc1 tc2 pl y month_num m :
  succeeds (render_month tasks_df tasks_by_day tc1 pl y month_num m) ->
  succeeds (render_month tasks_df tasks_by_day tc2 pl y month_num m).
Proof.
  unfold render_month.
  destruct (py_getitem calendar.month_name m); cbn [rbind]; [|by intros [? ?]].
  destruct (calendar.monthdatescalendar calendar.SUNDAY y m); cbn [rbind];
    [|by intros [? ?]].
  intros _. by eexists.
Qed.

Lemma mapM_succeeds {A B} (f g : A -> result B) l :
  (forall x, succeeds (f x) -> succeeds (g x)) ->
  succeeds (mapM f l) -> succeeds (mapM g l).
Proof.
  intros Hfg. induction l as [|x l IH]; cbn [mapM]; [by eexists|].
  destruct (f x) as [b|] eqn:Ef; cbn [rbind]; [|by intros [? ?]].
  destruct (Hfg x) as [b' ->]; [by rewrite Ef; eexists|]. cbn [rbind].
  destruct (mapM f l); cbn [rbind]; [|by intros [? ?]].
  destruct IH as [bs ->]; [by eexists|]. intros _. by eexists.
Qed.

Lemma generate_succeeds_any_colors fuel tasks_df nw y tc1 tc2 pl month :
  succeeds (generate_calendar_html fuel tasks_df nw y tc1 pl month).2 ->
  succeeds (generate_calendar_html fuel tasks_df nw y tc2 pl month).2.
Proof.
  unfold generate_calendar_html. cbn [snd].
  destruct (index_tasks fuel y ∅ _) as [tbd|]; cbn [rbind]; [|done].
  destruct (match resolve_month_num month with
            | Some n => _
            | None => _
            end) as [[title grid]|]; cbn [rbind]; [|done].
  match goal with
  | |- succeeds (rbind (mapM ?f ?l) _) -> succeeds (rbind (mapM ?g _) _) =>
      pose proof (mapM_succeeds f g l) as Hm;
      destruct (mapM f l) as [months|]; cbn [rbind]; [|by intros [? ?]]
  end.
  intros _. destruct Hm as [ms ->].
  - intros x. apply render_month_succeeds.
  - by eexists.
  - cbn [rbind]. by eexists.
Qed.


End rendering.

(** ** Colour codes *)

Section colour_codes.
Import colorsys.
Local Open Scope Q_scope.

Lemma Qltb_true a b : Qltb a b = true -> a < b.
Proof.
  unfold Qltb. intros H. apply negb_true_iff in H.
  apply Qnot_le_lt. intros Hle. apply Qle_bool_iff in Hle. congruence.
Qed.

Lemma Qltb_false a b : Qltb a b = false -> b <= a.
Proof.
  unfold Qltb. intros H. apply negb_false_iff in H. by apply Qle_bool_iff.
Qed.

Lemma fmod1_range x : 0 <= fmod1 x /\ fmod1 x < 1.
Proof.
  unfold fmod1. pose proof (Qfloor_le x). pose proof (Qlt_floor x) as Hlt.
  rewrite inject_Z_plus in Hlt. change (inject_Z 1) with 1 in Hlt.
  split; lra.
Qed.

Lemma _v_range m1 m2 hue :
  0 <= m1 <= 1 -> 0 <= m2 <= 1 -> 0 <= _v m1 m2 hue <= 1.
Proof.
  intros H1 H2. unfold _v. destruct (fmod1_range hue) as [Hf0 Hf1].
  set (t := fmod1 hue) in *. clearbody t.
  unfold ONE_SIXTH, TWO_THIRD.
  destruct (Qltb t (1 # 6)) eqn:E1.
  { apply Qltb_true in E1. split; nra. }
  destruct (Qltb t (1 # 2)) eqn:E2; [done|].
  destruct (Qltb t (2 # 3)) eqn:E3; [|done].
  apply Qltb_false in E2. apply Qltb_true in E3. split; nra.
Qed.

Lemma hls_to_rgb_range h l s :
  0 <= l <= 1 -> 0 <= s <= 1 ->
  let '(r, g, b) := hls_to_rgb h l s in
  0 <= r <= 1 /\ 0 <= g <= 1 /\ 0 <= b <= 1.
Proof.
  intros Hl Hs. unfold hls_to_rgb.
  destruct (Qeq_bool s 0); [tauto|].
  assert (Hm : 0 <= (if Qle_bool l (1 # 2) then l * (1 + s) else l + s - l * s) <= 1
             /\ 0 <= 2 * l - (if Qle_bool l (1 # 2) then l * (1 + s) else l + s - l * s) <= 1).
  { destruct (Qle_bool l (1 # 2)) eqn:E.
    - apply Qle_bool_iff in E. split; split; nra.
    - assert (1 # 2 < l).
      { apply Qnot_le_lt. intros Hle. apply Qle_bool_iff in Hle. congruence. }
      split; split; nra. }
  destruct Hm as [Hm2 Hm1].
  split_and!; apply _v_range; assumption.
Qed.

Lemma channel_range c :
  0 <= c <= 1 ->
  py_int_of_float (c * 255) = Qfloor (c * 255) /\
  (0 <= Qfloor (c * 255) <= 255)%Z.
Proof.
  intros [H0 H1]. unfold py_int_of_float.
  assert (Hnn : 0 <= c * 255) by nra.
  assert (Hle : c * 255 <= 255) by nra.
  apply Qle_bool_iff in Hnn as Hb. rewrite Hb. split; [done|].
  apply Qfloor_resp_le in Hnn, Hle.
  change (Qfloor 0) with 0%Z in Hnn. change (Qfloor 255) with 255%Z in Hle.
  lia.
Qed.

Lemma format_02x_length n :
  (0 <= n <= 255)%Z -> String.length (format_02x n) = 2%nat.
Proof.
  intros Hn.
  assert (Hall : forallb (fun k => Nat.eqb (String.length (format_02x k)) 2)
                   (py_range 0 256) = true) by (vm_compute; reflexivity).
  rewrite forallb_forall in Hall.
  apply Nat.eqb_eq, Hall. unfold py_range. apply in_map_iff.
  exists (Z.to_nat n). split; [lia|]. apply in_seq. lia.
Qed.

End colour_codes.

Section colour_code_claims.
Import colorsys.

Lemma string_length_append (a b : string) :
  String.length (a ++ b) = (String.length a + String.length b)%nat.
Proof.
  induction a as [|c a IH]; [reflexivity|].
  change (S (String.length (a ++ b))
          = S (String.length a + String.length b)%nat).
  by rewrite IH.
Qed.


End colour_code_claims.

(** ** The caller's table *)

Section callers_table.

Lemma generate_leaves_resolved fuel tasks_df nw y tc pl month :
  (generate_calendar_html fuel tasks_df nw y tc pl month).1
  = resolve_dates tasks_df.
Proof. reflexivity. Qed.

Lemma resolved_row_idempotent r : resolved_row (resolved_row r) = resolved_row r.
Proof. destruct r as [n [s| |s] [e| |e] [c| |c] l b]; reflexivity. Qed.

Lemma resolved_row_unchanged r :
  notna (Start_date r) = true -> notna (Due_date r) = true ->
  Completed_Date r = NaT -> resolved_row r = r.
Proof.
  destruct r as [n [s| |s] [e| |e] [c| |c] l b]; cbn;
    intros; try discriminate; reflexivity.
Qed.

(** C7, as the code has it: the engine rewrites the three date columns of
    the caller's table (coercion, completed-date override, start-date
    fallback) and leaves everything else as it was: the rows, their order
    and every other field; a table it has already processed, or one whose
    rows have a start and a due date and no completed date, is left
    unchanged. *)
Theorem C7_only_date_columns_rewritten (fuel : nat) (tasks_df : frame)
    (no_wrap_text : bool) (y : Z) (task_colors : gmap string string)
    (prefix_label : bool) (month : option month_arg) :
  let after :=
    (generate_calendar_html fuel tasks_df no_wrap_text y task_colors
       prefix_label month).1 in
  length after = length tasks_df /\
  (forall i r,
     tasks_df !! i = Some r ->
     exists r',
       after !! i = Some r' /\
       Task_Name r' = Task_Name r /\ Labels r' = Labels r /\
       Bucket_Name r' = Bucket_Name r /\
       Completed_Date r' = to_datetime (Completed_Date r) /\
       Due_date r' = (if notna (Completed_Date r) then Completed_Date r
                      else to_datetime (Due_date r)) /\
       Start_date r' = (if notna (Start_date r) then Start_date r
                        else Due_date r')) /\
  (generate_calendar_html fuel after no_wrap_text y task_colors
     prefix_label month).1 = after /\
  (Forall (fun r => notna (Start_date r) = true /\
                    notna (Due_date r) = true /\
                    Completed_Date r = NaT) tasks_df ->
   after = tasks_df).
Proof.
  cbv zeta. rewrite !generate_leaves_resolved, !resolve_dates_rows.
  split_and!.
  - apply length_map.
  - intros i r Hi. exists (resolved_row r). split.
    + rewrite <- resolve_dates_rows. by apply resolve_dates_lookup.
    + pose proof (resolved_row_other_fields r) as (? & ? & ?).
      pose proof (resolved_row_rules r) as (? & ? & ?). by split_and!.
  - rewrite map_map. apply map_ext. intros r. apply resolved_row_idempotent.
  - induction 1 as [|r rows (H1 & H2 & H3) _ IH]; [done|].
    cbn [map]. by rewrite IH, resolved_row_unchanged.
Qed.

End callers_table.

(** ** The properties at sample inputs *)

Import datetime colorsys.

Ltac timestamp_checks :=
  repeat match goal with
         | |- Forall _ _ => constructor
         | |- row_ok _ =>
             unfold row_ok; cbn [Start_date Due_date Completed_Date]
         | |- _ /\ _ => split
         | |- cell_ok _ => cbn [cell_ok on_day]
         | |- True => exact I
         | |- timestamp_ok _ => unfold timestamp_ok
         | |- valid _ => vm_compute; intuition discriminate
         | |- date_le _ _ = true => vm_compute; reflexivity
         end.

Lemma scenario_tasks_ok : frame_ok scenario_tasks.
Proof. unfold frame_ok, scenario_tasks. timestamp_checks. Qed.

Lemma C1_witness :
  (366 <= 366)%nat /\ frame_ok scenario_tasks /\
  (exists tasks_by_day,
    buildDayIndex 366%nat scenario_tasks 2024 = Ok tasks_by_day /\
    (forall d name,
       name ∈ tasks_on tasks_by_day d <->
       exists r s e,
         r ∈ scenario_tasks /\ Task_Name r = name /\
         effective_range r = Some (s, e) /\
         valid d /\ in_clipped_range 2024 s e d = true) /\
    (forall r s e,
       r ∈ scenario_tasks ->
       (forall r', r' ∈ scenario_tasks -> Task_Name r' = Task_Name r -> r' = r) ->
       effective_range r = Some (s, e) ->
       (forall d, d ∈ days_carrying tasks_by_day (Task_Name r) <->
                  valid d /\ in_clipped_range 2024 s e d = true) /\
       (year s = 2024 -> year e = 2024 -> date_le s e = true ->
        Z.of_nat (size (days_carrying tasks_by_day (Task_Name r)))
        = days_between s e + 1) /\
       (year s = 2024 -> s = e ->
        days_carrying tasks_by_day (Task_Name r) = {[ s ]}))).
Proof.
  split; [lia|]. split; [exact scenario_tasks_ok|].
  apply (C1_index_is_clipped_range 366 scenario_tasks 2024);
    [lia|exact scenario_tasks_ok].
Defined.


Lemma C5_witness :
  true && false = false /\ "Review" ∈ map Task_Name scenario_tasks /\
  (let unique_tasks := sorted (unique (map Task_Name scenario_tasks)) in
  Sorted (fun a b => String.leb a b = true) unique_tasks /\
  NoDup unique_tasks /\
  (forall n, n ∈ unique_tasks <-> n ∈ map Task_Name scenario_tasks) /\
  exists i,
    unique_tasks !! i = Some "Review" /\
    let attribute :=
      if true then first_row_of scenario_tasks "Review" ≫= Labels
      else if false then first_row_of scenario_tasks "Review" ≫= Bucket_Name
      else None in
    let hue :=
      match attribute with
      | Some text =>
          if true then Qmake ((29 * Z.of_nat i) mod 360) 360
          else Qmake (hash_int text mod 360) 360
      | None => Qmake (hash_int "Review" mod 360) 360
      end in
    assign_task_colors scenario_tasks true false true (7 # 10)%Q (85 # 100)%Q !! "Review"
    = Some (hex_color hue (85 # 100)%Q (7 # 10)%Q)).
Proof.
  assert (Hin : "Review" ∈ map Task_Name scenario_tasks)
    by (apply (bool_decide_unpack _); vm_compute; exact I).
  split; [reflexivity|]. split; [exact Hin|].
  apply (C5_hue_policy scenario_tasks true false true (7 # 10)%Q
           (85 # 100)%Q "Review"); [reflexivity|exact Hin].
Defined.


Lemma scenario_index_built :
  buildDayIndex 366 scenario_tasks 2024 = Ok scenario_index.
Proof. vm_compute. reflexivity. Qed.

Lemma C8_witness :
  buildDayIndex 366 scenario_tasks 2024 = Ok scenario_index /\
  "Design" ∈ tasks_on scenario_index (mkdate 2024 1 2) /\
  exists color,
    assign_task_colors scenario_tasks false false false
      (7 # 10)%Q (85 # 100)%Q !! "Design" = Some color /\
    render_task (dropna (resolve_dates scenario_tasks))
      (assign_task_colors scenario_tasks false false false
         (7 # 10)%Q (85 # 100)%Q) false "Design"
    = task_span (escape_task_name "Design") color.
Proof.
  assert (Hin : "Design" ∈ tasks_on scenario_index (mkdate 2024 1 2))
    by (apply (bool_decide_unpack _); vm_compute; exact I).
  split; [exact scenario_index_built|]. split; [exact Hin|].
  apply (C8_colors_cover_index 366 scenario_tasks 2024 false false false
           (7 # 10)%Q (85 # 100)%Q scenario_index (mkdate 2024 1 2) "Design");
    [exact scenario_index_built|exact Hin].
Defined.



(** C7, as the specification words it, fails: the due date of the
    caller's record (8 March) is overwritten by the completed date
    (5 March), and its empty start date is filled in. *)
Lemma C7_mutation_counterexample :
  (generate_calendar_html 366 completed_task false 2024 ∅ false None).1
  = [mkrow "Report" (on_day 2024 3 5) (on_day 2024 3 5) (on_day 2024 3 5)
       None None] /\
  (generate_calendar_html 366 completed_task false 2024 ∅ false None).1
  <> completed_task.
Proof.
  rewrite generate_leaves_resolved. split; [reflexivity|].
  vm_compute. discriminate.
Qed.

(** C3 on the code: in the year view [month_num] is [None], so the test
    [day_date.month != month_num] holds for every cell and every day of
    every month block is marked other-month, 1 January 2024 in the January
    block included; in the month view the marking is as claimed. *)
Theorem C3_year_view_marks_every_day :
  (forall d, day_class (resolve_month_num None) d = "day other-month") /\
  (exists parts,
     render_month [] ∅ ∅ false 2024 (resolve_month_num None) 1 = Ok parts /\
     parts !! 15%nat
     = Some ("    <div class=" ++ dq ++ "day other-month" ++ dq ++ ">") /\
     parts !! 16%nat
     = Some ("      <div class=" ++ dq ++ "day-number" ++ dq ++ ">1</div>")) /\
  (forall m d,
     day_class (Some m) d
     = if bool_decide (month d = m) then "day" else "day other-month").
Proof.
  split_and!.
  - reflexivity.
  - eexists. split; [vm_compute; reflexivity|]. split; reflexivity.
  - intros m d. unfold day_class.
    destruct (decide (month d = m)) as [->|Hne].
    + by rewrite !bool_decide_eq_true_2.
    + rewrite !bool_decide_eq_false_2; [done..|congruence].
Qed.

(** C9 on the code: with two records of one task of which only the second
    has a label, the text shown is the name prefixed by "nan", not by the
    label; the label of the first record is what the code prepends. *)
Theorem C9_first_record_without_label :
  labeled_task_name (dropna (resolve_dates relabelled_task)) true "Deploy"
  = "nanDeploy" /\
  render_task (dropna (resolve_dates relabelled_task)) ∅ true "Deploy"
  = task_span "nanDeploy" "#f0f0f0" /\
  (forall tasks_df name first label,
     first_row_of tasks_df name = Some first -> Labels first = Some label ->
     labeled_task_name tasks_df true name
     = if String.eqb label "" then name else label ++ name).
Proof.
  split_and!; [reflexivity..|].
  intros tasks_df name first label Hfirst Hlabel.
  unfold labeled_task_name, first_row_of in *.
  destruct (List.filter _ tasks_df) as [|r rows]; [discriminate|].
  injection Hfirst as ->. cbn [map forallb]. rewrite Hlabel.
  rewrite bool_decide_eq_true_2 by (by eexists). cbn [negb andb].
  by destruct label.
Qed.


(** * Further properties of the engine *)

(** ** The month grid ([cal.monthdatescalendar]) *)

Section month_grid.
Import datetime_facts.

Lemma py_range_seqZ a b : py_range a b = seqZ a (b - a).
Proof.
  unfold py_range, seqZ. apply map_ext. intros k. lia.
Qed.

Lemma calendar_isleap y : calendar.isleap y = _is_leap y.
Proof. reflexivity. Qed.

Lemma calendar_monthlen y m :
  1 <= m <= 12 -> calendar._monthlen y m = _days_in_month y m.
Proof.
  intros Hm. unfold calendar._monthlen, _days_in_month, calendar.February.
  rewrite calendar_isleap.
  each_month m Hm; destruct (_is_leap y); reflexivity.
Qed.

Lemma mapM_ok_map {A B} (f : A -> result B) (g : A -> B) l :
  Forall (fun x => f x = Ok (g x)) l -> mapM f l = Ok (map g l).
Proof.
  induction 1 as [|x l Hx _ IH]; cbn [mapM map rbind]; [done|].
  rewrite Hx. cbn [rbind]. rewrite IH. done.
Qed.

Lemma mapM_ok_inv {A B} (f : A -> result B) l ys x :
  mapM f l = Ok ys -> x ∈ l -> succeeds (f x).
Proof.
  revert ys. induction l as [|a l IH]; intros ys Hrun Hin.
  - by apply elem_of_nil in Hin.
  - cbn [mapM] in Hrun. destruct (f a) as [b|e] eqn:Ea; [|discriminate].
    cbn [rbind] in Hrun.
    destruct (mapM f l) as [bs|e] eqn:El; [|discriminate].
    apply elem_of_cons in Hin as [->|Hin]; [by exists b|eauto].
Qed.

Lemma prev_month_boundary y m :
  1 <= m <= 12 ->
  1 <= (calendar._prevmonth y m).2 <= 12 /\
  _days_before_year (calendar._prevmonth y m).1
  + _days_before_month (calendar._prevmonth y m).1 (calendar._prevmonth y m).2
  + _days_in_month (calendar._prevmonth y m).1 (calendar._prevmonth y m).2
  = _days_before_year y + _days_before_month y m.
Proof.
  intros Hm. unfold calendar._prevmonth.
  destruct (Z.eqb_spec m 1) as [->|Hne]; cbn [fst snd].
  - split; [lia|].
    pose proof (days_before_year_succ (y - 1)) as H.
    replace (y - 1 + 1) with y in H by lia. rewrite H.
    unfold _days_before_month, _days_in_month. reduce_closed.
    destruct (_is_leap (y - 1)); lia.
  - split; [lia|].
    pose proof (days_before_month_succ y (m - 1) ltac:(lia)) as H.
    replace (m - 1 + 1) with m in H by lia. lia.
Qed.

Lemma next_month_boundary y m :
  1 <= m <= 12 ->
  1 <= (calendar._nextmonth y m).2 <= 12 /\
  _days_before_year (calendar._nextmonth y m).1
  + _days_before_month (calendar._nextmonth y m).1 (calendar._nextmonth y m).2
  = _days_before_year y + _days_before_month y m + _days_in_month y m.
Proof.
  intros Hm. unfold calendar._nextmonth.
  destruct (Z.eqb_spec m 12) as [->|Hne]; cbn [fst snd].
  - split; [lia|].
    rewrite (days_before_year_succ y).
    unfold _days_before_month, _days_in_month. reduce_closed.
    destruct (_is_leap y); lia.
  - split; [lia|].
    pose proof (days_before_month_succ y m ltac:(lia)) as H. lia.
Qed.

(** The first weekday of a month, as [calendar.monthrange] computes it. *)
Lemma monthrange_spec y m :
  1 <= m <= 12 -> MINYEAR <= y <= MAXYEAR ->
  calendar.monthrange y m
  = Ok ((_ymd2ord y m 1 + 6) mod 7, _days_in_month y m).
Proof.
  intros Hm Hy. unfold calendar.monthrange, calendar.weekday.
  destruct (Z.leb_spec 1 m); [|lia]. destruct (Z.leb_spec m 12); [|lia].
  destruct (Z.leb_spec MINYEAR y); [|lia].
  destruct (Z.leb_spec y MAXYEAR); [|lia]. cbn [andb negb].
  pose proof (days_in_month_pos y m Hm).
  rewrite (date_new_valid y m 1)
    by (unfold valid; cbn [year month day]; lia).
  cbn [rbind]. fold (calendar._monthlen y m).
  rewrite calendar_monthlen by done. reflexivity.
Qed.

Lemma elem_of_map {A B} (f : A -> B) (l : list A) (y : B) :
  y ∈ map f l <-> exists x, y = f x /\ x ∈ l.
Proof. exact (list_elem_of_fmap f l y). Qed.

Lemma map_offset_seqZ (f : Z -> Z) c a n :
  (forall d, f d = c + d) -> map f (seqZ a n) = seqZ (c + a) n.
Proof.
  intros Hf. rewrite <- fmap_add_seqZ. apply map_ext. exact Hf.
Qed.

(** The cells of a month grid: valid dates on consecutive days, from the
    Sunday on or before the first of the month to the Saturday on or
    after its last day. *)
Lemma itermonthdates_spec y m :
  has_grid y m = true ->
  exists dates before after,
    calendar.itermonthdates calendar.SUNDAY y m = Ok dates /\
    dates
    = (map (mkdate (calendar._prevmonth y m).1 (calendar._prevmonth y m).2)
           (seqZ (_days_in_month (calendar._prevmonth y m).1
                    (calendar._prevmonth y m).2 + 1 - before) before)
       ++ map (mkdate y m) (seqZ 1 (_days_in_month y m))
       ++ map (mkdate (calendar._nextmonth y m).1 (calendar._nextmonth y m).2)
              (seqZ 1 after))%list /\
    0 <= after <= 6 /\
    Forall valid dates /\
    0 <= before <= 6 /\
    (_ymd2ord y m 1 - before) mod 7 = 0 /\
    Z.of_nat (length dates) mod 7 = 0 /\
    before + _days_in_month y m <= Z.of_nat (length dates)
      <= before + _days_in_month y m + 6 /\
    map toordinal dates
    = seqZ (_ymd2ord y m 1 - before) (Z.of_nat (length dates)) /\
    Forall (fun d => (year d, month d) = calendar._prevmonth y m \/
                     (year d, month d) = (y, m) \/
                     (year d, month d) = calendar._nextmonth y m) dates.
Proof.
  unfold has_grid. rewrite !andb_true_iff, !negb_true_iff, !andb_false_iff.
  rewrite !Z.leb_le, !Z.eqb_neq.
  intros [[[[[Hm1 Hm2] Hy1] Hy2] Hfirst] Hlast].
  assert (Hm : 1 <= m <= 12) by lia.
  assert (Hy : MINYEAR <= y <= MAXYEAR) by lia.
  unfold MINYEAR, MAXYEAR in *.
  pose proof (days_in_month_pos y m Hm) as Hdim.
  destruct (prev_month_boundary y m Hm) as [Hpm Hprev].
  destruct (next_month_boundary y m Hm) as [Hnm Hnext].
  assert (Hpy : 1 <= (calendar._prevmonth y m).1 <= 9999).
  { unfold calendar._prevmonth. destruct (Z.eqb_spec m 1); cbn [fst]; lia. }
  assert (Hny : 1 <= (calendar._nextmonth y m).1 <= 9999).
  { unfold calendar._nextmonth. destruct (Z.eqb_spec m 12); cbn [fst]; lia. }
  unfold calendar.itermonthdates, calendar.itermonthdays3.
  rewrite (monthrange_spec y m Hm) by (unfold MINYEAR, MAXYEAR; lia).
  cbn [rbind].
  destruct (calendar._prevmonth y m) as [py pm].
  destruct (calendar._nextmonth y m) as [ny nm].
  cbn [fst snd] in *.
  rewrite (calendar_monthlen py pm Hpm).
  pose proof (days_in_month_pos py pm Hpm) as Hpdim.
  set (o1 := _ymd2ord y m 1) in *.
  set (ndays := _days_in_month y m) in *.
  set (before := ((o1 + 6) mod 7 - calendar.SUNDAY) mod 7).
  set (after := (calendar.SUNDAY - (o1 + 6) mod 7 - ndays) mod 7).
  assert (Hb : 0 <= before <= 6)
    by (pose proof (Z.mod_pos_bound ((o1 + 6) mod 7 - calendar.SUNDAY) 7);
        unfold before; lia).
  assert (Ha : 0 <= after <= 6)
    by (pose proof (Z.mod_pos_bound
                      (calendar.SUNDAY - (o1 + 6) mod 7 - ndays) 7);
        unfold after; lia).
  rewrite !py_range_seqZ.
  replace (_days_in_month py pm + 1 - (_days_in_month py pm + 1 - before))
    with before by lia.
  replace (ndays + 1 - 1) with ndays by lia.
  replace (after + 1 - 1) with after by lia.
  cbn [rbind].
  set (g := fun t : Z * Z * Z => let '(y, m, d) := t in mkdate y m d).
  set (triples := (_ ++ _ ++ _)%list).
  assert (Hvalid : Forall (fun t => valid (g t)) triples).
  { unfold triples. rewrite !Forall_app, !Forall_forall.
    split_and!; intros t Hin%elem_of_map;
      destruct Hin as (d & -> & Hd%elem_of_seqZ);
      unfold g, valid, MINYEAR, MAXYEAR; cbn [year month day].
    - lia.
    - fold ndays. lia.
    - pose proof (days_in_month_pos ny nm Hnm). lia. }
  assert (Hrun : mapM (fun '(y, m, d) => date_new y m d) triples
                 = Ok (map g triples)).
  { apply mapM_ok_map. eapply Forall_impl; [exact Hvalid|].
    intros [[y' m'] d'] Hv. by apply date_new_valid. }
  exists (map g triples), before, after. rewrite Hrun.
  assert (Hlen : Z.of_nat (length (map g triples)) = before + ndays + after).
  { unfold triples. rewrite length_map, !length_app, !length_map, !length_seqZ.
    lia. }
  split; [done|]. split.
  { unfold triples. rewrite !map_app, !map_map. reflexivity. }
  split; [done|]. split.
  { rewrite Forall_forall. intros d Hin%elem_of_map.
    destruct Hin as (t & -> & Hin).
    rewrite Forall_forall in Hvalid. auto. }
  split; [done|]. split.
  { unfold before, calendar.SUNDAY. Z.div_mod_to_equations. lia. }
  split.
  { rewrite Hlen. unfold before, after, calendar.SUNDAY.
    Z.div_mod_to_equations. lia. }
  split; [lia|]. split.
  { rewrite Hlen. unfold triples.
    rewrite !map_app, !map_map.
    rewrite (map_offset_seqZ _ (_days_before_year py + _days_before_month py pm))
      by (intros d; reflexivity).
    rewrite (map_offset_seqZ _ (_days_before_year y + _days_before_month y m))
      by (intros d; reflexivity).
    rewrite (map_offset_seqZ _ (_days_before_year ny + _days_before_month ny nm))
      by (intros d; reflexivity).
    rewrite (seqZ_app _ (before + ndays) after) by lia.
    rewrite (seqZ_app _ before ndays) by lia.
    rewrite <- app_assoc.
    unfold o1, _ymd2ord in *.
    f_equal; [f_equal; lia|]. f_equal; f_equal; lia. }
  { unfold triples. rewrite !map_app, !map_map, !Forall_app, !Forall_forall.
    split_and!; intros t Hin%elem_of_map;
      destruct Hin as (d & -> & _); cbn [g year month]; auto. }
Qed.

(** Cutting a list into rows of seven. *)
Lemma py_range_step_7 k :
  py_range_step 0 (Z.of_nat (7 * k)) 7
  = map (fun i => Z.of_nat (7 * i)) (seq 0 k).
Proof.
  unfold py_range_step.
  replace (Z.to_nat ((Z.of_nat (7 * k) - 0 + 7 - 1) / 7)) with k.
  - apply map_ext. intros i. lia.
  - assert ((Z.of_nat (7 * k) - 0 + 7 - 1) / 7 = Z.of_nat k)
      by (symmetry; apply Z.div_unique with 6; lia).
    lia.
Qed.

Lemma rows_of_seven {A} (l : list A) k :
  length l = (7 * k)%nat ->
  map (fun i => take 7 (drop (Z.to_nat i) l))
      (py_range_step 0 (Z.of_nat (length l)) 7)
  = map (fun i => take 7 (drop (7 * i) l)) (seq 0 k).
Proof.
  intros ->. rewrite py_range_step_7, map_map. apply map_ext.
  intros i. by rewrite Nat2Z.id.
Qed.

Lemma concat_rows_of_seven {A} k : forall l : list A,
  length l = (7 * k)%nat ->
  concat (map (fun i => take 7 (drop (7 * i) l)) (seq 0 k)) = l.
Proof.
  induction k as [|k IH]; intros l Hlen.
  - destruct l; [done|discriminate].
  - cbn [seq map concat]. rewrite <- seq_shift, map_map.
    transitivity (take 7 l ++ drop 7 l)%list; [|apply take_drop].
    f_equal.
    rewrite <- (IH (drop 7 l)) by (rewrite length_drop; lia).
    f_equal. apply map_ext. intros i. rewrite drop_drop. f_equal. f_equal. lia.
Qed.

Lemma lookup_rows_of_seven {A} (l : list A) k i w :
  length l = (7 * k)%nat ->
  map (fun i => take 7 (drop (7 * i) l)) (seq 0 k) !! i = Some w ->
  (i < k)%nat /\ w = take 7 (drop (7 * i) l) /\ length w = 7%nat.
Proof.
  intros Hlen Hw.
  change (((fun i => take 7 (drop (7 * i) l)) <$> seq 0 k) !! i = Some w) in Hw.
  rewrite list_lookup_fmap in Hw.
  destruct (seq 0 k !! i) as [j|] eqn:Hj; [|discriminate].
  apply lookup_seq in Hj as [-> Hi]. cbn in Hw. injection Hw as <-.
  split; [done|]. split; [done|].
  rewrite length_take, length_drop. lia.
Qed.

Lemma take_drop_seqZ o n i :
  0 <= Z.of_nat (7 * i) -> Z.of_nat (7 * i) + 7 <= n ->
  take 7 (drop (7 * i) (seqZ o n)) = seqZ (o + Z.of_nat (7 * i)) 7.
Proof.
  intros H0 Hn.
  replace n with (Z.of_nat (7 * i) + (7 + (n - Z.of_nat (7 * i) - 7))) by lia.
  rewrite seqZ_app by lia.
  rewrite drop_app_length' by (rewrite length_seqZ; lia).
  rewrite seqZ_app by lia.
  rewrite take_app_length' by (rewrite length_seqZ; lia).
  done.
Qed.

(** The month grid of [monthdatescalendar], from the cells. *)
Lemma monthdatescalendar_spec y m :
  has_grid y m = true ->
  exists dates k,
    calendar.itermonthdates calendar.SUNDAY y m = Ok dates /\
    length dates = (7 * k)%nat /\
    calendar.monthdatescalendar calendar.SUNDAY y m
    = Ok (map (fun i => take 7 (drop (7 * i) dates)) (seq 0 k)).
Proof.
  intros Hg.
  destruct (itermonthdates_spec y m Hg)
    as (dates & before & after & Hrun & _ & _ & _ & _ & _ & Hmod & _).
  exists dates, (Z.to_nat (Z.of_nat (length dates) / 7)).
  assert (Hlen : length dates
                 = (7 * Z.to_nat (Z.of_nat (length dates) / 7))%nat).
  { apply Z.mod_divide in Hmod as [q Hq]; [|lia].
    rewrite Hq, Z.div_mul by lia. lia. }
  split; [done|]. split; [done|].
  unfold calendar.monthdatescalendar. rewrite Hrun. cbn [rbind].
  f_equal. by apply rows_of_seven.
Qed.

Lemma itermonthdays3_first_of_month fw y m triples :
  1 <= m <= 12 ->
  calendar.itermonthdays3 fw y m = Ok triples -> (y, m, 1) ∈ triples.
Proof.
  intros Hm. unfold calendar.itermonthdays3.
  destruct (calendar.monthrange y m) as [[day1 ndays]|e] eqn:Emr;
    [|discriminate].
  cbn [rbind].
  destruct (calendar._prevmonth y m) as [py pm].
  destruct (calendar._nextmonth y m) as [ny nm].
  intros [= <-].
  assert (Hn : 28 <= ndays).
  { unfold calendar.monthrange in Emr.
    destruct (negb _); [discriminate|].
    destruct (calendar.weekday y m 1); [|discriminate].
    cbn [rbind] in Emr. injection Emr as _ <-.
    fold (calendar._monthlen y m). rewrite calendar_monthlen by done.
    apply days_in_month_pos, Hm. }
  rewrite !elem_of_app. right. left. apply elem_of_map. exists 1.
  split; [done|]. rewrite py_range_seqZ. apply elem_of_seqZ. lia.
Qed.

Lemma itermonthdates_fails y m :
  has_grid y m = false ->
  ~ succeeds (calendar.itermonthdates calendar.SUNDAY y m).
Proof.
  intros Hg [dates Hrun].
  destruct (decide (1 <= m <= 12)) as [Hm|Hm].
  - destruct (decide (MINYEAR <= y <= MAXYEAR)) as [Hy|Hy].
    + destruct (decide (y = 1 /\ m = 1)) as [[-> ->]|H1];
        [vm_compute in Hrun; discriminate|].
      destruct (decide (y = 9999 /\ m = 12)) as [[-> ->]|H2];
        [vm_compute in Hrun; discriminate|].
      assert (has_grid y m = true); [|congruence].
      unfold has_grid, MINYEAR, MAXYEAR in *.
      rewrite !andb_true_iff, !negb_true_iff, !andb_false_iff.
      rewrite !Z.leb_le, !Z.eqb_neq. lia.
    + unfold calendar.itermonthdates in Hrun.
      destruct (calendar.itermonthdays3 calendar.SUNDAY y m)
        as [triples|e] eqn:E; [|discriminate].
      cbn [rbind] in Hrun.
      pose proof (itermonthdays3_first_of_month _ _ _ _ Hm E) as Hin.
      destruct (mapM_ok_inv _ _ _ _ Hrun Hin) as [d Hd].
      unfold date_new in Hd.
      destruct (Z.leb_spec MINYEAR y), (Z.leb_spec y MAXYEAR);
        cbn [andb negb] in Hd; try discriminate; lia.
  - unfold calendar.itermonthdates, calendar.itermonthdays3,
      calendar.monthrange in Hrun.
    destruct (Z.leb_spec 1 m), (Z.leb_spec m 12);
      cbn [andb negb rbind] in Hrun; try discriminate; lia.
Qed.

Lemma monthdatescalendar_ok y m weeks :
  calendar.monthdatescalendar calendar.SUNDAY y m = Ok weeks ->
  has_grid y m = true.
Proof.
  intros Hrun. destruct (has_grid y m) eqn:Hg; [done|].
  exfalso. apply (itermonthdates_fails y m Hg).
  unfold calendar.monthdatescalendar in Hrun.
  destruct (calendar.itermonthdates calendar.SUNDAY y m) as [dates|e];
    [by exists dates|discriminate].
Qed.

Lemma monthdatescalendar_returns y m :
  has_grid y m = true ->
  succeeds (calendar.monthdatescalendar calendar.SUNDAY y m).
Proof.
  intros Hg.
  destruct (monthdatescalendar_spec y m Hg) as (dates & k & _ & _ & ->).
  by eexists.
Qed.

(** X1: [cal.monthdatescalendar(year, month)] (weeks starting
    on Sunday) returns a grid exactly for the months 1..12 of the years
    1..9999 other than January of year 1 and December of year 9999, whose
    grids would need a day outside the dates Python can represent; for
    any other year or month number it raises. *)
Theorem month_grid_exists_iff y m :
  succeeds (calendar.monthdatescalendar calendar.SUNDAY y m)
  <-> has_grid y m = true.
Proof.
  split.
  - intros [weeks Hrun]. by apply (monthdatescalendar_ok y m weeks).
  - apply monthdatescalendar_returns.
Qed.

(** X2: the grid has four to six rows; every row is a week of
    seven valid dates on consecutive days, Sunday first; the rows follow
    each other without a gap, and the first row holds the first of the
    month. *)
Theorem month_grid_rows_are_weeks y m weeks :
  calendar.monthdatescalendar calendar.SUNDAY y m = Ok weeks ->
  4 <= Z.of_nat (length weeks) <= 6 /\
  Forall (fun week =>
            exists sunday,
              head week = Some sunday /\
              weekday sunday = calendar.SUNDAY /\
              Forall valid week /\
              map toordinal week = seqZ (toordinal sunday) 7) weeks /\
  exists first,
    head (concat weeks) = Some first /\
    map toordinal (concat weeks)
    = seqZ (toordinal first) (7 * Z.of_nat (length weeks)) /\
    toordinal (mkdate y m 1) - 6 <= toordinal first
      <= toordinal (mkdate y m 1).
Proof.
  intros Hrun. pose proof (monthdatescalendar_ok y m weeks Hrun) as Hg.
  destruct (monthdatescalendar_spec y m Hg) as (dates & k & Hdates & Hlen & Hw).
  assert (Hweeks : weeks
                   = map (fun i => take 7 (drop (7 * i) dates)) (seq 0 k))
    by congruence.
  clear Hrun. subst weeks.
  destruct (itermonthdates_spec y m Hg)
    as (dates' & before & after & Hrun & _ & _ & Hvalid & Hb & Ho
        & _ & Hn & Hord & _).
  assert (dates' = dates) by congruence. subst dates'.
  assert (Hm : 1 <= m <= 12).
  { unfold has_grid in Hg. rewrite !andb_true_iff, !Z.leb_le in Hg. lia. }
  pose proof (days_in_month_pos y m Hm) as Hdim.
  set (o := _ymd2ord y m 1 - before) in *.
  rewrite length_map, length_seq. rewrite Hlen in Hn, Hord.
  split; [lia|]. split.
  - apply Forall_lookup_2. intros i week Hweek.
    apply (lookup_rows_of_seven dates k i week Hlen) in Hweek
      as (Hi & -> & Hlen7).
    assert (Hw7 : map toordinal (take 7 (drop (7 * i) dates))
                  = seqZ (o + Z.of_nat (7 * i)) 7).
    { change (toordinal <$> take 7 (drop (7 * i) dates)
              = seqZ (o + Z.of_nat (7 * i)) 7).
      rewrite fmap_take, fmap_drop.
      change (toordinal <$> dates) with (map toordinal dates).
      rewrite Hord. apply take_drop_seqZ; lia. }
    destruct (take 7 (drop (7 * i) dates)) as [|sunday rest] eqn:Ew;
      [discriminate|].
    exists sunday. cbn [head]. split; [done|].
    rewrite seqZ_cons in Hw7 by lia. cbn [map] in Hw7.
    injection Hw7 as Hs Hrest.
    split; [|split].
    + unfold weekday, calendar.SUNDAY. rewrite Hs.
      Z.div_mod_to_equations. lia.
    + rewrite <- Ew. by apply Forall_take, Forall_drop.
    + cbn [map]. rewrite Hs, Hrest. rewrite (seqZ_cons _ 7) by lia. done.
  - rewrite (concat_rows_of_seven k dates Hlen).
    destruct dates as [|first rest] eqn:Ed; [cbn in Hlen; lia|].
    exists first. cbn [head]. split; [done|].
    rewrite seqZ_cons in Hord by lia. cbn [map] in Hord.
    injection Hord as Hf Hrest.
    split.
    + cbn [map]. rewrite Hf, Hrest.
      replace (7 * Z.of_nat k) with (Z.of_nat (7 * k)) by lia.
      rewrite (seqZ_cons o) by lia. done.
    + rewrite Hf. unfold o, toordinal. cbn [year month day]. lia.
Qed.

Lemma day_class_day m d : day_class (Some m) d = "day" <-> month d = m.
Proof.
  unfold day_class. case_bool_decide as H; cbn [negb].
  - split; [congruence|done].
  - split; [discriminate|congruence].
Qed.

Lemma filter_map_all {A B} (p : B -> bool) (f : A -> B) l :
  (forall x, p (f x) = true) -> List.filter p (map f l) = map f l.
Proof.
  intros H. induction l as [|x l IH]; cbn [map List.filter]; [done|].
  by rewrite H, IH.
Qed.

Lemma filter_map_none {A B} (p : B -> bool) (f : A -> B) l :
  (forall x, p (f x) = false) -> List.filter p (map f l) = [].
Proof.
  intros H. induction l as [|x l IH]; cbn [map List.filter]; [done|].
  by rewrite H, IH.
Qed.

(** X3: the cells of the grid are, in order, at most six
    closing days of the previous month, the days 1..n of the month itself
    and at most six opening days of the next month, no date twice; so in
    the single-month view the cells of class "day" are exactly the days of
    the month, each once and in order. *)
Theorem month_grid_holds_month_once y m weeks :
  calendar.monthdatescalendar calendar.SUNDAY y m = Ok weeks ->
  exists leading trailing,
    concat weeks
    = (leading ++ map (mkdate y m) (seqZ 1 (_days_in_month y m))
       ++ trailing)%list /\
    (length leading <= 6)%nat /\ (length trailing <= 6)%nat /\
    Forall (fun d => (year d, month d) = calendar._prevmonth y m) leading /\
    Forall (fun d => (year d, month d) = calendar._nextmonth y m) trailing /\
    NoDup (concat weeks) /\
    List.filter (fun d => bool_decide (day_class (Some m) d = "day"))
      (concat weeks)
    = map (mkdate y m) (seqZ 1 (_days_in_month y m)).
Proof.
  intros Hrun. pose proof (monthdatescalendar_ok y m weeks Hrun) as Hg.
  destruct (monthdatescalendar_spec y m Hg) as (dates & k & Hdates & Hlen & Hw).
  assert (Hweeks : weeks
                   = map (fun i => take 7 (drop (7 * i) dates)) (seq 0 k))
    by congruence.
  clear Hrun. subst weeks. rewrite (concat_rows_of_seven k dates Hlen).
  destruct (itermonthdates_spec y m Hg)
    as (dates' & before & after & Hrun & Hcells & Ha & Hvalid & Hb & _
        & _ & _ & Hord & _).
  assert (E : dates' = dates) by congruence.
  rewrite E in Hcells, Hord. clear E Hrun.
  assert (Hm : 1 <= m <= 12).
  { unfold has_grid in Hg. rewrite !andb_true_iff, !Z.leb_le in Hg. lia. }
  assert (Hpm : (calendar._prevmonth y m).2 <> m)
    by (unfold calendar._prevmonth; destruct (Z.eqb_spec m 1); cbn; lia).
  assert (Hnm : (calendar._nextmonth y m).2 <> m)
    by (unfold calendar._nextmonth; destruct (Z.eqb_spec m 12); cbn; lia).
  eexists _, _. split; [exact Hcells|].
  rewrite !length_map, !length_seqZ.
  split; [lia|]. split; [lia|]. split; [|split; [|split]].
  - rewrite Forall_forall. intros d (o & -> & _)%elem_of_map.
    cbn [year month]. by destruct (calendar._prevmonth y m).
  - rewrite Forall_forall. intros d (o & -> & _)%elem_of_map.
    cbn [year month]. by destruct (calendar._nextmonth y m).
  - apply (NoDup_fmap_1 toordinal).
    change (toordinal <$> dates) with (map toordinal dates).
    rewrite Hord. apply NoDup_seqZ.
  - rewrite Hcells, !List.filter_app.
    rewrite filter_map_none, filter_map_all, filter_map_none.
    + by rewrite app_nil_r.
    + intros o. apply bool_decide_eq_false. by rewrite day_class_day.
    + intros o. apply bool_decide_eq_true. by rewrite day_class_day.
    + intros o. apply bool_decide_eq_false. by rewrite day_class_day.
Qed.

End month_grid.


(** ** When the renderer returns a document *)

Section renderer_result.
Import datetime_facts.

Lemma mapM_succeeds_iff {A B} (f : A -> result B) l :
  succeeds (mapM f l) <-> Forall (fun x => succeeds (f x)) l.
Proof.
  split.
  - intros [ys Hrun]. apply Forall_forall. intros x Hin.
    by apply (mapM_ok_inv f l ys x).
  - induction 1 as [|x l [y Hy] _ [ys Hys]]; cbn [mapM]; [by eexists|].
    rewrite Hy. cbn [rbind]. rewrite Hys. by eexists.
Qed.

Lemma month_name_getitem m :
  1 <= m <= 12 -> succeeds (py_getitem calendar.month_name m).
Proof.
  intros Hm. each_month m Hm; by eexists.
Qed.

Lemma render_month_returns_iff tasks_df tasks_by_day tc pl y month_num m :
  succeeds (render_month tasks_df tasks_by_day tc pl y month_num m)
  <-> has_grid y m = true.
Proof.
  unfold render_month. split.
  - intros [parts Hrun].
    destruct (py_getitem calendar.month_name m); [|discriminate].
    cbn [rbind] in Hrun.
    destruct (calendar.monthdatescalendar calendar.SUNDAY y m)
      as [weeks|] eqn:E; [|discriminate].
    by apply (monthdatescalendar_ok y m weeks).
  - intros Hg.
    assert (Hm : 1 <= m <= 12).
    { unfold has_grid in Hg. rewrite !andb_true_iff, !Z.leb_le in Hg. lia. }
    destruct (month_name_getitem m Hm) as [name ->].
    destruct (monthdatescalendar_returns y m Hg) as [weeks ->].
    cbn [rbind]. by eexists.
Qed.

Lemma has_grid_whole_year y :
  Forall (fun m => has_grid y m = true) (py_range 1 13) <-> 2 <= y <= 9998.
Proof.
  rewrite py_range_seqZ, Forall_seqZ. unfold has_grid, MINYEAR, MAXYEAR.
  split.
  - intros H. pose proof (H 1 ltac:(lia)) as H1.
    pose proof (H 12 ltac:(lia)) as H12.
    rewrite !andb_true_iff, !negb_true_iff, !andb_false_iff in H1, H12.
    rewrite !Z.leb_le, !Z.eqb_neq in H1, H12. lia.
  - intros Hy m Hm.
    rewrite !andb_true_iff, !negb_true_iff, !andb_false_iff.
    rewrite !Z.leb_le, !Z.eqb_neq. lia.
Qed.

Lemma generate_returns fuel tasks_df no_wrap_text y task_colors
    prefix_label month :
  (366 <= fuel)%nat -> frame_ok tasks_df ->
  succeeds (generate_calendar_html fuel tasks_df no_wrap_text y task_colors
              prefix_label month).2
  <-> match resolve_month_num month with
      | Some month_num => has_grid y month_num = true
      | None => 2 <= y <= 9998
      end.
Proof.
  intros Hfuel Hok. unfold generate_calendar_html. cbn [snd].
  destruct (buildDayIndex_spec fuel tasks_df y Hfuel Hok) as (idx & Hidx & _).
  unfold buildDayIndex in Hidx. rewrite Hidx. cbn [rbind].
  destruct (resolve_month_num month) as [n|].
  - split.
    + intros [html Hrun].
      destruct (py_getitem calendar.month_name n); [|discriminate].
      cbn [rbind mapM] in Hrun.
      destruct (render_month _ idx task_colors prefix_label y (Some n) n)
        as [parts|] eqn:E; [|discriminate].
      apply (render_month_returns_iff (dropna (resolve_dates tasks_df)) idx
               task_colors prefix_label y (Some n) n). by exists parts.
    + intros Hg.
      assert (Hn : 1 <= n <= 12).
      { unfold has_grid in Hg. rewrite !andb_true_iff, !Z.leb_le in Hg. lia. }
      destruct (month_name_getitem n Hn) as [name ->].
      apply (render_month_returns_iff (dropna (resolve_dates tasks_df)) idx
               task_colors prefix_label y (Some n) n) in Hg as [parts Hparts].
      cbn [rbind mapM]. rewrite Hparts. cbn [rbind]. by eexists.
  - cbn [rbind]. rewrite <- has_grid_whole_year. split.
    + intros [html Hrun].
      destruct (mapM _ (py_range 1 13)) as [months|] eqn:E; [|discriminate].
      assert (Hs : succeeds
                (mapM (render_month (dropna (resolve_dates tasks_df)) idx
                         task_colors prefix_label y None) (py_range 1 13)))
        by (by exists months).
      apply mapM_succeeds_iff in Hs.
      eapply Forall_impl; [exact Hs|].
      intros m Hm. cbv beta in Hm. by apply render_month_returns_iff in Hm.
    + intros Hall.
      assert (Hs : succeeds
                (mapM (render_month (dropna (resolve_dates tasks_df)) idx
                         task_colors prefix_label y None) (py_range 1 13))).
      { apply mapM_succeeds_iff. eapply Forall_impl; [exact Hall|].
        intros m Hm. by apply render_month_returns_iff. }
      destruct Hs as [months ->]. cbn [rbind]. by eexists.
Qed.


End renderer_result.


(** ** Reading the month *)

Section month_reading.
Import datetime_facts.

(** The twelve keys of the [month_names] dictionary. *)
Lemma month_names_get_Some key n :
  month_names_get key = Some n ->
  1 <= n <= 12 /\
  exists name, calendar.month_name !! Z.to_nat n = Some name /\
               key = lower name.
Proof.
  unfold month_names_get.
  match goal with
  | |- context [rev ?l] =>
      let v := eval vm_compute in (rev l) in change (rev l) with v
  end.
  cbn [List.find snd fst].
  repeat match goal with
         | |- context [String.eqb ?a key] =>
             destruct (String.eqb_spec a key) as [<-|_];
             [intros [= <-]; split; [lia|]; eexists; split; reflexivity|]
         end.
  discriminate.
Qed.

Lemma month_names_get_name i name :
  calendar.month_name !! i = Some name -> (1 <= i)%nat ->
  month_names_get (lower name) = Some (Z.of_nat i).
Proof.
  intros Hname Hi.
  do 13 (destruct i as [|i]; [first [lia|injection Hname as <-; reflexivity]|]).
  discriminate.
Qed.

(** A character that [lower] maps to a lower-case letter is a letter: it
    is neither white space nor a digit nor a sign. *)
Lemma letter_is_not_numeric c :
  (let n := nat_of_ascii (lower_char c) in (97 <=? n)%nat && (n <=? 122)%nat)
  = true ->
  is_space c = false /\ is_digit c = false /\
  c <> "-"%char /\ c <> "+"%char.
Proof.
  destruct c as [[] [] [] [] [] [] [] []]; vm_compute; intros H;
    first [discriminate H
          | repeat split; first [reflexivity | discriminate]].
Qed.

Lemma str_rev_onto_app p q acc :
  str_rev_onto (p ++ q) acc = str_rev_onto q (str_rev_onto p acc).
Proof.
  revert acc. induction p as [|c p IH]; intros acc; [reflexivity|].
  change (String c p ++ q) with (String c (p ++ q)).
  cbn [str_rev_onto]. apply IH.
Qed.

Lemma string_app_nil (s : string) : "" ++ s = s.
Proof. reflexivity. Qed.

Lemma string_app_cons c (a b : string) : String c a ++ b = String c (a ++ b).
Proof. reflexivity. Qed.

Lemma string_app_assoc (a b c : string) : (a ++ b) ++ c = a ++ (b ++ c).
Proof.
  induction a as [|x a IH]; [done|].
  change (String x ((a ++ b) ++ c) = String x (a ++ (b ++ c))).
  by rewrite IH.
Qed.

Lemma str_rev_onto_acc s acc :
  str_rev_onto s acc = str_rev_onto s "" ++ acc.
Proof.
  revert acc. induction s as [|c s IH]; intros acc; cbn; [done|].
  rewrite (IH (String c acc)), (IH (String c "")).
  rewrite string_app_assoc. reflexivity.
Qed.

Lemma str_rev_involutive s : str_rev_onto (str_rev_onto s "") "" = s.
Proof.
  induction s as [|c s IH]; [done|]. cbn [str_rev_onto].
  rewrite (str_rev_onto_acc s (String c "")), str_rev_onto_app.
  cbn [str_rev_onto]. by rewrite IH.
Qed.

Lemma lstrip_keeps_last c acc :
  is_space c = false ->
  exists p, lstrip (acc ++ String c "") = p ++ String c "".
Proof.
  intros Hc. induction acc as [|a acc IH].
  - rewrite string_app_nil. cbn [lstrip]. rewrite Hc. by exists "".
  - rewrite string_app_cons. cbn [lstrip].
    destruct (is_space a); [exact IH|]. by exists (String a acc).
Qed.

(** [strip] keeps a first character that is not white space. *)
Lemma strip_keeps_first c s :
  is_space c = false -> exists t, strip (String c s) = String c t.
Proof.
  intros Hc. unfold strip. cbn [lstrip]. rewrite Hc. cbn [str_rev_onto].
  rewrite (str_rev_onto_acc s (String c "")).
  destruct (lstrip_keeps_last c (str_rev_onto s "") Hc) as [p ->].
  rewrite str_rev_onto_app. cbn [str_rev_onto]. by eexists.
Qed.

(** A text that starts with a letter is not a number for [int]. *)
Lemma letters_are_not_int c s :
  is_space c = false -> is_digit c = false ->
  c <> "-"%char -> c <> "+"%char ->
  py_int_of_str (String c s) = None.
Proof.
  intros Hs Hd Hm Hp. unfold py_int_of_str.
  destruct (strip_keeps_first c s Hs) as [t ->].
  destruct (Ascii.eqb_spec c "-") as [->|_]; [done|].
  destruct (Ascii.eqb_spec c "+") as [->|_]; [done|].
  assert (Hparse : parse_digits 0 false (String c t) = None).
  { cbn [parse_digits]. rewrite Hd. by rewrite andb_false_r. }
  destruct c as [[] [] [] [] [] [] [] []]; first [exact Hparse | done].
Qed.

(** No text is both a month name and a number. *)
Lemma month_name_is_not_int s n :
  month_names_get (lower s) = Some n -> py_int_of_str s = None.
Proof.
  intros (Hn & name & Hname & Hs)%month_names_get_Some.
  assert (exists c s', s = String c s' /\
            (let n := nat_of_ascii (lower_char c) in
             (97 <=? n)%nat && (n <=? 122)%nat) = true)
    as (c & s' & -> & Hc).
  { each_month n Hn; cbn in Hname; injection Hname as <-;
      (destruct s as [|c s']; [discriminate Hs|]);
      exists c, s'; (split; [done|]);
      cbn [lower] in Hs; injection Hs as -> _; reflexivity. }
  destruct (letter_is_not_numeric c Hc) as (H1 & H2 & H3 & H4).
  by apply letters_are_not_int.
Qed.

(** X5: a month given by its English name is read
    whatever the case of its letters: the renderer resolves it to the
    number of the month. *)
Theorem month_name_in_any_case i name s :
  calendar.month_name !! i = Some name -> (1 <= i)%nat ->
  lower s = lower name ->
  resolve_month_num (Some (MonthStr s)) = Some (Z.of_nat i).
Proof.
  intros Hname Hi Hs. unfold resolve_month_num.
  by rewrite Hs, (month_names_get_name i name Hname Hi).
Qed.

Lemma target_month_of_accepts args s m :
  args_month args = Some s ->
  target_month_of args = Some (Some m) ->
  1 <= m <= 12 /\
  resolve_month_num (Some (MonthStr s)) = Some m /\
  resolve_month_num (option_map MonthInt (Some m)) = Some m.
Proof.
  unfold target_month_of. intros -> Hm.
  assert (Hcases :
    match py_int_of_str s with
    | Some target_month =>
        if (target_month <? 1) || (12 <? target_month) then None
        else Some (Some target_month)
    | None =>
        match month_names_get (lower s) with
        | Some target_month => Some (Some target_month)
        | None => None
        end
    end = Some (Some m)).
  { destruct s as [|c s]; [discriminate|exact Hm]. }
  clear Hm. unfold resolve_month_num. cbn [option_map].
  destruct (py_int_of_str s) as [t|] eqn:Hint.
  - destruct (Z.ltb_spec t 1), (Z.ltb_spec 12 t); cbn [orb] in Hcases;
      try discriminate.
    injection Hcases as <-. split; [lia|]. split; [|done].
    destruct (month_names_get (lower s)) as [n|] eqn:Hname; [|done].
    apply month_name_is_not_int in Hname. congruence.
  - destruct (month_names_get (lower s)) as [n|] eqn:Hname; [|discriminate].
    injection Hcases as <-.
    split; [|done]. by apply month_names_get_Some in Hname as [? _].
Qed.


End month_reading.

(** ** Numbers as text *)

Section number_text.

Lemma parse_digits_acc (d : Decimal.uint) : forall acc : positive,
  parse_digits (Z.pos acc) true (NilEmpty.string_of_uint d)
  = Some (Z.pos (Pos.of_uint_acc d acc)).
Proof.
  induction d as [|d IH|d IH|d IH|d IH|d IH|d IH|d IH|d IH|d IH|d IH];
    intros acc; [reflexivity|..];
    cbn [NilEmpty.string_of_uint parse_digits Pos.of_uint_acc];
    (match goal with
     | |- context [is_digit ?c] => change (is_digit c) with true
     end); cbv iota;
    (match goal with
     | |- parse_digits ?a true _ = Some (Z.pos (Pos.of_uint_acc _ ?b)) =>
         replace a with (Z.pos b);
         [|match goal with
           | |- context [digit_value ?c] =>
               let v := eval vm_compute in (digit_value c) in
               change (digit_value c) with v
           end; lia]
     end); apply IH.
Qed.

Lemma parse_digits_zero (d : Decimal.uint) : forall after_digit,
  d <> Decimal.Nil ->
  parse_digits 0 after_digit (NilEmpty.string_of_uint d)
  = Some (Z.of_N (Pos.of_uint d)).
Proof.
  induction d as [|d IH|d IH|d IH|d IH|d IH|d IH|d IH|d IH|d IH|d IH];
    intros after_digit Hd; [done|..];
    cbn [NilEmpty.string_of_uint parse_digits Pos.of_uint];
    (match goal with
     | |- context [is_digit ?c] => change (is_digit c) with true
     end); cbv iota.
  - change (10 * 0 + digit_value "0") with 0.
    destruct d; [reflexivity|apply IH; discriminate..].
  - exact (parse_digits_acc d 1).
  - exact (parse_digits_acc d 2).
  - exact (parse_digits_acc d 3).
  - exact (parse_digits_acc d 4).
  - exact (parse_digits_acc d 5).
  - exact (parse_digits_acc d 6).
  - exact (parse_digits_acc d 7).
  - exact (parse_digits_acc d 8).
  - exact (parse_digits_acc d 9).
Qed.

Lemma uint_text_no_space (d : Decimal.uint) c :
  In c (list_ascii_of_string (NilEmpty.string_of_uint d)) ->
  is_space c = false /\ c <> "-"%char /\ c <> "+"%char.
Proof.
  induction d; cbn [NilEmpty.string_of_uint list_ascii_of_string In];
    [done|intros [<-|H]; [repeat split; discriminate|auto]..].
Qed.

Lemma in_str_rev_onto c s : forall acc,
  In c (list_ascii_of_string (str_rev_onto s acc))
  <-> In c (list_ascii_of_string s) \/ In c (list_ascii_of_string acc).
Proof.
  induction s as [|a s IH]; intros acc; cbn [str_rev_onto].
  - cbn. tauto.
  - rewrite IH. cbn. tauto.
Qed.

Lemma lstrip_no_space s :
  (forall c, In c (list_ascii_of_string s) -> is_space c = false) ->
  lstrip s = s.
Proof.
  destruct s as [|c s]; [done|]. intros H. cbn [lstrip].
  by rewrite (H c (or_introl eq_refl)).
Qed.

(** [strip] leaves a text without white space as it is. *)
Lemma strip_no_space s :
  (forall c, In c (list_ascii_of_string s) -> is_space c = false) ->
  strip s = s.
Proof.
  intros H. unfold strip. rewrite (lstrip_no_space s H).
  rewrite lstrip_no_space; [apply str_rev_involutive|].
  intros c Hc%in_str_rev_onto. destruct Hc as [Hc|[]]. auto.
Qed.

Lemma pos_to_uint_not_nil p : Pos.to_uint p <> Decimal.Nil.
Proof.
  intros E. pose proof (DecimalPos.Unsigned.of_to p) as H.
  rewrite E in H. discriminate.
Qed.

(** The text of a number reads back as the number: [int(str(n)) == n]. *)
Lemma int_of_str_of_int n :
  strip (py_str n) = py_str n /\ py_int_of_str (py_str n) = Some n.
Proof.
  assert (Hstrip : strip (py_str n) = py_str n).
  { apply strip_no_space. unfold py_str. intros c.
    destruct n as [|p|p]; cbn [Z.to_int NilZero.string_of_int].
    - cbn. intros [<-|[]]. reflexivity.
    - pose proof (pos_to_uint_not_nil p).
      unfold NilZero.string_of_uint.
      destruct (Pos.to_uint p) eqn:E; [done|..];
        rewrite <- E; intros Hc; by apply uint_text_no_space in Hc as [? _].
    - pose proof (pos_to_uint_not_nil p).
      cbn [list_ascii_of_string In]. intros [<-|Hc]; [reflexivity|].
      revert Hc. unfold NilZero.string_of_uint.
      destruct (Pos.to_uint p) eqn:E; [done|..];
        rewrite <- E; intros Hc; by apply uint_text_no_space in Hc as [? _]. }
  split; [done|]. unfold py_int_of_str. rewrite Hstrip. unfold py_str.
  destruct n as [|p|p]; cbn [Z.to_int NilZero.string_of_int].
  - reflexivity.
  - pose proof (pos_to_uint_not_nil p) as Hnil.
    assert (Htext : NilZero.string_of_uint (Pos.to_uint p)
                    = NilEmpty.string_of_uint (Pos.to_uint p))
      by (unfold NilZero.string_of_uint; by destruct (Pos.to_uint p)).
    rewrite Htext.
    pose proof (parse_digits_zero (Pos.to_uint p) false Hnil) as Hparse.
    rewrite DecimalPos.Unsigned.of_to in Hparse. cbn [Z.of_N] in Hparse.
    destruct (NilEmpty.string_of_uint (Pos.to_uint p)) as [|c t] eqn:Et.
    + exact Hparse.
    + assert (Hc : c <> "-"%char /\ c <> "+"%char).
      { apply (uint_text_no_space (Pos.to_uint p)). rewrite Et. by left. }
      destruct Hc as [Hm Hp].
      destruct c as [[] [] [] [] [] [] [] []]; first [exact Hparse | done].
  - pose proof (pos_to_uint_not_nil p) as Hnil.
    assert (Htext : NilZero.string_of_uint (Pos.to_uint p)
                    = NilEmpty.string_of_uint (Pos.to_uint p))
      by (unfold NilZero.string_of_uint; by destruct (Pos.to_uint p)).
    rewrite Htext.
    rewrite (parse_digits_zero (Pos.to_uint p) false Hnil).
    rewrite DecimalPos.Unsigned.of_to. reflexivity.
Qed.

End number_text.


(** ** The lists of the day index *)

Section day_lists.
Import datetime_facts.

Implicit Types (tasks_by_day : DayIndex) (d : date) (name : string).

Lemma unique_from_seen (l : list string) : forall seen1 seen2,
  (forall x, x ∈ seen1 <-> x ∈ seen2) ->
  unique_from seen1 l = unique_from seen2 l.
Proof.
  induction l as [|x l IH]; intros seen1 seen2 H; cbn [unique_from]; [done|].
  rewrite (bool_decide_ext _ _ (H x)).
  case_bool_decide; [by apply IH|].
  f_equal. apply IH. intros z. rewrite !elem_of_cons, H. done.
Qed.

Lemma fold_append_once (l : list string) : forall acc,
  fold_left append_once l acc = (acc ++ unique_from acc l)%list.
Proof.
  induction l as [|x l IH]; intros acc; cbn [fold_left unique_from].
  - by rewrite app_nil_r.
  - rewrite IH. unfold append_once. case_bool_decide as Hin; [done|].
    rewrite <- app_assoc. cbn [app]. do 2 f_equal.
    apply unique_from_seen. intros z.
    rewrite elem_of_app, !elem_of_cons, elem_of_nil. tauto.
Qed.

(** One pass through the body of the [while] loop, on the lists. *)
Lemma loop_body_exact tasks_by_day task_name current_date :
  let tbd1 :=
    match tasks_by_day !! current_date with
    | None => <[current_date := []]> tasks_by_day
    | Some _ => tasks_by_day
    end in
  let today := default [] (tbd1 !! current_date) in
  let tbd2 :=
    if bool_decide (task_name ∈ today) then tbd1
    else <[current_date := (today ++ [task_name])%list]> tbd1 in
  (forall d,
     tasks_on tbd2 d
     = if bool_decide (d = current_date)
       then append_once (tasks_on tasks_by_day d) task_name
       else tasks_on tasks_by_day d) /\
  (map_Forall (fun _ names => names <> []) tasks_by_day ->
   map_Forall (fun _ names => names <> []) tbd2).
Proof.
  intros tbd1 today tbd2.
  assert (H1 : forall d', tasks_on tbd1 d' = tasks_on tasks_by_day d').
  { intros d'. unfold tasks_on, tbd1.
    destruct (tasks_by_day !! current_date) eqn:E; [done|].
    destruct (decide (current_date = d')) as [->|Hne].
    - by rewrite lookup_insert_eq, E.
    - by rewrite lookup_insert_ne. }
  assert (Ht : today = tasks_on tasks_by_day current_date) by apply H1.
  split.
  - intros d. unfold tbd2. clear tbd2. unfold append_once.
    rewrite Ht. clearbody today tbd1.
    destruct (decide (d = current_date)) as [->|Hd].
    + rewrite (bool_decide_eq_true_2 _ eq_refl).
      case_bool_decide as Hin; [apply H1|].
      unfold tasks_on at 1. by rewrite lookup_insert_eq.
    + rewrite (bool_decide_eq_false_2 _ Hd).
      case_bool_decide as Hin; [apply H1|].
      unfold tasks_on at 1. rewrite lookup_insert_ne by done. apply H1.
  - intros Hne. unfold tbd2, today, tbd1. clear tbd2 Ht H1.
    destruct (tasks_by_day !! current_date) as [names|] eqn:E.
    + rewrite E. cbn [default]. case_bool_decide as Hin; [done|].
      apply map_Forall_insert_2; [by destruct names|done].
    + rewrite lookup_insert_eq. cbn [default].
      rewrite bool_decide_eq_false_2 by apply not_elem_of_nil.
      rewrite insert_insert_eq.
      apply map_Forall_insert_2; [done|done].
Qed.

Lemma while_current_date_exact fuel task_name end_date :
  valid end_date -> toordinal end_date < _MAXORDINAL ->
  forall current_date tasks_by_day tbd',
    valid current_date ->
    while_current_date fuel task_name current_date end_date tasks_by_day
    = Ok tbd' ->
    (forall d, valid d ->
       tasks_on tbd' d
       = if date_le current_date d && date_le d end_date
         then append_once (tasks_on tasks_by_day d) task_name
         else tasks_on tasks_by_day d) /\
    (map_Forall (fun _ names => names <> []) tasks_by_day ->
     map_Forall (fun _ names => names <> []) tbd').
Proof.
  intros Hve Hmax.
  assert (Hstop : forall cur tbd,
            date_le cur end_date = false ->
            (forall d, valid d ->
               tasks_on tbd d
               = if date_le cur d && date_le d end_date
                 then append_once (tasks_on tbd d) task_name
                 else tasks_on tbd d)).
  { intros cur tbd Hle d Hvd.
    destruct (date_le cur d) eqn:H1, (date_le d end_date) eqn:H2; try done.
    pose proof (date_le_trans _ _ _ H1 H2). congruence. }
  induction fuel as [|fuel IH]; intros cur tbd tbd' Hvc Hrun;
    cbn [while_current_date] in Hrun;
    destruct (date_le cur end_date) eqn:Hle; try discriminate;
    try (injection Hrun as <-; split; [by apply Hstop|done]).
  pose proof (proj1 (date_le_toordinal _ _ Hvc Hve) Hle) as Hord.
  destruct (date_add_one cur Hvc ltac:(lia)) as (next & Hadd & Hvn & Hon).
  rewrite Hadd in Hrun. cbn [rbind] in Hrun.
  destruct (loop_body_exact tbd task_name cur) as [Hbody Hkeep].
  cbv zeta in Hbody, Hkeep.
  match type of Hrun with
  | while_current_date fuel task_name next end_date ?t = _ =>
      destruct (IH next t tbd' Hvn Hrun) as [Hrest Hkeep']
  end.
  split; [|auto].
  intros d Hvd. rewrite (Hrest d Hvd), Hbody.
  destruct (decide (d = cur)) as [->|Hd].
  - rewrite (bool_decide_eq_true_2 _ eq_refl), date_le_refl, Hle.
    assert (date_le next cur = false) as ->; [|done].
    apply not_true_iff_false. rewrite date_le_toordinal by done. lia.
  - rewrite (bool_decide_eq_false_2 _ Hd).
    assert (date_le next d = date_le cur d) as ->; [|done].
    apply eq_true_iff_eq. rewrite !date_le_toordinal by done.
    assert (toordinal cur <> toordinal d)
      by (intros E; apply Hd; symmetry; by apply toordinal_inj).
    lia.
Qed.

Lemma index_task_exact fuel y tasks_by_day task s e tbd' :
  Start_date task = Timestamp s -> Due_date task = Timestamp e ->
  timestamp_ok s -> timestamp_ok e ->
  index_task fuel y tasks_by_day task = Ok tbd' ->
  (forall d, valid d ->
     tasks_on tbd' d
     = if in_clipped_range y s e d
       then append_once (tasks_on tasks_by_day d) (Task_Name task)
       else tasks_on tasks_by_day d) /\
  (map_Forall (fun _ names => names <> []) tasks_by_day ->
   map_Forall (fun _ names => names <> []) tbd').
Proof.
  intros Hs He Hoks Hoke. unfold index_task. rewrite Hs, He.
  cbn [cell_date rbind].
  destruct ((y <? year s) || (year e <? y)) eqn:Hskip.
  - intros [= <-]. split; [|done]. intros d _.
    by rewrite (clipped_range_empty_outside _ _ _ _ Hskip).
  - apply orb_false_iff in Hskip as [H1%Z.ltb_ge H2%Z.ltb_ge].
    pose proof Hoks as (Hvs & _). pose proof Hoke as (Hve & _).
    assert (Hy : MINYEAR <= y <= MAXYEAR)
      by (destruct Hvs as [? _], Hve as [? _];
          unfold MINYEAR, MAXYEAR in *; lia).
    rewrite (date_new_valid y 1 1 (valid_first_of_year y Hy)).
    rewrite (date_new_valid y 12 31 (valid_last_of_year y Hy)).
    cbn [rbind]. intros Hrun.
    assert (Hvc : valid (date_max s (mkdate y 1 1)))
      by (apply date_max_valid; [done|by apply valid_first_of_year]).
    assert (Hvend : valid (date_min e (mkdate y 12 31)))
      by (apply date_min_valid; [done|by apply valid_last_of_year]).
    assert (Hend_e : date_le (date_min e (mkdate y 12 31)) e = true /\
                     date_le (date_min e (mkdate y 12 31)) (mkdate y 12 31)
                     = true)
      by (apply date_min_ge, date_le_refl).
    exact (while_current_date_exact fuel (Task_Name task) _ Hvend
             (timestamp_ok_not_last e Hoke _ Hvend (proj1 Hend_e))
             _ tasks_by_day tbd' Hvc Hrun).
Qed.

Lemma covering_names_cons y r rows d :
  covering_names y (r :: rows) d
  = match effective_range r with
    | Some (s, e) =>
        if in_clipped_range y s e d
        then Task_Name r :: covering_names y rows d
        else covering_names y rows d
    | None => covering_names y rows d
    end.
Proof.
  unfold covering_names. cbn [omap list_omap].
  destruct (effective_range r) as [[s e]|]; [|done].
  by destruct (in_clipped_range y s e d).
Qed.

Lemma index_tasks_exact fuel y (tasks_df : frame) :
  frame_ok tasks_df ->
  forall tasks_by_day tbd',
    index_tasks fuel y tasks_by_day (dropna (map resolved_row tasks_df))
    = Ok tbd' ->
    (forall d, valid d ->
       tasks_on tbd' d
       = fold_left append_once (covering_names y tasks_df d)
           (tasks_on tasks_by_day d)) /\
    (map_Forall (fun _ names => names <> []) tasks_by_day ->
     map_Forall (fun _ names => names <> []) tbd').
Proof.
  induction 1 as [|r rows Hr Hrows IH]; intros tbd tbd'.
  - intros [= <-]. done.
  - unfold dropna. cbn [map List.filter]. fold (dropna (map resolved_row rows)).
    pose proof (resolved_row_range r) as Hrange.
    destruct (effective_range r) as [[s e]|] eqn:Heff.
    + destruct Hrange as [Hs He]. rewrite Hs, He. cbn [notna andb].
      cbn [index_tasks].
      destruct (index_task fuel y tbd (resolved_row r)) as [tbd1|] eqn:E1;
        [|discriminate].
      cbn [rbind]. intros Hrun.
      destruct (effective_range_ok r s e Hr Heff) as [Hoks Hoke].
      destruct (index_task_exact fuel y tbd (resolved_row r) s e tbd1
                  Hs He Hoks Hoke E1) as [Hone Hkeep1].
      destruct (IH tbd1 tbd' Hrun) as [Hrest Hkeep].
      split; [|auto]. intros d Hvd.
      rewrite (Hrest d Hvd), (Hone d Hvd), covering_names_cons, Heff.
      rewrite (proj1 (resolved_row_other_fields r)).
      by destruct (in_clipped_range y s e d).
    + rewrite Hrange. intros Hrun.
      destruct (IH tbd tbd' Hrun) as [Hrest Hkeep].
      split; [|done]. intros d Hvd.
      by rewrite (Hrest d Hvd), covering_names_cons, Heff.
Qed.

Lemma buildDayIndex_exact fuel tasks_df y idx :
  frame_ok tasks_df -> buildDayIndex fuel tasks_df y = Ok idx ->
  (forall d, valid d -> tasks_on idx d = unique (covering_names y tasks_df d))
  /\ map_Forall (fun _ names => names <> []) idx.
Proof.
  intros Hok. unfold buildDayIndex. rewrite resolve_dates_rows. intros Hrun.
  destruct (index_tasks_exact fuel y tasks_df Hok ∅ idx Hrun) as [Hd Hne].
  split.
  - intros d Hvd. rewrite (Hd d Hvd), tasks_on_empty, fold_append_once.
    reflexivity.
  - apply Hne, map_Forall_empty.
Qed.

(** X7: the list of a day holds the names of the records
    whose clipped range holds that day, in the order of the records in
    the table, each name once (at its first such record). *)
Theorem day_lists_follow_table_order fuel tasks_df y idx d :
  frame_ok tasks_df -> buildDayIndex fuel tasks_df y = Ok idx -> valid d ->
  tasks_on idx d = unique (covering_names y tasks_df d).
Proof.
  intros Hok Hrun Hvd.
  by apply (proj1 (buildDayIndex_exact fuel tasks_df y idx Hok Hrun)).
Qed.

Lemma buildDayIndex_members fuel tasks_df y idx :
  (366 <= fuel)%nat -> frame_ok tasks_df ->
  buildDayIndex fuel tasks_df y = Ok idx ->
  forall d name,
    name ∈ tasks_on idx d <->
    exists r s e,
      r ∈ tasks_df /\ Task_Name r = name /\
      effective_range r = Some (s, e) /\
      valid d /\ in_clipped_range y s e d = true.
Proof.
  intros Hfuel Hok Hrun.
  destruct (buildDayIndex_spec fuel tasks_df y Hfuel Hok) as (tbd & Hrun' & H).
  assert (tbd = idx) by congruence. by subst tbd.
Qed.

Lemma in_clipped_range_year y s e d :
  in_clipped_range y s e d = true ->
  year d = y /\
  date_le (clipped_first y s) d = true /\
  date_le d (clipped_last y e) = true.
Proof.
  unfold in_clipped_range, clipped_first, clipped_last.
  intros [H1 H2]%andb_true_iff. split; [|done].
  apply date_max_le in H1 as [_ H1]. apply date_min_ge in H2 as [_ H2].
  date_order. cbn [year month day] in *. lia.
Qed.

(** X8: every key of the index is a date of the target year
    and carries at least one name, none of them twice: no day outside the
    year and no empty list is ever stored. *)
Theorem index_keys_are_days_of_the_year fuel tasks_df y idx d names :
  (366 <= fuel)%nat -> frame_ok tasks_df ->
  buildDayIndex fuel tasks_df y = Ok idx ->
  idx !! d = Some names ->
  valid d /\ year d = y /\ names <> [] /\ NoDup names.
Proof.
  intros Hfuel Hok Hrun Hd.
  destruct (buildDayIndex_exact fuel tasks_df y idx Hok Hrun) as [Hexact Hne].
  pose proof (Hne d names Hd) as Hnames. cbn in Hnames.
  assert (Hon : tasks_on idx d = names) by (unfold tasks_on; by rewrite Hd).
  destruct names as [|name rest]; [done|].
  assert (Hin : name ∈ tasks_on idx d) by (rewrite Hon; left).
  apply (buildDayIndex_members fuel tasks_df y idx Hfuel Hok Hrun) in Hin
    as (r & s & e & _ & _ & _ & Hvd & Hc).
  apply in_clipped_range_year in Hc as [Hy _].
  split_and!; try done.
  rewrite <- Hon, (Hexact d Hvd). apply NoDup_unique_from.
Qed.

Lemma clipped_ends_valid y s e :
  valid s -> valid e -> MINYEAR <= y <= MAXYEAR ->
  valid (clipped_first y s) /\ valid (clipped_last y e).
Proof.
  intros Hvs Hve Hy. split.
  - apply date_max_valid; [done|by apply valid_first_of_year].
  - apply date_min_valid; [done|by apply valid_last_of_year].
Qed.

(** X9: a record that is the only one of its name and
    whose range overlaps the target year is shown on
    [(last - first).days + 1] days, [first] and [last] being its range
    clipped to the year (none when it starts after it ends); a record that
    starts before the year and ends after it is shown on all 365 or 366
    days. *)
Theorem carrying_days_of_clipped_range fuel tasks_df y idx r s e :
  (366 <= fuel)%nat -> frame_ok tasks_df ->
  buildDayIndex fuel tasks_df y = Ok idx ->
  r ∈ tasks_df ->
  (forall r', r' ∈ tasks_df -> Task_Name r' = Task_Name r -> r' = r) ->
  effective_range r = Some (s, e) ->
  year s <= y <= year e ->
  Z.of_nat (size (days_carrying idx (Task_Name r)))
  = Z.max 0 (days_between (clipped_first y s) (clipped_last y e) + 1) /\
  (year s < y < year e ->
   Z.of_nat (size (days_carrying idx (Task_Name r)))
   = if _is_leap y then 366 else 365).
Proof.
  intros Hfuel Hok Hrun Hin Huniq Hr Hy.
  pose proof (buildDayIndex_members fuel tasks_df y idx Hfuel Hok Hrun)
    as Hspec.
  pose proof Hok as Hok'. unfold frame_ok in Hok'.
  rewrite Forall_forall in Hok'.
  destruct (effective_range_ok r s e (Hok' r Hin) Hr) as [(Hvs & _) (Hve & _)].
  assert (Hyv : MINYEAR <= y <= MAXYEAR)
    by (destruct Hvs as [? _], Hve as [? _]; lia).
  destruct (clipped_ends_valid y s e Hvs Hve Hyv) as [Hvf Hvl].
  assert (Hsize : size (days_carrying idx (Task_Name r))
                  = Z.to_nat (toordinal (clipped_last y e)
                              - toordinal (clipped_first y s) + 1)).
  { apply (size_date_interval _ _ _ Hvf Hvl). intros d.
    rewrite elem_of_days_carrying, Hspec. split.
    - intros (r' & s' & e' & Hin' & Hn & Hr' & Hvd & Hc).
      rewrite (Huniq r' Hin' Hn) in Hr'. rewrite Hr in Hr'.
      injection Hr' as <- <-. split; [done|].
      apply in_clipped_range_year in Hc as (_ & H1 & H2).
      apply date_le_toordinal in H1; [|done..].
      apply date_le_toordinal in H2; [|done..]. lia.
    - intros [Hvd Hord]. exists r, s, e. split_and!; try done.
      unfold in_clipped_range.
      fold (clipped_first y s). fold (clipped_last y e).
      apply andb_true_iff. rewrite !date_le_toordinal by done. lia. }
  split.
  - rewrite Hsize. unfold days_between. lia.
  - intros Hwide. rewrite Hsize.
    assert (clipped_first y s = mkdate y 1 1) as ->.
    { unfold clipped_first, date_max.
      destruct (date_lt s (mkdate y 1 1)) eqn:E; [done|].
      exfalso. date_order. cbn [year month day] in *. lia. }
    assert (clipped_last y e = mkdate y 12 31) as ->.
    { unfold clipped_last, date_min.
      destruct (date_lt (mkdate y 12 31) e) eqn:E; [done|].
      exfalso. date_order. cbn [year month day] in *. lia. }
    unfold toordinal, _ymd2ord, _days_before_month. cbn [year month day].
    reduce_closed. destruct (_is_leap y); lia.
Qed.

(** X10: the index is empty exactly when the clipped range of
    every record that has one is empty: the record ends before 1 January
    of the year, starts after 31 December, or starts after it ends.  Such
    records are dropped without a message. *)
Theorem index_is_empty_iff fuel tasks_df y idx :
  (366 <= fuel)%nat -> frame_ok tasks_df ->
  buildDayIndex fuel tasks_df y = Ok idx ->
  idx = ∅ <->
  forall r s e,
    r ∈ tasks_df -> effective_range r = Some (s, e) ->
    date_lt (clipped_last y e) (clipped_first y s) = true.
Proof.
  intros Hfuel Hok Hrun.
  pose proof (buildDayIndex_members fuel tasks_df y idx Hfuel Hok Hrun)
    as Hspec.
  destruct (buildDayIndex_exact fuel tasks_df y idx Hok Hrun) as [_ Hne].
  pose proof Hok as Hok'. unfold frame_ok in Hok'.
  rewrite Forall_forall in Hok'.
  split.
  - intros -> r s e Hin Hr. apply date_le_false.
    apply not_true_iff_false. intros Hle.
    destruct (effective_range_ok r s e (Hok' r Hin) Hr)
      as [(Hvs & _) (Hve & _)].
    assert (Hcl : date_le (clipped_first y s) (clipped_first y s) = true)
      by apply date_le_refl.
    assert (Hyv : MINYEAR <= y <= MAXYEAR).
    { unfold clipped_first, clipped_last in Hle.
      apply date_max_le in Hle as [H1 H2].
      apply date_min_ge in H1 as [H1 H1'], H2 as [H2 H2'].
      destruct Hvs as [? _], Hve as [? _].
      date_order. cbn [year month day] in *. lia. }
    destruct (clipped_ends_valid y s e Hvs Hve Hyv) as [Hvf _].
    assert (Hmem : Task_Name r ∈ tasks_on ∅ (clipped_first y s)).
    { apply Hspec. exists r, s, e. split_and!; try done.
      unfold in_clipped_range.
      fold (clipped_first y s). fold (clipped_last y e).
      by rewrite Hcl, Hle. }
    rewrite tasks_on_empty in Hmem. by apply elem_of_nil in Hmem.
  - intros Hall. apply map_empty. intros d.
    destruct (idx !! d) as [names|] eqn:Hd; [|done]. exfalso.
    pose proof (Hne d names Hd) as Hnames. cbn in Hnames.
    destruct names as [|name rest]; [done|].
    assert (Hin : name ∈ tasks_on idx d)
      by (unfold tasks_on; rewrite Hd; left).
    apply Hspec in Hin as (r & s & e & Hin & _ & Hr & Hvd & Hc).
    apply in_clipped_range_year in Hc as (_ & H1 & H2).
    pose proof (date_le_trans _ _ _ H1 H2) as Hle.
    specialize (Hall r s e Hin Hr). apply date_le_false in Hall. congruence.
Qed.

End day_lists.

(** ** Stepping through the days ([current_date += timedelta(days=1)]) *)

Section next_calendar_day.
Import datetime_facts.

Lemma next_day_spec d :
  valid d -> d <> mkdate MAXYEAR 12 31 ->
  valid (next_day d) /\ toordinal (next_day d) = toordinal d + 1.
Proof.
  intros (Hy & Hm & Hd) Hne. unfold next_day.
  pose proof (days_in_month_pos (year d) (month d) Hm) as Hdim.
  destruct (Z.ltb_spec (day d) (_days_in_month (year d) (month d))).
  - split; [|unfold toordinal, _ymd2ord; cbn [year month day]; lia].
    unfold valid. cbn [year month day]. lia.
  - destruct (Z.ltb_spec (month d) 12).
    + pose proof (days_in_month_pos (year d) (month d + 1) ltac:(lia)).
      split; [unfold valid; cbn [year month day]; lia|].
      unfold toordinal, _ymd2ord. cbn [year month day].
      rewrite (days_before_month_succ (year d) (month d)) by lia. lia.
    + assert (Hm12 : month d = 12) by lia.
      assert (Hd31 : day d = 31).
      { revert H Hd. rewrite Hm12.
        change (_days_in_month (year d) 12) with 31. lia. }
      assert (year d < MAXYEAR).
      { destruct (Z.eq_dec (year d) MAXYEAR) as [E|]; [|lia].
        exfalso. apply Hne. destruct d as [y m dd].
        cbn [year month day] in *. by subst. }
      split.
      * unfold valid. cbn [year month day].
        change (_days_in_month (year d + 1) 1) with 31.
        unfold MINYEAR, MAXYEAR in *. lia.
      * unfold toordinal, _ymd2ord. cbn [year month day].
        rewrite Hm12, Hd31, days_before_year_succ.
        unfold _days_before_month. reduce_closed.
        destruct (_is_leap (year d)); lia.
Qed.

(** X11: adding one day to a date gives the next day of the
    Gregorian calendar, across the ends of months, leap days and the ends
    of years; only for 31 December 9999 does [+ timedelta(days=1)] raise
    OverflowError. *)
Theorem adding_a_day_gives_the_next_day d :
  valid d ->
  date_add d 1
  = if bool_decide (d = mkdate MAXYEAR 12 31) then Raise OverflowError
    else Ok (next_day d).
Proof.
  intros Hv. case_bool_decide as Hd; [by subst d|].
  destruct (next_day_spec d Hv Hd) as [Hvn Hon].
  assert (Hlt : toordinal d < _MAXORDINAL).
  { pose proof (toordinal_range (next_day d) Hvn). lia. }
  destruct (date_add_one d Hv Hlt) as (d' & -> & Hv' & Ho').
  f_equal. apply toordinal_inj; [done..|lia].
Qed.

End next_calendar_day.


(** ** The palette *)

Section palette.

(** X12: the palette has exactly one entry for each
    distinct task name of the table, whatever the flags: no name is left
    without a colour and no other key is added. *)
Theorem palette_has_one_entry_per_name tasks_df bl bb alt sat light :
  dom (assign_task_colors tasks_df bl bb alt sat light)
  = list_to_set (map Task_Name tasks_df) /\
  size (assign_task_colors tasks_df bl bb alt sat light)
  = length (unique (map Task_Name tasks_df)).
Proof.
  destruct (unique_tasks_facts tasks_df) as (_ & Hnd & Hmem). cbv zeta in *.
  assert (Hdom : dom (assign_task_colors tasks_df bl bb alt sat light)
                 = list_to_set (sorted (unique (map Task_Name tasks_df)))).
  { apply set_eq. intros name. rewrite elem_of_dom, elem_of_list_to_set.
    split.
    - intros [color Hc].
      destruct (decide (name ∈ sorted (unique (map Task_Name tasks_df))))
        as [|Hn]; [done|].
      unfold assign_task_colors in Hc.
      rewrite (fold_assign_other
                 (fun task_index task_name =>
                    hex_color (task_hue tasks_df bl bb alt task_index
                                 task_name) light sat)) in Hc.
      + by rewrite lookup_empty in Hc.
      + unfold enumerate. by rewrite snd_imap_pairs.
    - intros [i Hi]%list_elem_of_lookup.
      rewrite (assign_task_colors_lookup _ _ _ _ _ _ i) by done. by eexists. }
  split.
  - rewrite Hdom. apply set_eq. intros name.
    rewrite !elem_of_list_to_set. apply Hmem.
  - rewrite <- size_dom, Hdom, size_list_to_set by done.
    by rewrite sorted_perm.
Qed.

(** X13: in alternate mode two indices get the same hue
    exactly when they differ by a multiple of 360: the step of 29 is
    coprime with 360, so the first 360 names all get different hues. *)
Theorem alternate_hues_repeat_every_360 i j :
  alternate_hue i = alternate_hue j <-> i mod 360 = j mod 360.
Proof.
  unfold alternate_hue, HUE_STEP. split.
  - intros [= H]. Z.div_mod_to_equations. lia.
  - intros H. f_equal. Z.div_mod_to_equations. lia.
Qed.

Lemma first_row_of_name tasks_df name r :
  first_row_of tasks_df name = Some r -> name ∈ map Task_Name tasks_df.
Proof.
  unfold first_row_of. intros H.
  assert (Hin : In r (List.filter (fun r => String.eqb (Task_Name r) name)
                        tasks_df)).
  { destruct (List.filter _ tasks_df) as [|r0 l]; [discriminate|].
    injection H as ->. by left. }
  apply filter_In in Hin as [Hin Heq]. apply String.eqb_eq in Heq.
  subst name. apply list_elem_of_In, in_map, Hin.
Qed.

Lemma grouping_attribute_name tasks_df bl bb name text :
  grouping_attribute tasks_df bl bb name = Some text ->
  name ∈ map Task_Name tasks_df.
Proof.
  unfold grouping_attribute.
  destruct (first_row_of tasks_df name) as [r|] eqn:E.
  - intros _. by apply (first_row_of_name tasks_df name r).
  - by destruct bl, bb.
Qed.

(** X14: with one grouping flag set and alternate colours
    off, two tasks whose first records carry the same label (or the same
    bucket) get the same colour, the one of the hash of that text. *)
Theorem same_attribute_same_colour tasks_df bl bb sat light
    name1 name2 text :
  bl && bb = false ->
  grouping_attribute tasks_df bl bb name1 = Some text ->
  grouping_attribute tasks_df bl bb name2 = Some text ->
  assign_task_colors tasks_df bl bb false sat light !! name1
  = Some (hex_color (hash_hue text) light sat) /\
  assign_task_colors tasks_df bl bb false sat light !! name2
  = Some (hex_color (hash_hue text) light sat).
Proof.
  intros Hflags H1 H2.
  destruct (unique_tasks_facts tasks_df) as (_ & _ & Hmem). cbv zeta in Hmem.
  split.
  - pose proof (grouping_attribute_name _ _ _ _ _ H1) as Hin.
    apply Hmem, list_elem_of_lookup in Hin as [i Hi].
    rewrite (assign_task_colors_lookup _ _ _ _ _ _ i) by done.
    rewrite task_hue_policy by done.
    unfold grouping_attribute in H1. by rewrite H1.
  - pose proof (grouping_attribute_name _ _ _ _ _ H2) as Hin.
    apply Hmem, list_elem_of_lookup in Hin as [i Hi].
    rewrite (assign_task_colors_lookup _ _ _ _ _ _ i) by done.
    rewrite task_hue_policy by done.
    unfold grouping_attribute in H2. by rewrite H2.
Qed.

End palette.

(** ** Colour codes *)

Section colour_code_shape.
Local Open Scope Q_scope.

Lemma clamp_range x : 0 <= py_max 0 (py_min 1 x) <= 1.
Proof.
  unfold py_max, py_min.
  destruct (Qltb x 1) eqn:E1.
  - apply Qltb_true in E1. destruct (Qltb 0 x) eqn:E0.
    + apply Qltb_true in E0. lra.
    + lra.
  - destruct (Qltb 0 1) eqn:E0; lra.
Qed.

Lemma all_hex_digits_app (a b : string) :
  all_hex_digits (a ++ b) = all_hex_digits a && all_hex_digits b.
Proof.
  induction a as [|c a IH]; [reflexivity|].
  change (all_hex_digits (String c (a ++ b))
          = all_hex_digits (String c a) && all_hex_digits b).
  cbn [all_hex_digits]. by rewrite IH, andb_assoc.
Qed.

Lemma format_02x_hex n :
  (0 <= n <= 255)%Z -> all_hex_digits (format_02x n) = true.
Proof.
  intros Hn.
  assert (Hall : forallb (fun k => all_hex_digits (format_02x k))
                   (py_range 0 256) = true) by (vm_compute; reflexivity).
  rewrite forallb_forall in Hall.
  apply Hall. unfold py_range. apply in_map_iff.
  exists (Z.to_nat n). split; [lia|]. apply in_seq. lia.
Qed.

Lemma hex_color_is_color_code h l s :
  0 <= l <= 1 -> 0 <= s <= 1 -> is_color_code (hex_color h l s) = true.
Proof.
  intros Hl Hs. pose proof (hls_to_rgb_range h l s Hl Hs) as H.
  unfold hex_color. destruct (hls_to_rgb h l s) as [[r g] b].
  destruct H as (Hr & Hg & Hb).
  destruct (channel_range r Hr) as [-> Hr'].
  destruct (channel_range g Hg) as [-> Hg'].
  destruct (channel_range b Hb) as [-> Hb'].
  change (is_color_code
            (String "#" (format_02x (Qfloor (r * 255))
                         ++ format_02x (Qfloor (g * 255))
                         ++ format_02x (Qfloor (b * 255)))) = true).
  cbn [is_color_code].
  rewrite !string_length_append, !format_02x_length by done.
  rewrite !all_hex_digits_app, !format_02x_hex by done. reflexivity.
Qed.

Lemma task_hue_is_a_degree tasks_df bl bb alt i name :
  exists k, (0 <= k < 360)%Z /\ task_hue tasks_df bl bb alt i name = k # 360.
Proof.
  assert (Hh : forall text, exists k, (0 <= k < 360)%Z /\ hash_hue text = k # 360).
  { intros text. unfold hash_hue. eexists. split; [|reflexivity].
    apply Z.mod_pos_bound. lia. }
  assert (Ha : exists k, (0 <= k < 360)%Z /\ alternate_hue i = k # 360).
  { unfold alternate_hue. eexists. split; [|reflexivity].
    apply Z.mod_pos_bound. lia. }
  unfold task_hue.
  destruct (List.filter _ tasks_df) as [|first rest];
    destruct bl, bb; try apply Hh;
    try destruct (Labels first); try destruct (Bucket_Name first);
    try destruct alt; first [apply Hh | apply Ha].
Qed.

Lemma fold_assign_values (f : Z -> string -> string) (P : string -> Prop)
    (l : list (Z * string)) : forall m : gmap string string,
  (forall i n, P (f i n)) -> map_Forall (fun _ v => P v) m ->
  map_Forall (fun _ v => P v)
    (fold_left (fun task_colors '(task_index, task_name) =>
                  <[task_name := f task_index task_name]> task_colors) l m).
Proof.
  induction l as [|[j n] l IH]; intros m Hf Hm; [done|].
  cbn [fold_left]. apply IH; [done|]. by apply map_Forall_insert_2.
Qed.


End colour_code_shape.

(** ** Colours without lightness *)

Section extreme_lightness.
Local Open Scope Q_scope.

Lemma _v_flat m1 m2 hue c : m1 == c -> m2 == c -> _v m1 m2 hue == c.
Proof.
  intros H1 H2. unfold _v.
  destruct (Qltb (fmod1 hue) ONE_SIXTH); [rewrite H1, H2; ring|].
  destruct (Qltb (fmod1 hue) (1 # 2)); [done|].
  destruct (Qltb (fmod1 hue) TWO_THIRD); [rewrite H1, H2; ring|done].
Qed.

Lemma hls_to_rgb_flat h l s c :
  (c == 0 \/ c == 1) -> l == c ->
  let '(r, g, b) := hls_to_rgb h l s in r == c /\ g == c /\ b == c.
Proof.
  intros Hc Hl. unfold hls_to_rgb.
  destruct (Qeq_bool s 0); [done|].
  set (m2 := if Qle_bool l (1 # 2) then l * (1 + s) else l + s - l * s).
  assert (Hm2 : m2 == c).
  { unfold m2. destruct (Qle_bool l (1 # 2)) eqn:E.
    - apply Qle_bool_iff in E. destruct Hc as [Hc|Hc].
      + rewrite Hl, Hc. ring.
      + rewrite Hl, Hc in E. exfalso. revert E. apply Qlt_not_le. reflexivity.
    - destruct Hc as [Hc|Hc].
      + exfalso. assert (Hle : l <= 1 # 2) by (rewrite Hl, Hc; discriminate).
        apply Qle_bool_iff in Hle. congruence.
      + rewrite Hl, Hc. ring. }
  assert (Hm1 : 2 * l - m2 == c).
  { rewrite Hm2, Hl. ring. }
  split_and!; by apply _v_flat.
Qed.

Lemma channel_of_flat r c :
  r == c -> py_int_of_float (r * 255) = py_int_of_float (c * 255).
Proof.
  intros H. unfold py_int_of_float.
  assert (E : r * 255 == c * 255) by (rewrite H; reflexivity).
  assert (Qle_bool 0 (r * 255) = Qle_bool 0 (c * 255)) as ->.
  { apply eq_true_iff_eq. rewrite !Qle_bool_iff. by rewrite E. }
  destruct (Qle_bool 0 (c * 255)).
  - by apply Qfloor_comp.
  - by apply Qceiling_comp.
Qed.

Lemma zero_lightness_is_black h l s : l == 0 -> hex_color h l s = "#000000".
Proof.
  intros Hl.
  pose proof (hls_to_rgb_flat h l s 0 (or_introl (Qeq_refl 0)) Hl) as H.
  unfold hex_color. destruct (hls_to_rgb h l s) as [[r g] b].
  destruct H as (Hr & Hg & Hb).
  by rewrite (channel_of_flat r 0 Hr), (channel_of_flat g 0 Hg),
    (channel_of_flat b 0 Hb).
Qed.

(** X16: a lightness of 0 or less on the command line, clamped to
    0, paints every task black, whatever the hues and the saturation: the
    colours no longer tell the tasks apart, and the black text of the
    spans cannot be read. *)
Theorem nonpositive_lightness_paints_black tasks_df bl bb alt sat light
    name color :
  light <= 0 ->
  assign_task_colors tasks_df bl bb alt
    (py_max 0 (py_min 1 sat)) (py_max 0 (py_min 1 light)) !! name
  = Some color ->
  color = "#000000".
Proof.
  intros Hl Hc.
  assert (Hclamp : py_max 0 (py_min 1 light) == 0).
  { unfold py_max, py_min.
    destruct (Qltb light 1) eqn:E1.
    - destruct (Qltb 0 light) eqn:E0; [|done].
      apply Qltb_true in E0. lra.
    - apply Qltb_false in E1. lra. }
  set (s := py_max 0 (py_min 1 sat)) in *.
  set (l := py_max 0 (py_min 1 light)) in *.
  assert (Hall : map_Forall (fun _ v => v = "#000000")
                   (assign_task_colors tasks_df bl bb alt s l)).
  { unfold assign_task_colors.
    apply (fold_assign_values
             (fun task_index task_name =>
                hex_color (task_hue tasks_df bl bb alt task_index task_name)
                  l s)
             (fun v => v = "#000000")).
    - intros i n. by apply zero_lightness_is_black.
    - apply map_Forall_empty. }
  exact (Hall name color Hc).
Qed.

End extreme_lightness.

(** ** The digest of a text *)

Section digest_shape.

Lemma le_bytes_are_bytes n : forall x,
  Forall (fun b => 0 <= b <= 255) (hashlib.le_bytes n x) /\
  length (hashlib.le_bytes n x) = n.
Proof.
  induction n as [|n IH]; intros x; cbn [hashlib.le_bytes]; [by split|].
  destruct (IH (Z.shiftr x 8)) as [Hb Hl]. split; [|cbn; by rewrite Hl].
  constructor; [|done].
  change 255 with (Z.ones 8). rewrite Z.land_ones by lia.
  pose proof (Z.mod_pos_bound x (2 ^ 8) ltac:(lia)).
  change (Z.ones 8) with (2 ^ 8 - 1). lia.
Qed.

Lemma hex_of_bytes (l : list Z) :
  Forall (fun b => 0 <= b <= 255) l ->
  String.length (String.concat "" (map format_02x l)) = (2 * length l)%nat /\
  all_hex_digits (String.concat "" (map format_02x l)) = true.
Proof.
  induction 1 as [|b l Hb Hl IH]; [by split|].
  destruct IH as [IH1 IH2]. cbn [map String.concat].
  destruct (map format_02x l) as [|h t] eqn:E.
  - destruct l; [|discriminate]. split.
    + by rewrite format_02x_length.
    + by apply format_02x_hex.
  - rewrite !string_length_append, !all_hex_digits_app.
    rewrite format_02x_length, format_02x_hex by done.
    rewrite IH1, IH2. split; [cbn; lia|reflexivity].
Qed.

Lemma hex_value_range c :
  is_hex_digit c = true -> 0 <= hashlib.hex_value c <= 15.
Proof.
  destruct c as [[] [] [] [] [] [] [] []]; vm_compute; intros H;
    first [discriminate H | split; discriminate].
Qed.

Lemma int_base16_from_range s : forall acc,
  all_hex_digits s = true -> 0 <= acc ->
  16 ^ Z.of_nat (String.length s) * acc
  <= hashlib.int_base16_from acc s
  < 16 ^ Z.of_nat (String.length s) * (acc + 1).
Proof.
  induction s as [|c s IH]; intros acc Hs Hacc.
  - cbn [hashlib.int_base16_from String.length]. change (16 ^ Z.of_nat 0) with 1.
    lia.
  - cbn [all_hex_digits] in Hs. apply andb_true_iff in Hs as [Hc Hs].
    pose proof (hex_value_range c Hc) as Hv.
    cbn [hashlib.int_base16_from String.length].
    specialize (IH (16 * acc + hashlib.hex_value c) Hs ltac:(lia)).
    rewrite Nat2Z.inj_succ, Z.pow_succ_r by lia.
    assert (0 < 16 ^ Z.of_nat (String.length s)) by (apply Z.pow_pos_nonneg; lia).
    nia.
Qed.

(** X17: the hexadecimal digest of any text is 32 lower-case
    hexadecimal digits, so [int(hash_digest, 16)] cannot raise and lies
    below [2 ** 128]; the hue taken from it is one of the 360 values
    [k/360], in [0, 1). *)
Theorem hexdigest_is_32_hex_digits text :
  String.length (hashlib.md5_hexdigest (hashlib.encode text)) = 32%nat /\
  all_hex_digits (hashlib.md5_hexdigest (hashlib.encode text)) = true /\
  0 <= hash_int text < 2 ^ 128 /\
  (0 <= hash_hue text < 1)%Q.
Proof.
  assert (Hbytes : Forall (fun b => 0 <= b <= 255)
                     (hashlib.digest (hashlib.encode text)) /\
                   length (hashlib.digest (hashlib.encode text)) = 16%nat).
  { unfold hashlib.digest.
    destruct (fold_left hashlib.compress _ _) as [[[a b] c] d].
    destruct (le_bytes_are_bytes 4 a) as [Ha La].
    destruct (le_bytes_are_bytes 4 b) as [Hb Lb].
    destruct (le_bytes_are_bytes 4 c) as [Hc Lc].
    destruct (le_bytes_are_bytes 4 d) as [Hd Ld].
    rewrite !Forall_app, !length_app, La, Lb, Lc, Ld. by split_and!. }
  destruct Hbytes as [Hb Hl].
  destruct (hex_of_bytes _ Hb) as [Hlen Hhex].
  fold (hashlib.md5_hexdigest (hashlib.encode text)) in Hlen, Hhex.
  rewrite Hl in Hlen. split; [exact Hlen|]. split; [exact Hhex|].
  assert (Hint : 0 <= hash_int text < 2 ^ 128).
  { unfold hash_int, hashlib.int_base16.
    pose proof (int_base16_from_range _ 0 Hhex ltac:(lia)) as H.
    rewrite Hlen in H. change (16 ^ Z.of_nat (2 * 16)) with (2 ^ 128) in H.
    lia. }
  split; [exact Hint|].
  unfold hash_hue. fold (hash_int text).
  pose proof (Z.mod_pos_bound (hash_int text) 360 ltac:(lia)) as Hm.
  unfold Qle, Qlt. cbn. lia.
Qed.

End digest_shape.


(** ** The command line ([main]) *)

Section command_line.
Import datetime_facts.

Lemma fold_date_min ds : forall d,
  fold_left date_min ds d ∈ d :: ds /\
  forall d', d' ∈ d :: ds -> date_le (fold_left date_min ds d) d' = true.
Proof.
  induction ds as [|x ds IH]; intros d; cbn [fold_left].
  - split; [left|]. intros d' ->%list_elem_of_singleton. apply date_le_refl.
  - destruct (IH (date_min d x)) as [Hin Hle]. split.
    + apply elem_of_cons in Hin as [->|Hin].
      * unfold date_min. destruct (date_lt x d); [right; left|left].
      * right. by right.
    + intros d' Hd'.
      assert (Hm : date_le (date_min d x) d = true /\
                   date_le (date_min d x) x = true)
        by (apply date_min_ge, date_le_refl).
      apply elem_of_cons in Hd' as [->|Hd'].
      * eapply date_le_trans; [apply Hle; left|apply Hm].
      * apply elem_of_cons in Hd' as [->|Hd'].
        -- eapply date_le_trans; [apply Hle; left|apply Hm].
        -- apply Hle. by right.
Qed.

(** X18: without [--year] (and with [--year 0], which reads
    as not given) the calendar is made for the year of the earliest
    readable start date of the table; rows with no readable start date do
    not count, even when they have a due date, and a table without any
    readable start date gives the current year. *)
Theorem year_is_inferred_from_earliest_start args tasks_df now_year :
  args_year args = None \/ args_year args = Some 0 ->
  match omap (fun r => valid_date (Start_date r)) tasks_df with
  | [] => target_year_of args tasks_df now_year = now_year
  | starts =>
      exists earliest,
        earliest ∈ starts /\
        (forall d, d ∈ starts -> date_le earliest d = true) /\
        target_year_of args tasks_df now_year = year earliest
  end.
Proof.
  intros Hy. unfold target_year_of.
  assert (Hnone : match args_year args with
                  | Some y => if y =? 0 then None else Some y
                  | None => None
                  end = None) by (by destruct Hy as [-> | ->]).
  rewrite Hnone.
  assert (Hstarts :
    omap (fun r => match to_datetime (Start_date r) with
                   | Timestamp d => Some d
                   | _ => None
                   end) tasks_df
    = omap (fun r => valid_date (Start_date r)) tasks_df).
  { induction tasks_df as [|r rows IH]; [done|].
    cbn [omap list_omap]. rewrite IH. by destruct (Start_date r). }
  rewrite Hstarts.
  set (starts := omap (fun r => valid_date (Start_date r)) tasks_df).
  clearbody starts. destruct starts as [|d ds]; [reflexivity|].
  destruct (fold_date_min ds d) as [Hin Hle].
  exists (fold_left date_min ds d). by split_and!.
Qed.

Lemma target_month_of_range args m :
  target_month_of args = Some (Some m) -> 1 <= m <= 12.
Proof.
  intros H. destruct (args_month args) as [s|] eqn:Es.
  - by destruct (target_month_of_accepts args s m Es H) as [? _].
  - unfold target_month_of in H. rewrite Es in H. discriminate.
Qed.

Lemma has_grid_month y m :
  1 <= m <= 12 -> 2 <= y <= 9998 -> has_grid y m = true.
Proof.
  intros Hm Hy. unfold has_grid, MINYEAR, MAXYEAR.
  rewrite !andb_true_iff, !negb_true_iff, !andb_false_iff.
  rewrite !Z.leb_le, !Z.eqb_neq. lia.
Qed.

Lemma timestamp_ok_year d : timestamp_ok d -> 1677 <= year d <= 2262.
Proof.
  intros (_ & Hmin & Hmax). unfold Timestamp_min, Timestamp_max in *.
  date_order. cbn [year month day] in *. lia.
Qed.

Lemma start_dates_ok tasks_df d :
  frame_ok tasks_df ->
  d ∈ omap (fun r => valid_date (Start_date r)) tasks_df -> timestamp_ok d.
Proof.
  intros Hok (r & Hr & Hd)%list_elem_of_omap.
  unfold frame_ok in Hok. rewrite Forall_forall in Hok.
  destruct (Hok r Hr) as (Hs & _). destruct (Start_date r); try discriminate.
  cbn in Hd. injection Hd as <-. exact Hs.
Qed.

Lemma year_range_of_inferred args tasks_df now_year :
  frame_ok tasks_df -> args_year args = None ->
  omap (fun r => valid_date (Start_date r)) tasks_df <> [] ->
  1677 <= target_year_of args tasks_df now_year <= 2262.
Proof.
  intros Hok Hyear Hstarts. unfold target_year_of. rewrite Hyear.
  assert (Hsame :
    omap (fun r => match to_datetime (Start_date r) with
                   | Timestamp d => Some d
                   | _ => None
                   end) tasks_df
    = omap (fun r => valid_date (Start_date r)) tasks_df).
  { clear. induction tasks_df as [|r rows IH]; [done|].
    cbn [omap list_omap]. rewrite IH. by destruct (Start_date r). }
  rewrite Hsame.
  pose proof (start_dates_ok tasks_df) as Hall.
  set (starts := omap (fun r => valid_date (Start_date r)) tasks_df) in *.
  clearbody starts. destruct starts as [|d ds]; [done|].
  destruct (fold_date_min ds d) as [Hin _].
  apply timestamp_ok_year, Hall; done.
Qed.



End command_line.


(** ** The window ([PlannerCalendarGUI]) *)

Section window.
Import datetime_facts.

(** X21: the command of the two grouping check boxes
    keeps them from being both set: starting from a state where at most
    one is set, a click on either box leaves at most one set.  On the
    advanced tab, where the boxes are, it is always the bucket box that
    gives way: a click on the label box while the bucket box is set
    switches to the label, but a click on the bucket box while the label
    box is set is undone. *)
Theorem grouping_boxes_stay_exclusive g :
  gui_color_by_label g && gui_color_by_bucket g = false ->
  gui_color_by_label (click_color_by_label g)
    && gui_color_by_bucket (click_color_by_label g) = false /\
  gui_color_by_label (click_color_by_bucket g)
    && gui_color_by_bucket (click_color_by_bucket g) = false /\
  (gui_selected_tab g = 1 -> gui_color_by_bucket g = true ->
   gui_color_by_label (click_color_by_label g) = true /\
   gui_color_by_bucket (click_color_by_label g) = false) /\
  (gui_selected_tab g = 1 -> gui_color_by_label g = true ->
   click_color_by_bucket g = g).
Proof.
  destruct g as [f y m nw sat light bl bb pl alt tab].
  unfold click_color_by_label, click_color_by_bucket, handle_color_by_change,
    set_color_by_label, set_color_by_bucket.
  cbn [gui_color_by_label gui_color_by_bucket gui_selected_tab
       gui_excel_file_path gui_year gui_month gui_no_wrap_text
       gui_color_saturation gui_color_lightness gui_prefix_labels
       gui_alternate_colors].
  intros Hex.
  destruct bl, bb; try discriminate; cbn [negb andb];
    destruct (Z.eqb_spec tab 1); cbn; split_and!; try done; intros; lia.
Qed.

Lemma validate_inputs_Valid isfile g :
  validate_inputs isfile g = Valid ->
  gui_excel_file_path g <> "" /\
  isfile (gui_excel_file_path g) = true /\
  (strip (gui_year g) = "" \/
   exists year, py_int_of_str (strip (gui_year g)) = Some year /\
                strip (gui_year g) <> "" /\ 1900 <= year <= 2100) /\
  (0 <= gui_color_saturation g <= 1)%Q /\
  (0 <= gui_color_lightness g <= 1)%Q /\
  gui_color_by_label g && gui_color_by_bucket g = false.
Proof.
  unfold validate_inputs.
  destruct (String.eqb_spec (gui_excel_file_path g) ""); [discriminate|].
  destruct (isfile (gui_excel_file_path g)); [|discriminate]. cbn [negb].
  intros H.
  assert (Hyear : strip (gui_year g) = "" \/
            exists year, py_int_of_str (strip (gui_year g)) = Some year /\
                         strip (gui_year g) <> "" /\ 1900 <= year <= 2100).
  { destruct (String.eqb_spec (strip (gui_year g)) ""); [by left|]. right.
    destruct (py_int_of_str (strip (gui_year g))) as [year|]; [|discriminate].
    destruct (Z.ltb_spec year 1900), (Z.ltb_spec 2100 year);
      cbn [orb] in H; try discriminate.
    exists year. split_and!; try done; lia. }
  assert (Hrest :
    (if Qltb (gui_color_saturation g) 0 || Qltb 1 (gui_color_saturation g)
     then Invalid "Color saturation must be between 0.0 and 1.0."
     else if Qltb (gui_color_lightness g) 0 || Qltb 1 (gui_color_lightness g)
     then Invalid "Color lightness must be between 0.0 and 1.0."
     else if gui_color_by_label g && gui_color_by_bucket g
     then Invalid
            "You cannot use both 'Color by Label' and 'Color by Bucket' at the same time."
     else Valid) = Valid).
  { destruct (String.eqb (strip (gui_year g)) ""); [exact H|].
    destruct (py_int_of_str (strip (gui_year g))) as [year|]; [|discriminate].
    destruct ((year <? 1900) || (2100 <? year)); [discriminate|exact H]. }
  clear H.
  destruct (Qltb (gui_color_saturation g) 0) eqn:S0; [discriminate|].
  destruct (Qltb 1 (gui_color_saturation g)) eqn:S1; [discriminate|].
  destruct (Qltb (gui_color_lightness g) 0) eqn:L0; [discriminate|].
  destruct (Qltb 1 (gui_color_lightness g)) eqn:L1; [discriminate|].
  cbn [orb] in Hrest.
  destruct (gui_color_by_label g && gui_color_by_bucket g); [discriminate|].
  apply Qltb_false in S0, S1, L0, L1. by split_and!.
Qed.

Lemma gui_target_year_range isfile g tasks_df now_year :
  frame_ok tasks_df -> validate_inputs isfile g = Valid ->
  2 <= now_year <= 9998 ->
  exists y, gui_target_year g tasks_df now_year = Ok y /\ 2 <= y <= 9998.
Proof.
  intros Hok (_ & _ & Hyear & _)%validate_inputs_Valid Hnow.
  unfold gui_target_year.
  destruct Hyear as [Hblank|(year & Hint & Hne & Hrange)].
  - rewrite Hblank. cbn [String.eqb negb].
    assert (Hsame :
      omap (fun r => match to_datetime (Start_date r) with
                     | Timestamp d => Some d
                     | _ => None
                     end) tasks_df
      = omap (fun r => valid_date (Start_date r)) tasks_df).
    { clear. induction tasks_df as [|r rows IH]; [done|].
      cbn [omap list_omap]. rewrite IH. by destruct (Start_date r). }
    rewrite Hsame.
    pose proof (start_dates_ok tasks_df) as Hall.
    set (starts := omap (fun r => valid_date (Start_date r)) tasks_df) in *.
    clearbody starts. destruct starts as [|d ds]; [by exists now_year|].
    destruct (fold_date_min ds d) as [Hin _].
    eexists. split; [reflexivity|].
    pose proof (timestamp_ok_year _ (Hall _ Hok Hin)). lia.
  - destruct (String.eqb_spec (strip (gui_year g)) ""); [done|].
    cbn [negb]. rewrite Hint. exists year. split; [done|lia].
Qed.

(** X22: once the inputs pass [validate_inputs], the window
    writes the calendar unless the month box holds a number outside
    1..12, which the validation lets through and the renderer rejects
    with an exception, reported in an error box; a month text that is
    neither a month name nor a number gives the full year without a
    message.  The table is left with its date columns rewritten. *)
Theorem window_writes_or_reports fuel isfile g tasks_df now_year :
  (366 <= fuel)%nat -> frame_ok tasks_df ->
  validate_inputs isfile g = Valid -> 2 <= now_year <= 9998 ->
  exists outcome,
    generate_calendar fuel isfile g tasks_df now_year
    = (resolve_dates tasks_df, outcome) /\
    match resolve_month_num (gui_target_month g) with
    | Some m =>
        if (1 <=? m) && (m <=? 12) then exists html, outcome = Written html
        else exists e, outcome = Failed e
    | None => exists html, outcome = Written html
    end.
Proof.
  intros Hfuel Hok Hvalid Hnow. unfold generate_calendar. rewrite Hvalid.
  destruct (gui_target_year_range isfile g tasks_df now_year Hok Hvalid Hnow)
    as (y & -> & Hy).
  set (task_colors := assign_task_colors _ _ _ _ _ _).
  pose proof (generate_returns fuel tasks_df (gui_no_wrap_text g) y
                task_colors (gui_prefix_labels g) (gui_target_month g)
                Hfuel Hok) as Hret.
  assert (Hdf : (generate_calendar_html fuel tasks_df (gui_no_wrap_text g)
                   y task_colors (gui_prefix_labels g)
                   (gui_target_month g)).1
                = resolve_dates tasks_df) by reflexivity.
  destruct (generate_calendar_html fuel tasks_df (gui_no_wrap_text g) y
              task_colors (gui_prefix_labels g) (gui_target_month g))
    as [df' html].
  cbn [fst snd] in *. subst df'.
  destruct (resolve_month_num (gui_target_month g)) as [m|].
  - destruct (Z.leb_spec 1 m), (Z.leb_spec m 12); cbn [andb].
    + assert (Hs : succeeds html)
        by (apply Hret, has_grid_month; [lia|done]).
      destruct Hs as [h ->]. eexists. split; [done|]. by eexists.
    + destruct html as [h|e].
      * exfalso. assert (Hg : has_grid y m = true) by (apply Hret; by exists h).
        unfold has_grid in Hg. rewrite !andb_true_iff, !Z.leb_le in Hg. lia.
      * eexists. split; [done|]. by eexists.
    + destruct html as [h|e].
      * exfalso. assert (Hg : has_grid y m = true) by (apply Hret; by exists h).
        unfold has_grid in Hg. rewrite !andb_true_iff, !Z.leb_le in Hg. lia.
      * eexists. split; [done|]. by eexists.
    + lia.
  - assert (Hs : succeeds html) by (by apply Hret).
    destruct Hs as [h ->]. eexists. split; [done|]. by eexists.
Qed.

(** X23: the window opens with the text of the current year
    in the year box; read back by [int(year_str)] this text is the
    current year again, so an untouched box targets the current year,
    and the validation accepts it only between 1900 and 2100. *)
Theorem untouched_year_box_targets_its_year isfile g tasks_df now_year n :
  gui_year g = py_str n ->
  gui_target_year g tasks_df now_year = Ok n /\
  (validate_inputs isfile g = Valid -> 1900 <= n <= 2100).
Proof.
  intros Hyear. destruct (int_of_str_of_int n) as [Hstrip Hint].
  assert (Hne : py_str n <> "").
  { intros E. rewrite E in Hint. discriminate. }
  split.
  - unfold gui_target_year. rewrite Hyear, Hstrip.
    destruct (String.eqb_spec (py_str n) ""); [done|].
    cbn [negb]. by rewrite Hint.
  - intros (_ & _ & Hy & _)%validate_inputs_Valid.
    rewrite Hyear, Hstrip in Hy.
    destruct Hy as [?|(year & Hint' & _ & Hrange)]; [done|].
    rewrite Hint in Hint'. injection Hint' as <-. exact Hrange.
Qed.

End window.

(** ** The window and the command line *)

Section front_ends.
Local Open Scope Q_scope.

Lemma _v_compat m1 m1' m2 m2' hue :
  m1 == m1' -> m2 == m2' -> _v m1 m2 hue == _v m1' m2' hue.
Proof.
  intros H1 H2. unfold _v.
  destruct (Qltb (fmod1 hue) ONE_SIXTH); [by rewrite H1, H2|].
  destruct (Qltb (fmod1 hue) (1 # 2)); [done|].
  destruct (Qltb (fmod1 hue) TWO_THIRD); [by rewrite H1, H2|done].
Qed.

Lemma hls_to_rgb_compat h l l' s s' :
  l == l' -> s == s' ->
  let '(r, g, b) := hls_to_rgb h l s in
  let '(r', g', b') := hls_to_rgb h l' s' in
  r == r' /\ g == g' /\ b == b'.
Proof.
  intros Hl Hs. unfold hls_to_rgb.
  assert (Qeq_bool s 0 = Qeq_bool s' 0) as ->.
  { apply eq_true_iff_eq. rewrite !Qeq_bool_iff. by rewrite Hs. }
  destruct (Qeq_bool s' 0); [done|].
  assert (Qle_bool l (1 # 2) = Qle_bool l' (1 # 2)) as ->.
  { apply eq_true_iff_eq. rewrite !Qle_bool_iff. by rewrite Hl. }
  set (m2 := if Qle_bool l' (1 # 2) then l * (1 + s) else l + s - l * s).
  set (m2' := if Qle_bool l' (1 # 2) then l' * (1 + s') else l' + s' - l' * s').
  assert (Hm2 : m2 == m2').
  { unfold m2, m2'. destruct (Qle_bool l' (1 # 2)); by rewrite Hl, Hs. }
  assert (Hm1 : 2 * l - m2 == 2 * l' - m2') by (by rewrite Hl, Hm2).
  split_and!; by apply _v_compat.
Qed.

Lemma hex_color_compat h l l' s s' :
  l == l' -> s == s' -> hex_color h l s = hex_color h l' s'.
Proof.
  intros Hl Hs. pose proof (hls_to_rgb_compat h l l' s s' Hl Hs) as H.
  unfold hex_color.
  destruct (hls_to_rgb h l s) as [[r g] b].
  destruct (hls_to_rgb h l' s') as [[r' g'] b'].
  destruct H as (Hr & Hg & Hb).
  by rewrite (channel_of_flat r r' Hr), (channel_of_flat g g' Hg),
    (channel_of_flat b b' Hb).
Qed.

Lemma clamp_inside x : 0 <= x <= 1 -> py_max 0 (py_min 1 x) == x.
Proof.
  intros [H0 H1]. unfold py_max, py_min.
  destruct (Qltb x 1) eqn:E1.
  - destruct (Qltb 0 x) eqn:E0; [done|]. apply Qltb_false in E0. lra.
  - apply Qltb_false in E1. destruct (Qltb 0 1) eqn:E0; [lra|].
    apply Qltb_false in E0. lra.
Qed.

Lemma fold_left_pointwise {A B} (f g : A -> B -> A) l : forall a,
  (forall a b, f a b = g a b) -> fold_left f l a = fold_left g l a.
Proof.
  induction l as [|b l IH]; intros a H; [done|].
  cbn [fold_left]. rewrite H. by apply IH.
Qed.

Lemma assign_task_colors_compat tasks_df bl bb alt s s' l l' :
  s == s' -> l == l' ->
  assign_task_colors tasks_df bl bb alt s l
  = assign_task_colors tasks_df bl bb alt s' l'.
Proof.
  intros Hs Hl. unfold assign_task_colors. apply fold_left_pointwise.
  intros tc [i n]. by rewrite (hex_color_compat _ l l' s s' Hl Hs).
Qed.

Lemma generate_calendar_html_month fuel tasks_df nw y tc pl month1 month2 :
  resolve_month_num month1 = resolve_month_num month2 ->
  generate_calendar_html fuel tasks_df nw y tc pl month1
  = generate_calendar_html fuel tasks_df nw y tc pl month2.
Proof. intros H. unfold generate_calendar_html. by rewrite H. Qed.

(** X24: for inputs that pass the validation of the
    window and whose month the command line accepts, the window writes
    what the command line writes for the same settings: the same
    document, or the same exception, and the same rewritten table.  The
    window checks the saturation and the lightness where the command line
    clamps them, and hands the month over as text where the command line
    hands over a number. *)
Theorem window_and_command_line_agree fuel isfile g tasks_df now_year :
  validate_inputs isfile g = Valid ->
  target_month_of (args_of_gui g) <> None ->
  exists table html_content,
    main fuel (args_of_gui g) tasks_df now_year
    = (table, Generated html_content) /\
    generate_calendar fuel isfile g tasks_df now_year
    = (table, match html_content with
              | Ok html_content => Written html_content
              | Raise e => Failed e
              end).
Proof.
  intros Hvalid Hmonth.
  pose proof (validate_inputs_Valid isfile g Hvalid)
    as (_ & _ & Hyear & Hsat & Hlight & Hflags).
  unfold main, generate_calendar. rewrite Hvalid.
  cbn [args_of_gui args_color_by_label args_color_by_bucket
       args_color_saturation args_color_lightness args_alternate_colors
       args_no_wrap_text args_prefix_labels].
  rewrite Hflags.
  rewrite (assign_task_colors_compat tasks_df (gui_color_by_label g)
             (gui_color_by_bucket g) (gui_alternate_colors g)
             _ (gui_color_saturation g) _ (gui_color_lightness g)
             (clamp_inside _ Hsat) (clamp_inside _ Hlight)).
  set (task_colors := assign_task_colors _ _ _ _ _ _).
  assert (Hy : exists y,
            gui_target_year g tasks_df now_year = Ok y /\
            target_year_of (args_of_gui g) tasks_df now_year = y).
  { unfold gui_target_year, target_year_of. cbn [args_of_gui args_year].
    destruct Hyear as [Hblank|(year & Hint & Hne & Hrange)].
    - rewrite Hblank. cbn [String.eqb negb].
      destruct (omap _ tasks_df) as [|d ds]; by eexists.
    - destruct (String.eqb_spec (strip (gui_year g)) ""); [done|].
      cbn [negb]. rewrite Hint.
      destruct (Z.eqb_spec year 0); [lia|]. by exists year. }
  destruct Hy as (y & -> & ->).
  destruct (target_month_of (args_of_gui g)) as [target_month|] eqn:Em;
    [|done].
  assert (Hsame : resolve_month_num (gui_target_month g)
                  = resolve_month_num (option_map MonthInt target_month)).
  { unfold gui_target_month.
    destruct (String.eqb_spec (strip (gui_month g)) "") as [Hblank|Hne].
    - cbn [negb]. unfold target_month_of in Em.
      cbn [args_of_gui args_month] in Em. rewrite Hblank in Em.
      cbn [String.eqb] in Em. by injection Em as <-.
    - cbn [negb].
      assert (Hargs : args_month (args_of_gui g) = Some (strip (gui_month g))).
      { cbn [args_of_gui args_month].
        by destruct (String.eqb_spec (strip (gui_month g)) ""). }
      destruct target_month as [m|].
      + destruct (target_month_of_accepts _ _ m Hargs Em) as (_ & -> & ->).
        done.
      + exfalso. unfold target_month_of in Em. rewrite Hargs in Em.
        destruct (strip (gui_month g)) as [|c t]; [done|].
        destruct (py_int_of_str (String c t)) as [k|].
        * destruct ((k <? 1) || (12 <? k)); discriminate.
        * destruct (month_names_get (lower (String c t))); discriminate. }
  rewrite (generate_calendar_html_month fuel tasks_df (gui_no_wrap_text g) y
             task_colors (gui_prefix_labels g) _ _ Hsame).
  destruct (generate_calendar_html fuel tasks_df (gui_no_wrap_text g) y
              task_colors (gui_prefix_labels g)
              (option_map MonthInt target_month)) as [table html].
  exists table, html. split; [done|]. by destruct html.
Qed.

End front_ends.


(** ** From the index to the month blocks *)

Section drawn_tasks.
Import datetime_facts.

Lemma grid_holds_date y m weeks d :
  calendar.monthdatescalendar calendar.SUNDAY y m = Ok weeks ->
  valid d -> year d = y -> month d = m -> d ∈ concat weeks.
Proof.
  intros Hrun (_ & _ & Hday) Hy Hm.
  pose proof (monthdatescalendar_ok y m weeks Hrun) as Hg.
  destruct (monthdatescalendar_spec y m Hg) as (dates & k & Hdates & Hlen & Hw).
  assert (Hweeks : weeks
                   = map (fun i => take 7 (drop (7 * i) dates)) (seq 0 k))
    by congruence.
  subst weeks. rewrite (concat_rows_of_seven k dates Hlen).
  destruct (itermonthdates_spec y m Hg)
    as (dates' & before & after & Hrun' & Hcells & _).
  assert (E : dates' = dates) by congruence.
  rewrite E in Hcells. rewrite Hcells, !elem_of_app. right. left.
  apply elem_of_map. exists (day d). split.
  - destruct d as [y' m' d']. cbn [year month day] in *. by subst.
  - apply elem_of_seqZ. rewrite Hy, Hm in Hday. lia.
Qed.

Lemma indexed_day_is_in_year fuel tasks_df y idx d name :
  (366 <= fuel)%nat -> frame_ok tasks_df ->
  buildDayIndex fuel tasks_df y = Ok idx ->
  name ∈ tasks_on idx d ->
  valid d /\ year d = y /\ 1677 <= y <= 2262.
Proof.
  intros Hfuel Hok Hrun Hin.
  apply (buildDayIndex_members fuel tasks_df y idx Hfuel Hok Hrun) in Hin
    as (r & s & e & Hr & _ & Heff & Hvd & Hc).
  pose proof Hc as Hc'. apply in_clipped_range_year in Hc' as (Hy & _).
  split; [done|]. split; [done|].
  unfold frame_ok in Hok. rewrite Forall_forall in Hok.
  destruct (effective_range_ok r s e (Hok r Hr) Heff) as [Hs He].
  apply timestamp_ok_year in Hs, He.
  unfold in_clipped_range in Hc. apply andb_true_iff in Hc as [H1 H2].
  apply date_max_le in H1 as [H1 _]. apply date_min_ge in H2 as [H2 _].
  date_order.
Qed.


(** X26: the days of the neighbouring years that the grids of
    January and December show are drawn without any task, even for a task
    that runs across the end of the year: the index holds nothing outside
    the target year. *)
Theorem days_of_other_years_are_drawn_empty fuel tasks_df y idx task_colors
    prefix_label month_num d :
  (366 <= fuel)%nat -> frame_ok tasks_df ->
  buildDayIndex fuel tasks_df y = Ok idx ->
  year d <> y ->
  tasks_on idx d = [] /\
  render_day (dropna (resolve_dates tasks_df)) idx task_colors prefix_label
    month_num d
  = ["    <div class=" ++ dq ++ day_class month_num d ++ dq ++ ">";
     "      <div class=" ++ dq ++ "day-number" ++ dq ++ ">"
       ++ py_str (day d) ++ "</div>";
     "      <div class=" ++ dq ++ "tasks" ++ dq ++ ">";
     "      </div>"; "    </div>"].
Proof.
  intros Hfuel Hok Hrun Hy.
  assert (Hnone : tasks_on idx d = []).
  { destruct (tasks_on idx d) as [|name rest] eqn:E; [done|]. exfalso.
    assert (Hin : name ∈ tasks_on idx d) by (rewrite E; left).
    by destruct (indexed_day_is_in_year fuel tasks_df y idx d name Hfuel Hok
                   Hrun Hin) as (_ & ? & _). }
  split; [done|]. unfold render_day. fold (tasks_on idx d). by rewrite Hnone.
Qed.

End drawn_tasks.


(** ** The further properties at sample inputs *)

Lemma completed_task_ok : frame_ok completed_task.
Proof. unfold frame_ok, completed_task. timestamp_checks. Qed.

Lemma month_grid_rows_are_weeks_witness :
  exists weeks,
    calendar.monthdatescalendar calendar.SUNDAY 2024 2 = Ok weeks /\
    4 <= Z.of_nat (length weeks) <= 6 /\
    Forall (fun week =>
              exists sunday,
                head week = Some sunday /\
                weekday sunday = calendar.SUNDAY /\
                Forall valid week /\
                map toordinal week = seqZ (toordinal sunday) 7) weeks /\
    exists first,
      head (concat weeks) = Some first /\
      map toordinal (concat weeks)
      = seqZ (toordinal first) (7 * Z.of_nat (length weeks)) /\
      toordinal (mkdate 2024 2 1) - 6 <= toordinal first
        <= toordinal (mkdate 2024 2 1).
Proof.
  eexists. split; [vm_compute; reflexivity|].
  apply (month_grid_rows_are_weeks 2024 2). vm_compute. reflexivity.
Defined.

Lemma month_grid_holds_month_once_witness :
  exists weeks,
    calendar.monthdatescalendar calendar.SUNDAY 2024 2 = Ok weeks /\
    exists leading trailing,
      concat weeks
      = (leading ++ map (mkdate 2024 2) (seqZ 1 (_days_in_month 2024 2))
         ++ trailing)%list /\
      (length leading <= 6)%nat /\ (length trailing <= 6)%nat /\
      Forall (fun d => (year d, month d) = calendar._prevmonth 2024 2)
        leading /\
      Forall (fun d => (year d, month d) = calendar._nextmonth 2024 2)
        trailing /\
      NoDup (concat weeks) /\
      List.filter (fun d => bool_decide (day_class (Some 2) d = "day"))
        (concat weeks)
      = map (mkdate 2024 2) (seqZ 1 (_days_in_month 2024 2)).
Proof.
  eexists. split; [vm_compute; reflexivity|].
  apply (month_grid_holds_month_once 2024 2). vm_compute. reflexivity.
Defined.


Lemma month_name_in_any_case_witness :
  calendar.month_name !! 3%nat = Some "March" /\ (1 <= 3)%nat /\
  lower "mARCH" = lower "March" /\
  resolve_month_num (Some (MonthStr "mARCH")) = Some (Z.of_nat 3).
Proof.
  split; [reflexivity|]. split; [lia|]. split; [reflexivity|].
  apply (month_name_in_any_case 3 "March" "mARCH"); [reflexivity|lia|].
  reflexivity.
Defined.


Lemma day_lists_follow_table_order_witness :
  frame_ok scenario_tasks /\
  buildDayIndex 366 scenario_tasks 2024 = Ok scenario_index /\
  valid (mkdate 2024 1 3) /\
  tasks_on scenario_index (mkdate 2024 1 3)
  = unique (covering_names 2024 scenario_tasks (mkdate 2024 1 3)).
Proof.
  assert (Hv : valid (mkdate 2024 1 3)) by (vm_compute; intuition discriminate).
  split; [exact scenario_tasks_ok|]. split; [exact scenario_index_built|].
  split; [exact Hv|].
  apply (day_lists_follow_table_order 366 scenario_tasks 2024 scenario_index
           (mkdate 2024 1 3));
    [exact scenario_tasks_ok|exact scenario_index_built|exact Hv].
Defined.

Lemma index_keys_are_days_of_the_year_witness :
  (366 <= 366)%nat /\ frame_ok scenario_tasks /\
  buildDayIndex 366 scenario_tasks 2024 = Ok scenario_index /\
  scenario_index !! mkdate 2024 1 3 = Some ["Design"; "Review"] /\
  valid (mkdate 2024 1 3) /\ year (mkdate 2024 1 3) = 2024 /\
  ["Design"; "Review"] <> [] /\ NoDup ["Design"; "Review"].
Proof.
  assert (Hl : scenario_index !! mkdate 2024 1 3 = Some ["Design"; "Review"])
    by (vm_compute; reflexivity).
  split; [lia|]. split; [exact scenario_tasks_ok|].
  split; [exact scenario_index_built|]. split; [exact Hl|].
  apply (index_keys_are_days_of_the_year 366 scenario_tasks 2024
           scenario_index (mkdate 2024 1 3) ["Design"; "Review"]);
    [lia|exact scenario_tasks_ok|exact scenario_index_built|exact Hl].
Defined.

Lemma design_record_is_alone r' :
  r' ∈ scenario_tasks -> Task_Name r' = Task_Name design_record ->
  r' = design_record.
Proof.
  unfold scenario_tasks. rewrite !elem_of_cons, elem_of_nil.
  intros [->|[->|[->|[]]]]; [reflexivity|discriminate..].
Qed.

Lemma carrying_days_of_clipped_range_witness :
  (366 <= 366)%nat /\ frame_ok scenario_tasks /\
  buildDayIndex 366 scenario_tasks 2024 = Ok scenario_index /\
  design_record ∈ scenario_tasks /\
  (forall r', r' ∈ scenario_tasks ->
              Task_Name r' = Task_Name design_record -> r' = design_record) /\
  effective_range design_record
  = Some (mkdate 2024 1 1, mkdate 2024 1 3) /\
  year (mkdate 2024 1 1) <= 2024 <= year (mkdate 2024 1 3) /\
  Z.of_nat (size (days_carrying scenario_index (Task_Name design_record)))
  = Z.max 0 (days_between (clipped_first 2024 (mkdate 2024 1 1))
               (clipped_last 2024 (mkdate 2024 1 3)) + 1) /\
  (year (mkdate 2024 1 1) < 2024 < year (mkdate 2024 1 3) ->
   Z.of_nat (size (days_carrying scenario_index (Task_Name design_record)))
   = if _is_leap 2024 then 366 else 365).
Proof.
  assert (Hin : design_record ∈ scenario_tasks) by left.
  assert (Hy : year (mkdate 2024 1 1) <= 2024 <= year (mkdate 2024 1 3))
    by (cbn; lia).
  split; [lia|]. split; [exact scenario_tasks_ok|].
  split; [exact scenario_index_built|]. split; [exact Hin|].
  split; [exact design_record_is_alone|]. split; [reflexivity|].
  split; [exact Hy|].
  apply (carrying_days_of_clipped_range 366 scenario_tasks 2024
           scenario_index design_record (mkdate 2024 1 1) (mkdate 2024 1 3));
    [lia|exact scenario_tasks_ok|exact scenario_index_built|exact Hin
    |exact design_record_is_alone|reflexivity|exact Hy].
Defined.

Lemma completed_task_index_2025 :
  buildDayIndex 366 completed_task 2025 = Ok ∅.
Proof. vm_compute. reflexivity. Qed.

Lemma index_is_empty_iff_witness :
  (366 <= 366)%nat /\ frame_ok completed_task /\
  buildDayIndex 366 completed_task 2025 = Ok ∅ /\
  ((∅ : DayIndex) = ∅ <->
   forall r s e,
     r ∈ completed_task -> effective_range r = Some (s, e) ->
     date_lt (clipped_last 2025 e) (clipped_first 2025 s) = true).
Proof.
  split; [lia|]. split; [exact completed_task_ok|].
  split; [exact completed_task_index_2025|].
  apply (index_is_empty_iff 366 completed_task 2025 ∅);
    [lia|exact completed_task_ok|exact completed_task_index_2025].
Defined.

Lemma adding_a_day_gives_the_next_day_witness :
  valid (mkdate 2024 2 28) /\
  date_add (mkdate 2024 2 28) 1
  = if bool_decide (mkdate 2024 2 28 = mkdate MAXYEAR 12 31)
    then Raise OverflowError
    else Ok (next_day (mkdate 2024 2 28)).
Proof.
  assert (Hv : valid (mkdate 2024 2 28))
    by (vm_compute; intuition discriminate).
  split; [exact Hv|].
  apply (adding_a_day_gives_the_next_day (mkdate 2024 2 28)). exact Hv.
Defined.

Lemma same_attribute_same_colour_witness :
  true && false = false /\
  grouping_attribute scenario_tasks true false "Design" = Some "Eng" /\
  grouping_attribute scenario_tasks true false "Review" = Some "Eng" /\
  assign_task_colors scenario_tasks true false false (7 # 10)%Q (85 # 100)%Q
    !! "Design"
  = Some (hex_color (hash_hue "Eng") (85 # 100)%Q (7 # 10)%Q) /\
  assign_task_colors scenario_tasks true false false (7 # 10)%Q (85 # 100)%Q
    !! "Review"
  = Some (hex_color (hash_hue "Eng") (85 # 100)%Q (7 # 10)%Q).
Proof.
  split; [reflexivity|]. split; [reflexivity|]. split; [reflexivity|].
  apply (same_attribute_same_colour scenario_tasks true false (7 # 10)%Q
           (85 # 100)%Q "Design" "Review" "Eng"); reflexivity.
Defined.


Lemma nonpositive_lightness_paints_black_witness :
  (-1 # 2 <= 0)%Q /\
  exists color,
    assign_task_colors scenario_tasks false false true
      (py_max 0 (py_min 1 (7 # 10))) (py_max 0 (py_min 1 (-1 # 2)))
      !! "Ship" = Some color /\
    color = "#000000".
Proof.
  assert (H : (-1 # 2 <= 0)%Q) by discriminate.
  split; [exact H|].
  eexists. split; [vm_compute; reflexivity|].
  apply (nonpositive_lightness_paints_black scenario_tasks false false true
           (7 # 10)%Q (-1 # 2)%Q "Ship"); [exact H|].
  vm_compute. reflexivity.
Defined.

Lemma year_is_inferred_from_earliest_start_witness :
  (args_year default_args = None \/ args_year default_args = Some 0) /\
  match omap (fun r => valid_date (Start_date r)) scenario_tasks with
  | [] => target_year_of default_args scenario_tasks 2026 = 2026
  | starts =>
      exists earliest,
        earliest ∈ starts /\
        (forall d, d ∈ starts -> date_le earliest d = true) /\
        target_year_of default_args scenario_tasks 2026 = year earliest
  end.
Proof.
  assert (H : args_year default_args = None \/ args_year default_args = Some 0)
    by (left; reflexivity).
  split; [exact H|].
  apply (year_is_inferred_from_earliest_start default_args scenario_tasks 2026).
  exact H.
Defined.



Lemma grouping_boxes_stay_exclusive_witness :
  gui_color_by_label sample_gui && gui_color_by_bucket sample_gui = false /\
  gui_color_by_label (click_color_by_label sample_gui)
    && gui_color_by_bucket (click_color_by_label sample_gui) = false /\
  gui_color_by_label (click_color_by_bucket sample_gui)
    && gui_color_by_bucket (click_color_by_bucket sample_gui) = false /\
  (gui_selected_tab sample_gui = 1 -> gui_color_by_bucket sample_gui = true ->
   gui_color_by_label (click_color_by_label sample_gui) = true /\
   gui_color_by_bucket (click_color_by_label sample_gui) = false) /\
  (gui_selected_tab sample_gui = 1 -> gui_color_by_label sample_gui = true ->
   click_color_by_bucket sample_gui = sample_gui).
Proof.
  split; [reflexivity|].
  apply (grouping_boxes_stay_exclusive sample_gui). reflexivity.
Defined.

Lemma sample_gui_is_valid :
  validate_inputs (fun _ => true) sample_gui = Valid.
Proof. vm_compute. reflexivity. Qed.

Lemma window_writes_or_reports_witness :
  (366 <= 366)%nat /\ frame_ok scenario_tasks /\
  validate_inputs (fun _ => true) sample_gui = Valid /\
  2 <= 2026 <= 9998 /\
  exists outcome,
    generate_calendar 366 (fun _ => true) sample_gui scenario_tasks 2026
    = (resolve_dates scenario_tasks, outcome) /\
    match resolve_month_num (gui_target_month sample_gui) with
    | Some m =>
        if (1 <=? m) && (m <=? 12) then exists html, outcome = Written html
        else exists e, outcome = Failed e
    | None => exists html, outcome = Written html
    end.
Proof.
  split; [lia|]. split; [exact scenario_tasks_ok|].
  split; [exact sample_gui_is_valid|]. split; [lia|].
  apply (window_writes_or_reports 366 (fun _ => true) sample_gui
           scenario_tasks 2026);
    [lia|exact scenario_tasks_ok|exact sample_gui_is_valid|lia].
Defined.

Lemma untouched_year_box_targets_its_year_witness :
  gui_year sample_gui = py_str 2024 /\
  gui_target_year sample_gui scenario_tasks 2026 = Ok 2024 /\
  (validate_inputs (fun _ => true) sample_gui = Valid -> 1900 <= 2024 <= 2100).
Proof.
  split; [reflexivity|].
  apply (untouched_year_box_targets_its_year (fun _ => true) sample_gui
           scenario_tasks 2026 2024). reflexivity.
Defined.

Lemma window_and_command_line_agree_witness :
  validate_inputs (fun _ => true) sample_gui = Valid /\
  target_month_of (args_of_gui sample_gui) <> None /\
  exists table html_content,
    main 366 (args_of_gui sample_gui) scenario_tasks 2026
    = (table, Generated html_content) /\
    generate_calendar 366 (fun _ => true) sample_gui scenario_tasks 2026
    = (table, match html_content with
              | Ok html_content => Written html_content
              | Raise e => Failed e
              end).
Proof.
  assert (Hm : target_month_of (args_of_gui sample_gui) <> None)
    by (vm_compute; discriminate).
  split; [exact sample_gui_is_valid|]. split; [exact Hm|].
  apply (window_and_command_line_agree 366 (fun _ => true) sample_gui
           scenario_tasks 2026); [exact sample_gui_is_valid|exact Hm].
Defined.


Lemma days_of_other_years_are_drawn_empty_witness :
  (366 <= 366)%nat /\ frame_ok scenario_tasks /\
  buildDayIndex 366 scenario_tasks 2024 = Ok scenario_index /\
  year (mkdate 2023 12 31) <> 2024 /\
  tasks_on scenario_index (mkdate 2023 12 31) = [] /\
  render_day (dropna (resolve_dates scenario_tasks)) scenario_index ∅ false
    None (mkdate 2023 12 31)
  = ["    <div class=" ++ dq ++ day_class None (mkdate 2023 12 31) ++ dq
       ++ ">";
     "      <div class=" ++ dq ++ "day-number" ++ dq ++ ">"
       ++ py_str (day (mkdate 2023 12 31)) ++ "</div>";
     "      <div class=" ++ dq ++ "tasks" ++ dq ++ ">";
     "      </div>"; "    </div>"].
Proof.
  assert (Hy : year (mkdate 2023 12 31) <> 2024) by (cbn; lia).
  split; [lia|]. split; [exact scenario_tasks_ok|].
  split; [exact scenario_index_built|]. split; [exact Hy|].
  apply (days_of_other_years_are_drawn_empty 366 scenario_tasks 2024
           scenario_index ∅ false None (mkdate 2023 12 31));
    [lia|exact scenario_tasks_ok|exact scenario_index_built|exact Hy].
Defined.
